(** * Data plotter: table / plot state-synchronisation engine

    A shallow embedding of [static/app.ts]: the in-memory table
    ([tableData], [columnCounter]), the parts of the page the script reads
    back (header cells, input row, rendered body cells, the three axis
    dropdowns), the requests it sends, and the event handlers that keep
    them in step.

    The file has three parts: [Js] embeds the language and browser
    primitives the script calls ([trim], the date pattern, [parseFloat],
    [parseInt], [Number.prototype.toString], [Date], object and array
    access, [Array.prototype.sort], form-control values); [App] embeds the
    script's own functions for the table and the plot, keeping their
    names, [Server] those for paths, dropped files and the replies that
    replace the table, and [Analysis] those for the correlations; the
    lemmas and theorems follow. *)

From Stdlib Require Import ZArith List String Ascii Bool Lia.
From Stdlib Require Import Permutation Sorted.
From Stdlib Require Import DecimalString DecimalPos DecimalN.
Import ListNotations.

Local Open Scope string_scope.
Local Open Scope Z_scope.

(* ================================================================== *)
(** * Language and browser primitives                                  *)
(* ================================================================== *)

Module Js.

(** ** Strings

    A [string] is a sequence of code units; every code unit of the model
    lies below 256, so a character is its Latin-1 code point. *)

Definition code (c : ascii) : Z := Z.of_N (N_of_ascii c).

(** White space and line terminators removed by [String.prototype.trim]
    and skipped by [parseFloat] and [parseInt]: TAB, LF, VT, FF, CR, SP
    and NBSP (the others lie above the code units of the model). *)
Definition is_ws (c : ascii) : bool :=
  ((9 <=? code c) && (code c <=? 13)) || (code c =? 32) || (code c =? 160).

Definition is_digit (c : ascii) : bool :=
  (48 <=? code c) && (code c <=? 57).

Definition digit_val (c : ascii) : Z := code c - 48.

Definition is_empty (s : string) : bool :=
  match s with EmptyString => true | String _ _ => false end.

Fixpoint ltrim (s : string) : string :=
  match s with
  | String c r => if is_ws c then ltrim r else s
  | EmptyString => EmptyString
  end.

Fixpoint rtrim (s : string) : string :=
  match s with
  | String c r =>
      let r' := rtrim r in
      if is_ws c && is_empty r' then EmptyString else String c r'
  | EmptyString => EmptyString
  end.

(** [s.trim()] *)
Definition trim (s : string) : string := rtrim (ltrim s).

(** Truthiness of a string: the empty string is the only falsy one. *)
Definition truthy (s : string) : bool := negb (is_empty s).

(** [a || b] on strings. *)
Definition or_else (a b : string) : string := if truthy a then a else b.

(** Longest prefix of characters satisfying [p], and what follows it. *)
Fixpoint span (p : ascii -> bool) (s : string) : string * string :=
  match s with
  | String c r =>
      if p c then let (a, b) := span p r in (String c a, b)
      else (EmptyString, s)
  | EmptyString => (EmptyString, EmptyString)
  end.

(** No character of [s] is [c]. *)
Fixpoint lacks (c : ascii) (s : string) : bool :=
  match s with
  | String a r => negb (Ascii.eqb a c) && lacks c r
  | EmptyString => true
  end.

(** [s.split(sep)[0]] for a one-character separator. *)
Fixpoint before (sep : ascii) (s : string) : string :=
  match s with
  | String c r => if Ascii.eqb c sep then EmptyString else String c (before sep r)
  | EmptyString => EmptyString
  end.

(** The regular expression [/^\d{4}-\d{2}-\d{2}$/] of the cell-edit
    handler: [\d] is an ASCII digit, and without the [m] flag [^] and [$]
    are the two ends of the subject. *)
Definition test_date_pattern (s : string) : bool :=
  match list_ascii_of_string s with
  | [y1; y2; y3; y4; h1; m1; m2; h2; d1; d2] =>
      is_digit y1 && is_digit y2 && is_digit y3 && is_digit y4
      && Ascii.eqb h1 "-"
      && is_digit m1 && is_digit m2
      && Ascii.eqb h2 "-"
      && is_digit d1 && is_digit d2
  | _ => false
  end.

(** Decimal text of a natural number ([n.toString()] on a small
    non-negative integer, template-literal interpolation). *)
Definition decimal_of_N (n : N) : string := NilZero.string_of_uint (N.to_uint n).
Definition decimal_of_nat (n : nat) : string := decimal_of_N (N.of_nat n).

(** ** Numbers

    A Number is [NaN], an infinity, or a finite value.  A finite value is
    kept as the exact decimal [m * 10^e] it was written as, in lowest
    terms ([m] not a multiple of ten, zero as [Fin 0 0]); the rounding of
    a literal to binary64 and the sign of zero are outside the model. *)

Inductive JsNum : Type :=
| NaN
| Inf (neg : bool)
| Fin (m e : Z).

Fixpoint strip10 (fuel : nat) (m e : Z) : Z * Z :=
  match fuel with
  | O => (m, e)
  | S f => if m mod 10 =? 0 then strip10 f (m / 10) (e + 1) else (m, e)
  end.

Definition mkFin (m e : Z) : JsNum :=
  if m =? 0 then Fin 0 0
  else let (m', e') := strip10 (S (Z.to_nat (Z.log2 (Z.abs m)))) m e in Fin m' e'.

Definition zero : JsNum := Fin 0 0.

Definition isNaN (n : JsNum) : bool :=
  match n with NaN => true | _ => false end.

(** [a - b] *)
Definition num_sub (a b : JsNum) : JsNum :=
  match a, b with
  | NaN, _ | _, NaN => NaN
  | Inf x, Inf y => if Bool.eqb x y then NaN else Inf x
  | Inf x, Fin _ _ => Inf x
  | Fin _ _, Inf y => Inf (negb y)
  | Fin m1 e1, Fin m2 e2 =>
      let e := Z.min e1 e2 in
      mkFin (m1 * 10 ^ (e1 - e) - m2 * 10 ^ (e2 - e)) e
  end.

(** [n > 0] *)
Definition is_pos (n : JsNum) : bool :=
  match n with
  | NaN => false
  | Inf neg => negb neg
  | Fin m _ => 0 <? m
  end.

(** [a <= b] *)
Definition num_leb (a b : JsNum) : bool :=
  match a, b with
  | NaN, _ | _, NaN => false
  | Inf x, Inf y => x || negb y
  | Inf x, Fin _ _ => x
  | Fin _ _, Inf y => negb y
  | Fin m1 e1, Fin m2 e2 =>
      let e := Z.min e1 e2 in
      m1 * 10 ^ (e1 - e) <=? m2 * 10 ^ (e2 - e)
  end.

(** Value of a run of digits in base [b], read after the digits [acc]. *)
Fixpoint digits_val (b : Z) (val : ascii -> Z) (acc : Z) (s : string) : Z :=
  match s with
  | String c r => digits_val b val (acc * b + val c) r
  | EmptyString => acc
  end.

Definition dec_val (s : string) : Z := digits_val 10 digit_val 0 s.

Definition split_sign (s : string) : bool * string :=
  match s with
  | String c r =>
      if Ascii.eqb c "-" then (true, r)
      else if Ascii.eqb c "+" then (false, r)
      else (false, s)
  | EmptyString => (false, s)
  end.

Definition is_e (c : ascii) : bool := Ascii.eqb c "e" || Ascii.eqb c "E".

(** [ExponentPart], when one is present: its value and what follows. *)
Definition exponent_part (s : string) : Z * string :=
  match s with
  | String c r =>
      if is_e c then
        let (neg, r1) := split_sign r in
        let (ds, r2) := span is_digit r1 in
        if is_empty ds then (0, s)
        else ((if neg then - dec_val ds else dec_val ds), r2)
      else (0, s)
  | EmptyString => (0, s)
  end.

Fixpoint drop (n : nat) (s : string) : string :=
  match n, s with
  | S k, String _ r => drop k r
  | _, _ => s
  end.

(** Longest prefix of [s] that is a [StrDecimalLiteral], as its value and
    the text after it; [None] when no prefix is one. *)
Definition str_decimal_literal (s : string) : option (JsNum * string) :=
  let (neg, s1) := split_sign s in
  if prefix "Infinity" s1 then Some (Inf neg, drop 8 s1)
  else
    let (ip, r1) := span is_digit s1 in
    let (fp, r2) :=
      match r1 with
      | String c t =>
          if Ascii.eqb c "." then
            let (f, r) := span is_digit t in
            if is_empty ip && is_empty f then (EmptyString, r1) else (f, r)
          else (EmptyString, r1)
      | EmptyString => (EmptyString, r1)
      end in
    if is_empty ip && is_empty fp then None
    else
      let (ex, r3) := exponent_part r2 in
      let m := dec_val (ip ++ fp) in
      Some (mkFin (if neg then - m else m) (ex - Z.of_nat (String.length fp)), r3).

(** [parseFloat(s)] *)
Definition parseFloat (s : string) : JsNum :=
  match str_decimal_literal (ltrim s) with
  | Some (n, _) => n
  | None => NaN
  end.

Definition is_hex_digit (c : ascii) : bool :=
  is_digit c
  || ((65 <=? code c) && (code c <=? 70))
  || ((97 <=? code c) && (code c <=? 102)).

Definition hex_val (c : ascii) : Z :=
  if is_digit c then code c - 48
  else if code c <=? 70 then code c - 55
  else code c - 87.

Definition is_x (c : ascii) : bool := Ascii.eqb c "x" || Ascii.eqb c "X".

(** [parseInt(s)] with no radix argument; [None] is [NaN]. *)
Definition parseInt (s : string) : option Z :=
  let (neg, s1) := split_sign (ltrim s) in
  let sgn (v : Z) := if neg then - v else v in
  let hex :=
    match s1 with
    | String c0 (String c1 r) =>
        if Ascii.eqb c0 "0" && is_x c1 then Some r else None
    | _ => None
    end in
  match hex with
  | Some r =>
      let (ds, _) := span is_hex_digit r in
      if is_empty ds then None else Some (sgn (digits_val 16 hex_val 0 ds))
  | None =>
      let (ds, _) := span is_digit s1 in
      if is_empty ds then None else Some (sgn (dec_val ds))
  end.

(** A literal with a base prefix ([0x], [0o], [0b]), read whole. *)
Definition non_decimal_literal (s : string) : option JsNum :=
  match s with
  | String c0 (String c r) =>
      let read (b : Z) (p : ascii -> bool) (v : ascii -> Z) :=
        let (ds, rest) := span p r in
        if is_empty ds || negb (is_empty rest) then Some NaN
        else Some (mkFin (digits_val b v 0 ds) 0) in
      if negb (Ascii.eqb c0 "0") then None
      else if is_x c then read 16 is_hex_digit hex_val
      else if Ascii.eqb c "o" || Ascii.eqb c "O"
      then read 8 (fun d => (48 <=? code d) && (code d <=? 55)) digit_val
      else if Ascii.eqb c "b" || Ascii.eqb c "B"
      then read 2 (fun d => (48 <=? code d) && (code d <=? 49)) digit_val
      else None
  | _ => None
  end.

(** [Number(s)] for a string: the whole trimmed text must be a numeric
    literal, and the empty text is zero. *)
Definition string_to_number (s : string) : JsNum :=
  let t := trim s in
  if is_empty t then zero
  else match non_decimal_literal t with
       | Some n => n
       | None =>
           match str_decimal_literal t with
           | Some (n, EmptyString) => n
           | _ => NaN
           end
       end.

Fixpoint zeros (n : nat) : string :=
  match n with O => EmptyString | S k => String "0" (zeros k) end.

Fixpoint take (n : nat) (s : string) : string :=
  match n, s with
  | S k, String c r => String c (take k r)
  | _, _ => EmptyString
  end.

(** [n.toString()] *)
Definition number_to_string (x : JsNum) : string :=
  match x with
  | NaN => "NaN"
  | Inf neg => if neg then "-Infinity" else "Infinity"
  | Fin m e =>
      if m =? 0 then "0"
      else
        let sign := if m <? 0 then "-" else "" in
        let ds := decimal_of_N (Z.to_N (Z.abs m)) in
        let k := Z.of_nat (String.length ds) in
        let n := k + e in
        sign ++
        (if (k <=? n) && (n <=? 21) then ds ++ zeros (Z.to_nat (n - k))
         else if (0 <? n) && (n <=? 21)
         then take (Z.to_nat n) ds ++ "." ++ drop (Z.to_nat n) ds
         else if (-6 <? n) && (n <=? 0)
         then "0." ++ zeros (Z.to_nat (- n)) ++ ds
         else
           let ex := (if n - 1 <? 0 then "-" else "+")
                     ++ decimal_of_N (Z.to_N (Z.abs (n - 1))) in
           if k =? 1 then ds ++ "e" ++ ex
           else take 1 ds ++ "." ++ drop 1 ds ++ "e" ++ ex)
  end.

(** ** Dates

    A time value is a number of milliseconds since 1970-01-01T00:00Z.  The
    device's time zone is a fixed offset [tz], in minutes east of UTC. *)

Definition msPerDay : Z := 86400000.
Definition msPerMinute : Z := 60000.

Definition is_leap (y : Z) : bool :=
  ((y mod 4 =? 0) && negb (y mod 100 =? 0)) || (y mod 400 =? 0).

Definition days_in_month (y m : Z) : Z :=
  if m =? 2 then (if is_leap y then 29 else 28)
  else if (m =? 4) || (m =? 6) || (m =? 9) || (m =? 11) then 30
  else 31.

(** Day number of the civil date [y]-[m]-[d] ([m] from 1 to 12), counted
    from 1970-01-01, in the proleptic Gregorian calendar. *)
Definition days_from_civil (y m d : Z) : Z :=
  let y' := if m <=? 2 then y - 1 else y in
  let era := y' / 400 in
  let yoe := y' - era * 400 in
  let mp := if 2 <? m then m - 3 else m + 9 in
  let doy := (153 * mp + 2) / 5 + d - 1 in
  let doe := yoe * 365 + yoe / 4 - yoe / 100 + doy in
  era * 146097 + doe - 719468.

(** Civil date (year, month from 1 to 12, day) of a day number. *)
Definition civil_from_days (z : Z) : Z * Z * Z :=
  let z' := z + 719468 in
  let era := z' / 146097 in
  let doe := z' - era * 146097 in
  let yoe := (doe - doe / 1460 + doe / 36524 - doe / 146096) / 365 in
  let doy := doe - (365 * yoe + yoe / 4 - yoe / 100) in
  let mp := (5 * doy + 2) / 153 in
  let d := doy - (153 * mp + 2) / 5 + 1 in
  let m := if mp <? 10 then mp + 3 else mp - 9 in
  let y := yoe + era * 400 in
  ((if m <=? 2 then y + 1 else y), m, d).

(** The local date of the time value [t]: [getFullYear()], [getMonth()]
    (counted from 0) and [getDate()]. *)
Definition local_civil (tz t : Z) : Z * Z * Z :=
  civil_from_days ((t + tz * msPerMinute) / msPerDay).

Definition getFullYear (tz t : Z) : Z := let '(y, _, _) := local_civil tz t in y.
Definition getMonth (tz t : Z) : Z := let '(_, m, _) := local_civil tz t in m - 1.
Definition getDate (tz t : Z) : Z := let '(_, _, d) := local_civil tz t in d.

(** [new Date(year, monthIndex, day)]: midnight of that date in local
    time, as a time value.  Years 0 to 99 stand for 1900 to 1999. *)
Definition new_Date_ymd (tz year monthIndex day : Z) : Z :=
  let y := if (0 <=? year) && (year <=? 99) then 1900 + year else year in
  days_from_civil y (monthIndex + 1) day * msPerDay - tz * msPerMinute.

Definition pad (width : nat) (n : Z) : string :=
  let ds := decimal_of_N (Z.to_N n) in
  zeros (width - String.length ds)%nat ++ ds.

(** The date of a day number in ISO form: YYYY-MM-DD, the year signed
    and six digits long outside 0 to 9999. *)
Definition iso_date (day : Z) : string :=
  let '(y, m, d) := civil_from_days day in
  (if (0 <=? y) && (y <=? 9999) then pad 4 y
   else (if y <? 0 then "-" else "+") ++ pad 6 (Z.abs y))
  ++ "-" ++ pad 2 m ++ "-" ++ pad 2 d.

(** [toISOString()]: always in UTC. *)
Definition toISOString (t : Z) : string :=
  let ms := t mod msPerDay in
  iso_date (t / msPerDay)
  ++ "T" ++ pad 2 (ms / 3600000) ++ ":" ++ pad 2 (ms / 60000 mod 60)
  ++ ":" ++ pad 2 (ms / 1000 mod 60) ++ "." ++ pad 3 (ms mod 1000) ++ "Z".

(** Year, month and day written in a text of the form YYYY-MM-DD. *)
Definition ymd_of (s : string) : option (Z * Z * Z) :=
  if test_date_pattern s
  then Some (dec_val (take 4 s), dec_val (take 2 (drop 5 s)), dec_val (drop 8 s))
  else None.

Definition valid_ymd (y m d : Z) : bool :=
  (1 <=? m) && (m <=? 12) && (1 <=? d) && (d <=? days_in_month y m).

(** [Date.parse(s)] for the date-only form YYYY-MM-DD, which is read as
    midnight UTC.  [None] is [NaN].  The other forms [Date.parse] reads
    (date and time, year alone, what an engine accepts beyond the standard)
    are outside the model, which answers [None] to them as well. *)
Definition Date_parse (s : string) : option Z :=
  match ymd_of s with
  | Some (y, m, d) =>
      if valid_ymd y m d then Some (days_from_civil y m d * msPerDay) else None
  | None => None
  end.

(** ** Values, objects and arrays *)

Inductive JsVal : Type :=
| VStr (s : string)
| VNum (n : JsNum).

(** [v.toString()] *)
Definition to_string (v : JsVal) : string :=
  match v with
  | VStr s => s
  | VNum n => number_to_string n
  end.

(** [Number(v)]; a missing property is [undefined], whose number is [NaN]. *)
Definition to_number (v : option JsVal) : JsNum :=
  match v with
  | Some (VNum n) => n
  | Some (VStr s) => string_to_number s
  | None => NaN
  end.

(** Number to time value ([TimeClip]): a whole number of milliseconds no
    further than 8.64e15 from the epoch. *)
Definition time_clip (n : JsNum) : JsNum :=
  match n with
  | Fin m e =>
      let t := if 0 <=? e then m * 10 ^ e else Z.quot m (10 ^ (- e)) in
      if Z.abs t <=? 8640000000000000 then mkFin t 0 else NaN
  | _ => NaN
  end.

(** [new Date(v).getTime()] *)
Definition Date_getTime (v : option JsVal) : JsNum :=
  match v with
  | Some (VStr s) =>
      match Date_parse s with Some t => mkFin t 0 | None => NaN end
  | Some (VNum n) => time_clip n
  | None => NaN
  end.

(** A plain object: its own string-keyed properties in insertion order.
    (Keys that spell an array index would be enumerated first, and names
    inherited from [Object.prototype] answer to [in]; column names of
    either kind are outside the model.) *)
Definition Obj : Type := list (string * JsVal).

(** [o[k]] *)
Fixpoint get (k : string) (o : Obj) : option JsVal :=
  match o with
  | [] => None
  | (k', v) :: r => if String.eqb k k' then Some v else get k r
  end.

(** [k in o] *)
Definition has (k : string) (o : Obj) : bool :=
  match get k o with Some _ => true | None => false end.

(** [o[k] = v]: an existing key keeps its place, a new one goes last. *)
Fixpoint set (k : string) (v : JsVal) (o : Obj) : Obj :=
  match o with
  | [] => [(k, v)]
  | (k', v') :: r =>
      if String.eqb k k' then (k, v) :: r else (k', v') :: set k v r
  end.

(** [delete o[k]] *)
Fixpoint delete (k : string) (o : Obj) : Obj :=
  match o with
  | [] => []
  | (k', v') :: r =>
      if String.eqb k k' then delete k r else (k', v') :: delete k r
  end.

(** [Object.keys(o)] *)
Definition keys (o : Obj) : list string := map fst o.

(** [{...a[i]}]: the element at a Number used as an index, copied; an
    index that is [NaN], negative or past the end reads [undefined],
    whose spread is the empty object. *)
Definition spread_at (i : option Z) (a : list Obj) : Obj :=
  match i with
  | Some n => if n <? 0 then [] else nth (Z.to_nat n) a []
  | None => []
  end.

Fixpoint list_set {A : Type} (n : nat) (x : A) (l : list A) : list A :=
  match l, n with
  | [], _ => []
  | _ :: r, O => x :: r
  | y :: r, S k => y :: list_set k x r
  end.

(** [a[i] = o].  An index inside the array replaces the element.  An index
    past the end lengthens the array; the positions skipped are holes,
    written here as empty objects.  A Number that is no array index ([NaN],
    negative) names an ordinary property, and the elements stay as they
    are. *)
Definition array_set (i : option Z) (o : Obj) (a : list Obj) : list Obj :=
  match i with
  | Some n =>
      if n <? 0 then a
      else if n <? Z.of_nat (List.length a) then list_set (Z.to_nat n) o a
      else (a ++ repeat [] (Z.to_nat n - List.length a)%nat ++ [o])%list
  | None => a
  end.

(** ** [Array.prototype.sort]

    The sort is stable and moves [x] after [y] only when
    [comparefn(x, y) > 0]; a [NaN] from the comparator counts as zero.
    For a consistent comparator the result is the same in every engine:
    the stable ascending arrangement, computed here by insertion. *)
Section Sort.
Context {A : Type} (comparefn : A -> A -> JsNum).

Fixpoint insert (x : A) (l : list A) : list A :=
  match l with
  | [] => [x]
  | y :: r => if is_pos (comparefn x y) then y :: insert x r else x :: l
  end.

Fixpoint sort (l : list A) : list A :=
  match l with
  | [] => []
  | x :: r => insert x (sort r)
  end.

End Sort.

(** A comparator of the shape [key(a) - key(b)], and the order it is
    meant to produce. *)
Definition by_key {A : Type} (key : A -> JsNum) (a b : A) : JsNum :=
  num_sub (key a) (key b).

Definition key_le {A : Type} (key : A -> JsNum) (a b : A) : Prop :=
  num_leb (key a) (key b) = true.

(** ** Form controls *)

Inductive InputType : Type := TDate | TNumber.

(** An [<input>]: its [id], its [type], and the text in the control (typed
    by the user or assigned by the script). *)
Record Input : Type := {
  i_id : string;
  i_type : InputType;
  i_text : string
}.

(** A valid floating-point number of the HTML standard: an optional minus,
    digits and/or a point followed by digits, an optional exponent. *)
Definition valid_float (s : string) : bool :=
  let s1 :=
    match s with
    | String c r => if Ascii.eqb c "-" then r else s
    | EmptyString => s
    end in
  let (ip, r1) := span is_digit s1 in
  let '(ok, r2) :=
    match r1 with
    | String c t =>
        if Ascii.eqb c "."
        then let (f, r) := span is_digit t in (negb (is_empty f), r)
        else (negb (is_empty ip), r1)
    | EmptyString => (negb (is_empty ip), r1)
    end in
  ok &&
  match r2 with
  | EmptyString => true
  | String c r =>
      is_e c &&
      (let (_, r3) := split_sign r in
       let (ds, r4) := span is_digit r3 in
       negb (is_empty ds) && is_empty r4)
  end.


(** A valid date string of the HTML standard, four-digit years. *)
Definition valid_date_string (s : string) : bool :=
  match ymd_of s with
  | Some (y, m, d) => (1 <=? y) && valid_ymd y m d
  | None => false
  end.

(** [input.value]: a control of type [number] or [date] whose text is not
    of its kind reads as the empty string. *)
Definition input_value (i : Input) : string :=
  match i_type i with
  | TNumber => if valid_float (i_text i) then i_text i else ""
  | TDate => if valid_date_string (i_text i) then i_text i else ""
  end.

(** A [<select>] of display size one: the values of its options, and the
    index of the selected one, if any. *)
Record Select : Type := {
  options : list string;
  selected : option nat
}.

(** [select.value]: the value of the selected option, or the empty
    string when none is selected. *)
Definition select_value (s : Select) : string :=
  match selected s with
  | Some i => nth i (options s) ""
  | None => ""
  end.

Fixpoint index_of (v : string) (l : list string) : option nat :=
  match l with
  | [] => None
  | x :: r =>
      if String.eqb v x then Some O
      else match index_of v r with Some i => Some (S i) | None => None end
  end.

(** [select.value = v]: every option is deselected, then the first option
    whose value is [v] is selected, if there is one. *)
Definition select_set_value (v : string) (s : Select) : Select :=
  {| options := options s; selected := index_of v (options s) |}.

(** A select emptied by [innerHTML = ''] and refilled by [appendChild]:
    with no option chosen yet, the first one is displayed and selected. *)
Definition select_of_options (l : list string) : Select :=
  {| options := l; selected := match l with [] => None | _ :: _ => Some O end |}.

(** ** Further primitives *)

(** Every character of [s] satisfies [p]. *)
Fixpoint every (p : ascii -> bool) (s : string) : bool :=
  match s with
  | String c r => p c && every p r
  | EmptyString => true
  end.

(** No character of [s] is white space. *)
Definition solid_text (s : string) : Prop :=
  every (fun c => negb (is_ws c)) s = true.

(** A Number in the form the model keeps it in: a finite value in lowest
    terms, as [mkFin] leaves it. *)
Definition canonical (x : JsNum) : bool :=
  match x with
  | Fin m e => if m =? 0 then e =? 0 else negb (m mod 10 =? 0)
  | _ => true
  end.

(** [Math.abs(x)] *)
Definition num_abs (x : JsNum) : JsNum :=
  match x with
  | NaN => NaN
  | Inf _ => Inf false
  | Fin m e => Fin (Z.abs m) e
  end.

(** [- x] *)
Definition num_neg (x : JsNum) : JsNum :=
  match x with
  | NaN => NaN
  | Inf neg => Inf (negb neg)
  | Fin m e => Fin (- m) e
  end.

(** [a < b] and [a > b]; false whenever an operand is [NaN]. *)
Definition num_ltb (a b : JsNum) : bool :=
  match a, b with
  | NaN, _ | _, NaN => false
  | Inf x, Inf y => x && negb y
  | Inf x, Fin _ _ => x
  | Fin _ _, Inf y => negb y
  | Fin m1 e1, Fin m2 e2 =>
      let e := Z.min e1 e2 in
      m1 * 10 ^ (e1 - e) <? m2 * 10 ^ (e2 - e)
  end.

Definition num_gtb (a b : JsNum) : bool := num_ltb b a.

(** [c.toLowerCase()] for one code unit below 256: the capital letters of
    ASCII and of Latin-1 (all of U+00C0 to U+00DE but the multiplication
    sign) move up by 32, the rest stay. *)
Definition lower (c : ascii) : ascii :=
  let n := code c in
  if ((65 <=? n) && (n <=? 90))
     || ((192 <=? n) && (n <=? 222) && negb (n =? 215))
  then ascii_of_N (Z.to_N (n + 32))
  else c.

(** [s.toLowerCase()] *)
Fixpoint toLowerCase (s : string) : string :=
  match s with
  | String c r => String (lower c) (toLowerCase r)
  | EmptyString => EmptyString
  end.

(** [s.lastIndexOf(c)] for a one-character [c]: the last position of [c]
    in [s], or -1. *)
Fixpoint lastIndexOf (c : ascii) (s : string) : Z :=
  match s with
  | String a r =>
      let i := lastIndexOf c r in
      if 0 <=? i then i + 1 else if Ascii.eqb a c then 0 else -1
  | EmptyString => -1
  end.

(** [s.substring(a, b)]: both ends are brought into [0 .. s.length], and
    exchanged when the first is the larger. *)
Definition substring (a b : Z) (s : string) : string :=
  let len := Z.of_nat (String.length s) in
  let a' := Z.min (Z.max a 0) len in
  let b' := Z.min (Z.max b 0) len in
  take (Z.to_nat (Z.max a' b' - Z.min a' b')) (drop (Z.to_nat (Z.min a' b')) s).

(** [s.match(/\.[^.]*$/)?.[0]]: the text from the last point of [s] to its
    end, when [s] has a point.  ([[^.]] matches every character but the
    point, line terminators too.) *)
Fixpoint match_extension (s : string) : option string :=
  match s with
  | String c r =>
      match match_extension r with
      | Some m => Some m
      | None => if Ascii.eqb c "." then Some s else None
      end
  | EmptyString => None
  end.

(** The comparator [sort()] uses when given none, on strings: the order
    of code units. *)
Definition code_unit_order (a b : string) : JsNum :=
  match String.compare a b with
  | Gt => Fin 1 0
  | Eq => zero
  | Lt => Fin (-1) 0
  end.

(** A [Set] of strings, in insertion order: [set.add(x)]. *)
Definition set_add (x : string) (l : list string) : list string :=
  if existsb (String.eqb x) l then l else (l ++ [x])%list.

(** A [Map] with string keys, in insertion order: [map.get(k)] and
    [map.set(k, v)]. *)
Fixpoint map_get {V : Type} (k : string) (m : list (string * V)) : option V :=
  match m with
  | [] => None
  | (k', v) :: r => if String.eqb k k' then Some v else map_get k r
  end.

Fixpoint map_set {V : Type} (k : string) (v : V) (m : list (string * V))
  : list (string * V) :=
  match m with
  | [] => [(k, v)]
  | (k', v') :: r =>
      if String.eqb k k' then (k, v) :: r else (k', v') :: map_set k v r
  end.

End Js.

(* ================================================================== *)
(** * The script                                                       *)
(* ================================================================== *)

Module App.
Import Js.

(** ** State

    [RowData]: a row of the table, keyed by column identifier. *)
Definition RowData : Type := Obj.

(** A header cell [<th>] of [#dataTable]: its [data-column] attribute, its
    text, whether it is [contenteditable], and how many [blur] listeners
    [setupColumnTitleListeners] has attached to it. *)
Record Header : Type := {
  h_column : string;
  h_text : string;
  h_editable : bool;
  h_listeners : nat
}.

(** A body cell [<td>]: its [data-column] attribute and its text. *)
Record Cell : Type := {
  c_column : string;
  c_text : string
}.

(** A rendered body row [<tr>]: its [data-row-index] attribute, the [row]
    the listeners of its cells closed over when it was rendered, and its
    cells. *)
Record BodyRow : Type := {
  r_index : option string;
  r_row : RowData;
  r_cells : list Cell
}.

(** A request handed to [fetch], with the body it was given. *)
Inductive Request : Type :=
| add_row (row : RowData)
| replace_data (data : list RowData).

(** The continuation of a cell edit waiting for its [replace_data] to
    settle: the rendering and position of the cell ([this]), and the
    variables [row], [columnName] and [rowIndex] of its closure. *)
Record Pending : Type := {
  p_generation : nat;
  p_r : nat;
  p_c : nat;
  p_row : RowData;
  p_columnName : string;
  p_rowIndex : option Z
}.

(** What [updatePlot] hands to [Plotly.newPlot]: the x and y sequences of
    the two traces, their names, and the title of the x axis. *)
Record Plot : Type := {
  trace_x : list (option JsVal);
  trace1_y : list (option JsVal);
  trace2_y : list (option JsVal);
  trace1_name : string;
  trace2_name : string;
  xaxis_title : string
}.

Record State : Type := {
  tableData : list RowData;
  columnCounter : nat;
  headers : list Header;
  inputs : list Input;
  xAxisSelect : Select;
  yAxis1Select : Select;
  yAxis2Select : Select;
  tbody : list BodyRow;
  generation : nat;
  plot : option Plot;
  sent : list Request;
  pending : list Pending;
  now : Z;
  tz : Z
}.

Definition with_tableData (v : list RowData) (s : State) : State :=
  {| tableData := v; columnCounter := columnCounter s; headers := headers s;
     inputs := inputs s; xAxisSelect := xAxisSelect s;
     yAxis1Select := yAxis1Select s; yAxis2Select := yAxis2Select s;
     tbody := tbody s; generation := generation s; plot := plot s;
     sent := sent s; pending := pending s; now := now s; tz := tz s |}.

Definition with_columnCounter (v : nat) (s : State) : State :=
  {| tableData := tableData s; columnCounter := v; headers := headers s;
     inputs := inputs s; xAxisSelect := xAxisSelect s;
     yAxis1Select := yAxis1Select s; yAxis2Select := yAxis2Select s;
     tbody := tbody s; generation := generation s; plot := plot s;
     sent := sent s; pending := pending s; now := now s; tz := tz s |}.

Definition with_headers (v : list Header) (s : State) : State :=
  {| tableData := tableData s; columnCounter := columnCounter s; headers := v;
     inputs := inputs s; xAxisSelect := xAxisSelect s;
     yAxis1Select := yAxis1Select s; yAxis2Select := yAxis2Select s;
     tbody := tbody s; generation := generation s; plot := plot s;
     sent := sent s; pending := pending s; now := now s; tz := tz s |}.

Definition with_inputs (v : list Input) (s : State) : State :=
  {| tableData := tableData s; columnCounter := columnCounter s;
     headers := headers s; inputs := v; xAxisSelect := xAxisSelect s;
     yAxis1Select := yAxis1Select s; yAxis2Select := yAxis2Select s;
     tbody := tbody s; generation := generation s; plot := plot s;
     sent := sent s; pending := pending s; now := now s; tz := tz s |}.

Definition with_selects (x y1 y2 : Select) (s : State) : State :=
  {| tableData := tableData s; columnCounter := columnCounter s;
     headers := headers s; inputs := inputs s; xAxisSelect := x;
     yAxis1Select := y1; yAxis2Select := y2;
     tbody := tbody s; generation := generation s; plot := plot s;
     sent := sent s; pending := pending s; now := now s; tz := tz s |}.

Definition with_tbody (v : list BodyRow) (g : nat) (s : State) : State :=
  {| tableData := tableData s; columnCounter := columnCounter s;
     headers := headers s; inputs := inputs s; xAxisSelect := xAxisSelect s;
     yAxis1Select := yAxis1Select s; yAxis2Select := yAxis2Select s;
     tbody := v; generation := g; plot := plot s;
     sent := sent s; pending := pending s; now := now s; tz := tz s |}.

Definition with_plot (v : option Plot) (s : State) : State :=
  {| tableData := tableData s; columnCounter := columnCounter s;
     headers := headers s; inputs := inputs s; xAxisSelect := xAxisSelect s;
     yAxis1Select := yAxis1Select s; yAxis2Select := yAxis2Select s;
     tbody := tbody s; generation := generation s; plot := v;
     sent := sent s; pending := pending s; now := now s; tz := tz s |}.

Definition with_sent (v : list Request) (s : State) : State :=
  {| tableData := tableData s; columnCounter := columnCounter s;
     headers := headers s; inputs := inputs s; xAxisSelect := xAxisSelect s;
     yAxis1Select := yAxis1Select s; yAxis2Select := yAxis2Select s;
     tbody := tbody s; generation := generation s; plot := plot s;
     sent := v; pending := pending s; now := now s; tz := tz s |}.

Definition with_pending (v : list Pending) (s : State) : State :=
  {| tableData := tableData s; columnCounter := columnCounter s;
     headers := headers s; inputs := inputs s; xAxisSelect := xAxisSelect s;
     yAxis1Select := yAxis1Select s; yAxis2Select := yAxis2Select s;
     tbody := tbody s; generation := generation s; plot := plot s;
     sent := sent s; pending := v; now := now s; tz := tz s |}.

(** [fetch(url, {body})]: the request leaves with the body as it is now. *)
Definition fetch (q : Request) (s : State) : State :=
  with_sent (sent s ++ [q])%list s.

(** ** Page access *)

(** [document.getElementById(id)] for the fields of the input row: the
    first one in document order.  (Column identifiers that are also the
    [id] of another element of the page are outside the model.) *)
Definition getElementById (id : string) (l : list Input) : option Input :=
  find (fun i => String.eqb (i_id i) id) l.

(** Change the first field whose [id] is [id]. *)
Fixpoint update_input (id : string) (f : Input -> Input) (l : list Input)
  : list Input :=
  match l with
  | [] => []
  | i :: r =>
      if String.eqb (i_id i) id then f i :: r else i :: update_input id f r
  end.

Definition set_text (t : string) (i : Input) : Input :=
  {| i_id := i_id i; i_type := i_type i; i_text := t |}.

Definition set_id (id : string) (i : Input) : Input :=
  {| i_id := id; i_type := i_type i; i_text := i_text i |}.

Fixpoint update_nth {A : Type} (n : nat) (f : A -> A) (l : list A) : list A :=
  match l, n with
  | [], _ => []
  | x :: r, O => f x :: r
  | x :: r, S k => x :: update_nth k f r
  end.

Definition set_header_text (t : string) (h : Header) : Header :=
  {| h_column := h_column h; h_text := t; h_editable := h_editable h;
     h_listeners := h_listeners h |}.

Definition set_header_column (k : string) (h : Header) : Header :=
  {| h_column := k; h_text := h_text h; h_editable := h_editable h;
     h_listeners := h_listeners h |}.

Definition set_cell_text (t : string) (c : Cell) : Cell :=
  {| c_column := c_column c; c_text := t |}.

Definition update_cell (r c : nat) (f : Cell -> Cell) (b : list BodyRow)
  : list BodyRow :=
  update_nth r (fun br =>
    {| r_index := r_index br; r_row := r_row br;
       r_cells := update_nth c f (r_cells br) |}) b.

(** [this.textContent = t] for the body cell at row [r], cell [c]. *)
Definition cell_textContent (r c : nat) (t : string) (s : State) : State :=
  with_tbody (update_cell r c (set_cell_text t) (tbody s)) (generation s) s.

(** [this.textContent = t] for the header cell [i]. *)
Definition header_textContent (i : nat) (t : string) (s : State) : State :=
  with_headers (update_nth i (set_header_text t) (headers s)) s.

Fixpoint mapi_from {A B : Type} (f : nat -> A -> B) (i : nat) (l : list A)
  : list B :=
  match l with
  | [] => []
  | x :: r => f i x :: mapi_from f (S i) r
  end.

Definition str_neqb (a b : string) : bool := negb (String.eqb a b).

(** ** Functions of the script *)

(** [getTodayLocal()] *)
Definition today_midnight (s : State) : Z :=
  new_Date_ymd (tz s) (getFullYear (tz s) (now s))
    (getMonth (tz s) (now s)) (getDate (tz s) (now s)).

Definition getTodayLocal (s : State) : string :=
  before "T" (toISOString (today_midnight s)).

Definition defaultColumns : list string := ["Date"; "Variable 1"; "Variable 2"].

(** [getColumnHeaders()] *)
Definition getColumnHeaders (s : State) : list string :=
  let columns := map h_column (headers s) in
  if negb (Nat.eqb (List.length (headers s)) 0) && forallb truthy columns
  then columns
  else match tableData s with
       | row0 :: _ => keys row0
       | [] => defaultColumns
       end.

(** [updatePlot()] *)
Definition compare_rows (xAxis : string) (a b : RowData) : JsNum :=
  if String.eqb xAxis "Date"
  then num_sub (Date_getTime (get xAxis a)) (Date_getTime (get xAxis b))
  else num_sub (to_number (get xAxis a)) (to_number (get xAxis b)).


Definition updatePlot (s : State) : State :=
  let xAxis := select_value (xAxisSelect s) in
  let yAxis1 := select_value (yAxis1Select s) in
  let yAxis2 := select_value (yAxis2Select s) in
  let sortedData := sort (compare_rows xAxis) (tableData s) in
  with_plot (Some {| trace_x := map (get xAxis) sortedData;
                     trace1_y := map (get yAxis1) sortedData;
                     trace2_y := map (get yAxis2) sortedData;
                     trace1_name := yAxis1;
                     trace2_name := yAxis2;
                     xaxis_title := xAxis |}) s.

(** [a[0] || b], where [a[0]] and [b] may be [undefined]. *)
Definition first_or (a : list string) (b : option string) : option string :=
  match a with
  | x :: _ => if truthy x then Some x else b
  | [] => b
  end.

(** The string a select is given when assigned a possibly undefined value. *)
Definition assigned (v : option string) : string :=
  match v with Some x => x | None => "undefined" end.

(** [desired && l.includes(desired)] *)
Definition wanted (desired : option string) (l : list string) : option string :=
  match desired with
  | Some v => if truthy v && existsb (String.eqb v) l then Some v else None
  | None => None
  end.

(** [updateDropdownSelectors(desiredX, desiredY1, desiredY2)] *)
Definition updateDropdownSelectors (desiredX desiredY1 desiredY2 : option string)
    (s : State) : State :=
  let columnNames := getColumnHeaders s in
  let nonDateColumns := filter (fun col => str_neqb col "Date") columnNames in
  let x0 := select_of_options columnNames in
  let y0 := select_of_options nonDateColumns in
  let x :=
    match wanted desiredX columnNames with
    | Some v => select_set_value v x0
    | None => select_set_value "Date" x0
    end in
  let y1 :=
    match wanted desiredY1 nonDateColumns with
    | Some v => select_set_value v y0
    | None =>
        select_set_value
          (assigned (first_or nonDateColumns (nth_error columnNames 0))) y0
    end in
  let y2 :=
    match wanted desiredY2 nonDateColumns with
    | Some v => select_set_value v y0
    | None =>
        let y1Value := select_value y1 in
        let availableColumns :=
          filter (fun col => str_neqb col y1Value) nonDateColumns in
        select_set_value
          (assigned (first_or availableColumns
                       (first_or nonDateColumns (nth_error columnNames 0)))) y0
    end in
  with_selects x y1 y2 s.

(** [renderTableRows()]: every body row is rebuilt from [tableData], and
    the listeners of the new cells close over the rows as they are now. *)
Definition render_cell (row : RowData) (key : string) : Cell :=
  {| c_column := key;
     c_text := match get key row with Some v => to_string v | None => "" end |}.

Definition renderTableRows (s : State) : State :=
  let columnOrder := getColumnHeaders s in
  with_tbody
    (mapi_from (fun dataIndex row =>
                  {| r_index := Some (decimal_of_nat dataIndex);
                     r_row := row;
                     r_cells := map (render_cell row) columnOrder |})
               O (tableData s))
    (S (generation s)) s.

(** [setupColumnTitleListeners()]: one more [blur] listener on every
    header cell that has a [data-column]. *)
Definition setupColumnTitleListeners (s : State) : State :=
  with_headers
    (map (fun h =>
            if truthy (h_column h)
            then {| h_column := h_column h; h_text := h_text h;
                    h_editable := h_editable h;
                    h_listeners := S (h_listeners h) |}
            else h) (headers s)) s.

(** The markup written for a column: its header cell and its input field. *)
Definition header_of (col : string) : Header :=
  {| h_column := col; h_text := col; h_editable := str_neqb col "Date";
     h_listeners := O |}.

Definition input_of (today : string) (col : string) : Input :=
  if String.eqb col "Date"
  then {| i_id := col; i_type := TDate; i_text := today |}
  else {| i_id := col; i_type := TNumber; i_text := "" |}.

(** [updateTableHeaders()] *)
Definition updateTableHeaders (s : State) : State :=
  setupColumnTitleListeners (with_headers (map header_of (getColumnHeaders s)) s).

(** [updateInputRow()] *)
Definition updateInputRow (s : State) : State :=
  with_inputs (map (input_of (getTodayLocal s)) (getColumnHeaders s)) s.

(** [addRow()].  Without a field whose id is [Date] the first statement
    throws and nothing is done. *)
Definition new_value (s : State) (key : string) : JsVal :=
  let value :=
    match getElementById key (inputs s) with
    | Some input => input_value input
    | None => ""
    end in
  VNum (if truthy value && negb (is_empty (trim value))
        then parseFloat value else zero).

Definition build_row (s : State) (date : string) : RowData :=
  fold_left (fun newRow key =>
               if str_neqb key "Date" then set key (new_value s key) newRow
               else newRow)
            (getColumnHeaders s) [("Date", VStr date)].

Definition clear_inputs (columnNames : list string) (l : list Input) : list Input :=
  fold_left (fun acc col =>
               if str_neqb col "Date" then update_input col (set_text "") acc
               else acc)
            columnNames l.

Definition addRow (s : State) : State :=
  match getElementById "Date" (inputs s) with
  | None => s
  | Some dateInput =>
      let date0 := input_value dateInput in
      let today := getTodayLocal s in
      let date := if truthy date0 then date0 else today in
      let s1 := if truthy date0 then s
                else with_inputs (update_input "Date" (set_text today) (inputs s)) s in
      let newRow := build_row s1 date in
      let s2 := with_tableData (tableData s1 ++ [newRow])%list s1 in
      let s3 := fetch (add_row newRow) s2 in
      let s4 := with_inputs (update_input "Date" (set_text "") (inputs s3)) s3 in
      let s5 := with_inputs (clear_inputs (getColumnHeaders s4) (inputs s4)) s4 in
      updatePlot (renderTableRows s5)
  end.

(** [addColumn()].  The script writes the new property into the row
    objects themselves.  The body is rendered again before the function
    returns, and a row a waiting cell edit closed over was replaced in
    [tableData] by that edit, so no closure of the model sees the write. *)
Definition addColumn (s : State) : State :=
  let newColumnKey := "Variable " ++ decimal_of_nat (columnCounter s) in
  let s1 := with_columnCounter (S (columnCounter s)) s in
  let newHeader := {| h_column := newColumnKey; h_text := newColumnKey;
                      h_editable := true; h_listeners := O |} in
  let s2 := with_headers (headers s1 ++ [newHeader])%list s1 in
  let input := {| i_id := newColumnKey; i_type := TNumber; i_text := "" |} in
  let s3 := with_inputs (inputs s2 ++ [input])%list s2 in
  let s4 := with_tableData (map (set newColumnKey (VNum zero)) (tableData s3)) s3 in
  let s5 := fetch (replace_data (tableData s4)) s4 in
  setupColumnTitleListeners (updateDropdownSelectors None None None (renderTableRows s5)).

(** The [blur] listener of a header cell ([setupColumnTitleListeners]),
    run for the header cell [i]: the rename of a column. *)
Definition rename_key (oldKey newKey : string) (row : RowData) : RowData :=
  match get oldKey row with
  | Some v => delete oldKey (set newKey v row)
  | None => row
  end.

Definition repoint (oldKey newTitle : string) (sel : Select) : Select :=
  if String.eqb (select_value sel) oldKey then select_set_value newTitle sel
  else sel.

Definition header_blur (i : nat) (s : State) : State :=
  match nth_error (headers s) i with
  | None => s
  | Some this =>
      let newTitle := trim (h_text this) in
      let oldKey := h_column this in
      if negb (truthy newTitle) || negb (truthy oldKey) then
        (if truthy oldKey then header_textContent i oldKey s else s)
      else if String.eqb newTitle oldKey then s
      else
        let newKey := newTitle in
        let existingColumns := getColumnHeaders s in
        if String.eqb newKey "Date"
           || (str_neqb newKey oldKey && existsb (String.eqb newKey) existingColumns)
        then header_textContent i oldKey s
        else
          let x := repoint oldKey newTitle (xAxisSelect s) in
          let y1 := repoint oldKey newTitle (yAxis1Select s) in
          let y2 := repoint oldKey newTitle (yAxis2Select s) in
          let s1 := with_selects x y1 y2 s in
          let s2 :=
            if String.eqb (select_value x) newTitle
               || String.eqb (select_value y1) newTitle
               || String.eqb (select_value y2) newTitle
            then updatePlot s1 else s1 in
          let currentX := select_value (xAxisSelect s2) in
          let currentY1 := select_value (yAxis1Select s2) in
          let currentY2 := select_value (yAxis2Select s2) in
          let updatedData := map (rename_key oldKey newKey) (tableData s2) in
          let s3 := with_tableData updatedData s2 in
          let s4 := with_headers
                      (update_nth i (set_header_column newKey) (headers s3)) s3 in
          let s5 := with_inputs (update_input oldKey (set_id newKey) (inputs s4)) s4 in
          let s6 := fetch (replace_data updatedData) s5 in
          let pick (current : string) :=
            Some (if String.eqb current oldKey then newKey else current) in
          updatePlot
            (updateDropdownSelectors (pick currentX) (pick currentY1) (pick currentY2) s6)
  end.

(** The [blur] listener of a body cell ([renderTableRows]), run for the
    cell at body row [r], position [c].  The second component tells which
    way the listener went. *)
Inductive Outcome : Type :=
| NoCell          (* there is no such cell *)
| InvalidIndex    (* the row-index guard fired *)
| Rejected        (* the text failed validation *)
| Accepted.       (* the row was written and replace_data requested *)

(** [this.textContent = row[columnName].toString()]; when [row] has no
    such property the statement throws and the listener stops there. *)
Definition revert_cell (r c : nat) (row : RowData) (columnName : string)
    (s : State) : State :=
  match get columnName row with
  | Some v => cell_textContent r c (to_string v) s
  | None => s
  end.

(** [rowIndex === -1 || rowIndex >= tableData.length]; every comparison
    with [NaN] is false. *)
Definition index_guard (rowIndex : option Z) (len : nat) : bool :=
  match rowIndex with
  | Some n => (n =? -1) || (Z.of_nat len <=? n)
  | None => false
  end.

(** [parseInt(parentRow.getAttribute('data-row-index') || '-1')] *)
Definition row_index (parentRow : BodyRow) : option Z :=
  parseInt (or_else (match r_index parentRow with
                     | Some a => a
                     | None => ""
                     end) "-1").

Definition cell_blur (r c : nat) (s : State) : State * Outcome :=
  match nth_error (tbody s) r with
  | None => (s, NoCell)
  | Some parentRow =>
      match nth_error (r_cells parentRow) c with
      | None => (s, NoCell)
      | Some this =>
          let newValue := or_else (trim (c_text this)) "" in
          let columnName := or_else (c_column this) "" in
          let row := r_row parentRow in
          let rowIndex := row_index parentRow in
          let commit (s1 : State) (v : JsVal) : State * Outcome :=
            let updatedRow := set columnName v (spread_at rowIndex (tableData s1)) in
            let s2 := with_tableData (array_set rowIndex updatedRow (tableData s1)) s1 in
            let s3 := fetch (replace_data (tableData s2)) s2 in
            (with_pending
               (pending s3 ++
                [{| p_generation := generation s3; p_r := r; p_c := c;
                    p_row := row; p_columnName := columnName;
                    p_rowIndex := rowIndex |}])%list s3,
             Accepted) in
          if index_guard rowIndex (List.length (tableData s))
          then (revert_cell r c row columnName s, InvalidIndex)
          else if String.eqb columnName "Date" then
            if negb (test_date_pattern newValue)
            then (revert_cell r c row columnName s, Rejected)
            else commit s (VStr newValue)
          else
            let num := parseFloat newValue in
            if isNaN num
            then (revert_cell r c row columnName s, Rejected)
            else commit (cell_textContent r c (number_to_string num) s)
                        (VNum (parseFloat newValue))
      end
  end.

Fixpoint remove_nth {A : Type} (n : nat) (l : list A) : list A :=
  match l, n with
  | [], _ => []
  | _ :: r, O => r
  | x :: r, S k => x :: remove_nth k r
  end.

(** The [replace_data] request of the waiting cell edit [k] settles.
    [ok]: the response arrived with a success status and a body that
    parses, so the [then] callback runs; otherwise the [catch] callback
    runs.  The cell [this] may have left the page since: the body has been
    rendered again, and writing its text then shows nowhere. *)
Definition settle (k : nat) (ok : bool) (s : State) : State :=
  match nth_error (pending s) k with
  | None => s
  | Some p =>
      let s1 := with_pending (remove_nth k (pending s)) s in
      if ok then updatePlot s1
      else
        match get (p_columnName p) (p_row p) with
        | None => s1
        | Some v =>
            let s2 := if Nat.eqb (p_generation p) (generation s1)
                      then cell_textContent (p_r p) (p_c p) (to_string v) s1
                      else s1 in
            with_tableData (array_set (p_rowIndex p) (p_row p) (tableData s2)) s2
        end
  end.

(** The [DOMContentLoaded] listener, from the reply [data] of [get_data]
    on; [s0] is the page as served. *)
Definition blank (now0 tz0 : Z) : State :=
  {| tableData := []; columnCounter := O; headers := []; inputs := [];
     xAxisSelect := select_of_options [];
     yAxis1Select := select_of_options [];
     yAxis2Select := select_of_options [];
     tbody := []; generation := O; plot := None; sent := []; pending := [];
     now := now0; tz := tz0 |}.

Definition load (data : list RowData) (s0 : State) : State :=
  let s1 := with_tableData data s0 in
  let columns :=
    match data with
    | row0 :: _ => "Date" :: filter (fun col => str_neqb col "Date") (keys row0)
    | [] => defaultColumns
    end in
  let s2 := with_columnCounter (List.length columns) s1 in
  let s3 := with_headers (map header_of columns) s2 in
  let s4 := with_inputs (map (input_of (getTodayLocal s3)) columns) s3 in
  let s5 := setupColumnTitleListeners s4 in
  updatePlot
    (updateDropdownSelectors None None None
       (renderTableRows (updateInputRow (updateTableHeaders s5)))).

(** ** Events

    What can happen to a loaded page: the two buttons, the user leaving a
    header cell or a body cell after typing [text] into it, typing into a
    field of the input row, choosing an option of an axis dropdown, and a
    waiting request settling. *)
Inductive Axis : Type := X | Y1 | Y2.

Inductive Event : Type :=
| AddRow
| AddColumn
| EditHeader (i : nat) (text : string)
| EditCell (r c : nat) (text : string)
| TypeInput (id : string) (text : string)
| Choose (axis : Axis) (value : string)
| Settle (k : nat) (ok : bool).

(** Leaving the header cell [i] with [text] in it: every attached listener
    runs.  A cell that is not editable takes no text. *)
Definition edit_header (i : nat) (text : string) (s : State) : State :=
  match nth_error (headers s) i with
  | Some h =>
      if h_editable h
      then Nat.iter (h_listeners h) (header_blur i) (header_textContent i text s)
      else s
  | None => s
  end.

Definition edit_cell (r c : nat) (text : string) (s : State) : State * Outcome :=
  cell_blur r c (cell_textContent r c text s).

(** Choosing one of the options of a dropdown fires [change], which the
    page answers with [updatePlot]; what is not an option cannot be chosen. *)
Definition choose (axis : Axis) (value : string) (s : State) : State :=
  let sel :=
    match axis with
    | X => xAxisSelect s
    | Y1 => yAxis1Select s
    | Y2 => yAxis2Select s
    end in
  if existsb (String.eqb value) (options sel) then
    let sel' := select_set_value value sel in
    updatePlot
      (match axis with
       | X => with_selects sel' (yAxis1Select s) (yAxis2Select s) s
       | Y1 => with_selects (xAxisSelect s) sel' (yAxis2Select s) s
       | Y2 => with_selects (xAxisSelect s) (yAxis1Select s) sel' s
       end)
  else s.

Definition step (e : Event) (s : State) : State :=
  match e with
  | AddRow => addRow s
  | AddColumn => addColumn s
  | EditHeader i text => edit_header i text s
  | EditCell r c text => fst (edit_cell r c text s)
  | TypeInput id text => with_inputs (update_input id (set_text text) (inputs s)) s
  | Choose axis value => choose axis value s
  | Settle k ok => settle k ok s
  end.

Definition run (es : list Event) (s : State) : State :=
  fold_left (fun acc e => step e acc) es s.

(** ** Observations *)

(** The text shown in the body cell at row [r], position [c]. *)
Definition cell_text (r c : nat) (s : State) : option string :=
  match nth_error (tbody s) r with
  | Some br => option_map c_text (nth_error (r_cells br) c)
  | None => None
  end.

(** The value the table holds at row [n] under [key]. *)
Definition stored (n : nat) (key : string) (s : State) : option JsVal :=
  match nth_error (tableData s) n with
  | Some row => get key row
  | None => None
  end.

(** Every body row carries its own position as index, a position of the
    table; and every waiting save is for a position of the table. *)
Definition rows_indexed (s : State) : Prop :=
  forall i br,
    nth_error (tbody s) i = Some br ->
    r_index br = Some (decimal_of_nat i)
    /\ (i < List.length (tableData s))%nat.

Definition pending_in_range (s : State) : Prop :=
  forall p,
    In p (pending s) ->
    exists k, p_rowIndex p = Some (Z.of_nat k)
              /\ (k < List.length (tableData s))%nat.

Definition well_indexed (s : State) : Prop :=
  rows_indexed s /\ pending_in_range s.

(** The day number of today on the device's own calendar, and that date
    written as YYYY-MM-DD. *)
Definition local_day (s : State) : Z := (now s + tz s * msPerMinute) / msPerDay.

Definition local_date (s : State) : string := iso_date (local_day s).

End App.

(* ================================================================== *)
(** * The script: paths, files and replies of the server               *)
(* ================================================================== *)

Module Server.
Import Js App.

(** [getBaseUrl()], of the path of the page. *)
Definition getBaseUrl (path : string) : string :=
  substring 0 (lastIndexOf "/" path + 1) path.

(** The [drop] listener of the drop zone ([setupDropZone]), up to its
    request.  [file] is the name of the first file dropped, if any. *)
Definition allowedExtensions : list string := [".csv"; ".xlsx"; ".xls"].

Definition fileExt (file : option string) : string :=
  match file with
  | Some name =>
      match match_extension (toLowerCase name) with
      | Some m => or_else m ""
      | None => ""
      end
  | None => ""
  end.

(** Whether the listener goes on to upload the file, rather than stop with
    the alert. *)
Definition drop_accepts (file : option string) : bool :=
  match file with
  | Some _ => existsb (fun ext => String.eqb (fileExt file) ext) allowedExtensions
  | None => false
  end.


(** [clearAllData()], from the reply [data] of its [get_data] on (the
    user has confirmed, [clear_data] has been answered). *)
Definition clear_reply (data : list RowData) (s : State) : State :=
  updatePlot (renderTableRows (with_tableData data s)).



End Server.

(* ================================================================== *)
(** * The script: correlations                                         *)
(* ================================================================== *)

Module Analysis.
Import Js App.

(** [String(v)] for a property that may be missing. *)
Definition string_of (v : option JsVal) : string :=
  match v with
  | Some x => to_string x
  | None => "undefined"
  end.

(** [extractNumericValues(columnName)]: [values] and [isValid]. *)
Definition extractNumericValues (columnName : string) (s : State)
  : list JsNum * bool :=
  let values :=
    if String.eqb columnName "Date"
    then map (fun d => Date_getTime (get columnName d)) (tableData s)
    else map (fun d => parseFloat (string_of (get columnName d))) (tableData s) in
  (values, negb (existsb isNaN values)).

(** The body of a [calculate_correlation] request. *)
Record CorrelationRequest : Type := {
  x_values : list JsNum;
  y_values : list JsNum;
  q_xAxis : string;
  q_yAxis : string;
  isDateX : bool;
  isDateY : bool
}.

(** [calculateCorrelations()], up to its requests: [None] when it stops
    with the error message, else the bodies of the three requests in the
    order they leave.  (What it writes into the page from the replies is
    not modelled.) *)
Definition calculateCorrelations (s : State) : option (list CorrelationRequest) :=
  let xAxis := select_value (xAxisSelect s) in
  let yAxis1 := select_value (yAxis1Select s) in
  let yAxis2 := select_value (yAxis2Select s) in
  let xData := extractNumericValues xAxis s in
  let y1Data := extractNumericValues yAxis1 s in
  let y2Data := extractNumericValues yAxis2 s in
  if negb (snd xData) || negb (snd y1Data) || negb (snd y2Data) then None
  else
    Some [ {| x_values := fst xData; y_values := fst y1Data;
              q_xAxis := xAxis; q_yAxis := yAxis1;
              isDateX := String.eqb xAxis "Date";
              isDateY := String.eqb yAxis1 "Date" |};
           {| x_values := fst xData; y_values := fst y2Data;
              q_xAxis := xAxis; q_yAxis := yAxis2;
              isDateX := String.eqb xAxis "Date";
              isDateY := String.eqb yAxis2 "Date" |};
           {| x_values := fst y1Data; y_values := fst y2Data;
              q_xAxis := yAxis1; q_yAxis := yAxis2;
              isDateX := String.eqb yAxis1 "Date";
              isDateY := String.eqb yAxis2 "Date" |} ].

(** A correlation as the server reports it: the two variables, the
    coefficient and its p-value. *)
Record Correlation : Type := {
  variable1 : string;
  variable2 : string;
  correlation : JsNum;
  p_value : JsNum
}.

(** [displayCorrelationMatrix(correlations)], the values it computes for
    the heat map and the summary when the reply is not empty (the markup
    and the layout made of them are not modelled). *)
Definition variables (correlations : list Correlation) : list string :=
  fold_left (fun vs corr => set_add (variable2 corr) (set_add (variable1 corr) vs))
            correlations [].

Definition variableList (correlations : list Correlation) : list string :=
  sort code_unit_order (variables correlations).

Definition pair_key (a b : string) : string := a ++ "-" ++ b.

Definition corrLookup (correlations : list Correlation)
  : list (string * Correlation) :=
  fold_left (fun m corr =>
               map_set (pair_key (variable2 corr) (variable1 corr)) corr
                 (map_set (pair_key (variable1 corr) (variable2 corr)) corr m))
            correlations [].

(** [matrix]: [None] is [null]. *)
Definition matrix (correlations : list Correlation)
  : list (list (option JsNum)) :=
  let variableList := variableList correlations in
  let corrLookup := corrLookup correlations in
  mapi_from
    (fun i vi =>
       mapi_from
         (fun j vj =>
            if (j <? i)%nat then None
            else if Nat.eqb i j then Some (Fin 1 0)
            else match map_get (pair_key vi vj) corrLookup with
                 | Some corr => Some (correlation corr)
                 | None => None
                 end)
         O variableList)
    O variableList.

Definition nonDiagonalCorrelations (correlations : list Correlation)
  : list Correlation :=
  filter (fun corr => str_neqb (variable1 corr) (variable2 corr)) correlations.

Definition sortedByStrength (correlations : list Correlation) : list Correlation :=
  sort (fun a b => num_sub (num_abs (correlation b)) (num_abs (correlation a)))
       (nonDiagonalCorrelations correlations).

(** [strongest], when there is one. *)
Definition strongest (correlations : list Correlation) : option Correlation :=
  nth_error (sortedByStrength correlations) 0.

(** The pair a correlation is about is [a] and [b], in either order. *)
Definition relates (a b : string) (corr : Correlation) : bool :=
  (String.eqb (variable1 corr) a && String.eqb (variable2 corr) b)
  || (String.eqb (variable1 corr) b && String.eqb (variable2 corr) a).

(** The part of the chat panel that follows the correlations:
    [lastCorrelations], and whether the change notification is shown. *)
Record Chat : Type := {
  lastCorrelations : list Correlation;
  notification : bool
}.

(** [hasCorrelationsChanged(newCorrelations)]: the loop, then the
    function. *)
Fixpoint changed_from (olds news : list Correlation) : bool :=
  match news with
  | [] => false
  | new_ :: rest =>
      match olds with
      | [] => true
      | old :: rest_old =>
          if str_neqb (variable1 old) (variable1 new_)
             || str_neqb (variable2 old) (variable2 new_)
             || num_gtb (num_abs (num_sub (correlation old) (correlation new_)))
                        (Fin 1 (-1))
          then true
          else changed_from rest_old rest
      end
  end.

Definition hasCorrelationsChanged (newCorrelations : list Correlation) (c : Chat)
  : bool :=
  if negb (Nat.eqb (List.length (lastCorrelations c)) (List.length newCorrelations))
  then true
  else changed_from (lastCorrelations c) newCorrelations.

(** [updateCorrelationContext()], from the reply on: [Some correlations]
    is a reply that carries [result.correlations]; a reply without them, or
    a request that failed, changes nothing. *)
Definition updateCorrelationContext (reply : option (list Correlation)) (c : Chat)
  : Chat :=
  match reply with
  | Some correlations =>
      if hasCorrelationsChanged correlations c
      then {| lastCorrelations := correlations; notification := true |}
      else c
  | None => c
  end.

End Analysis.

(* ================================================================== *)
(** * What a page made by the script always has                        *)
(* ================================================================== *)

Module Page.
Import Js App.





End Page.

(* ================================================================== *)
(** * A page to run the script on                                      *)
(* ================================================================== *)

Module Example.
Import Js App.

(** One row, as [get_data] returns it for the default table. *)
Definition row0 : RowData :=
  [("Date", VStr "2024-03-01"); ("Variable 1", VNum (Fin 5 0));
   ("Variable 2", VNum (Fin 7 0))].

(** 2024-03-15T11:00:00Z, which is noon of 15 March on a device one hour
    east of UTC. *)
Definition noon_utc_plus_1 : Z := 1710500400000.

(** The page once loaded with that row, on a device at UTC+01:00. *)
Definition loaded : State := load [row0] (blank noon_utc_plus_1 60).

(** The same page on a device at UTC-05:00. *)
Definition loaded_west : State := load [row0] (blank noon_utc_plus_1 (-300)).




End Example.

(* ================================================================== *)
(** * Properties                                                       *)
(* ================================================================== *)

Import Js App.

(** ** Objects and lists *)

Section Objects.
Variables (k k' : string) (v : JsVal).

Lemma get_set_same (o : Obj) : get k (set k v o) = Some v.
Proof.
  induction o as [|[k0 v0] o IH]; simpl.
  - now rewrite String.eqb_refl.
  - destruct (String.eqb k k0) eqn:E; simpl.
    + now rewrite String.eqb_refl.
    + now rewrite E.
Qed.

Lemma get_set_other (o : Obj) : k' <> k -> get k' (set k v o) = get k' o.
Proof.
  intros Hne. induction o as [|[k0 v0] o IH]; simpl.
  - apply String.eqb_neq in Hne. now rewrite Hne.
  - destruct (String.eqb k k0) eqn:E; simpl.
    + apply String.eqb_eq in E. subst k0.
      apply String.eqb_neq in Hne. now rewrite Hne.
    + destruct (String.eqb k' k0); [reflexivity | exact IH].
Qed.



End Objects.

Section Lists.
Context {A : Type}.


Lemma nth_error_update_nth (f : A -> A) (l : list A) (n : nat) (x : A) :
  nth_error l n = Some x -> nth_error (update_nth n f l) n = Some (f x).
Proof.
  revert n. induction l as [|y l IH]; intros [|n]; simpl; try discriminate.
  - now intros [= ->].
  - apply IH.
Qed.

Lemma map_update_nth {B : Type} (g : A -> B) (f : A -> A) (l : list A) (n : nat) :
  (forall x, g (f x) = g x) -> map g (update_nth n f l) = map g l.
Proof.
  intros Hg. revert n. induction l as [|y l IH]; intros [|n]; simpl; auto.
  - now rewrite Hg.
  - now rewrite IH.
Qed.

Lemma list_set_length (x : A) (l : list A) (n : nat) :
  List.length (list_set n x l) = List.length l.
Proof.
  revert n. induction l as [|y l IH]; intros [|n]; simpl; auto.
Qed.

Lemma nth_error_mapi_from {B : Type} (f : nat -> A -> B) (l : list A)
    (i0 i : nat) (y : B) :
  nth_error (mapi_from f i0 l) i = Some y ->
  exists x, nth_error l i = Some x /\ y = f (i0 + i)%nat x.
Proof.
  revert i0 i. induction l as [|x l IH]; intros i0 [|i]; simpl; try discriminate.
  - intros [= <-]. exists x. split; [reflexivity|]. now rewrite Nat.add_0_r.
  - intros H. destruct (IH _ _ H) as [x' [Hx ->]].
    exists x'. split; [assumption|]. f_equal. lia.
Qed.

End Lists.

Lemma or_else_empty (a : string) : or_else a "" = a.
Proof. now destruct a. Qed.

Lemma truthy_nonempty (a : string) : truthy a = true <-> a <> "".
Proof. unfold truthy. destruct a; simpl; split; intros; congruence. Qed.

Lemma existsb_eqb_In (x : string) (l : list string) :
  existsb (String.eqb x) l = true <-> In x l.
Proof.
  rewrite existsb_exists. split.
  - intros [y [Hin Heq]]. apply String.eqb_eq in Heq. now subst.
  - intros Hin. exists x. split; [assumption | apply String.eqb_refl].
Qed.

(** ** Reading numbers *)


Lemma is_digit_not_ws (c : ascii) : is_digit c = true -> is_ws c = false.
Proof.
  unfold is_digit, is_ws. intros H. apply andb_true_iff in H as [H1 H2].
  apply Z.leb_le in H1. apply Z.leb_le in H2.
  destruct (Z.leb_spec (code c) 13); [lia|]. rewrite andb_false_r. simpl.
  destruct (Z.eqb_spec (code c) 32); [lia|].
  destruct (Z.eqb_spec (code c) 160); [lia|]. reflexivity.
Qed.







(** ** Row indices

    The index the renderer writes on a body row is read back whole by the
    listener of its cells. *)

Lemma digits_val_of_uint_acc (d : Decimal.uint) (acc : positive) :
  digits_val 10 digit_val (Z.pos acc) (NilEmpty.string_of_uint d)
  = Z.pos (Pos.of_uint_acc d acc).
Proof.
  revert acc.
  induction d; intros acc;
    cbn [NilEmpty.string_of_uint digits_val Pos.of_uint_acc]; [reflexivity|..];
    rewrite <- IHd; f_equal;
    match goal with
    | |- context [digit_val ?c] =>
        let v := eval vm_compute in (digit_val c) in
        change (digit_val c) with v
    end; lia.
Qed.

Lemma dec_val_string_of_uint (d : Decimal.uint) :
  dec_val (NilEmpty.string_of_uint d) = Z.of_N (Pos.of_uint d).
Proof.
  unfold dec_val.
  induction d; cbn [NilEmpty.string_of_uint digits_val Pos.of_uint];
    [reflexivity | exact IHd |..];
    apply (digits_val_of_uint_acc d).
Qed.

Lemma span_string_of_uint (d : Decimal.uint) :
  span is_digit (NilEmpty.string_of_uint d) = (NilEmpty.string_of_uint d, "").
Proof.
  induction d; simpl; [reflexivity|..]; cbn [span] in *; now rewrite IHd.
Qed.

Lemma parseInt_string_of_uint (d : Decimal.uint) :
  d <> Decimal.Nil ->
  parseInt (NilEmpty.string_of_uint d) = Some (Z.of_N (N.of_uint d)).
Proof.
  intros Hd. unfold parseInt.
  assert (Hl : ltrim (NilEmpty.string_of_uint d) = NilEmpty.string_of_uint d).
  { destruct d; reflexivity. }
  assert (Hs : split_sign (NilEmpty.string_of_uint d)
               = (false, NilEmpty.string_of_uint d)).
  { destruct d; reflexivity. }
  assert (Hx : match NilEmpty.string_of_uint d with
               | String c0 (String c1 r) =>
                   if Ascii.eqb c0 "0" && is_x c1 then Some r else None
               | _ => None
               end = None).
  { destruct d as [|d|d|d|d|d|d|d|d|d|d]; try reflexivity; destruct d; reflexivity. }
  rewrite Hl, Hs, Hx, span_string_of_uint.
  assert (He : is_empty (NilEmpty.string_of_uint d) = false).
  { destruct d; [congruence | reflexivity..]. }
  rewrite He, dec_val_string_of_uint. reflexivity.
Qed.

Lemma decimal_of_N_shape (n : N) :
  decimal_of_N n = NilEmpty.string_of_uint (N.to_uint n)
  /\ N.to_uint n <> Decimal.Nil.
Proof.
  unfold decimal_of_N, NilZero.string_of_uint.
  destruct n as [|p]; [split; [reflexivity | discriminate]|].
  pose proof (DecimalPos.Unsigned.to_uint_nonnil p) as H.
  simpl N.to_uint. destruct (Pos.to_uint p); [congruence|..]; split; congruence.
Qed.

Lemma parseInt_decimal_of_nat (k : nat) :
  parseInt (decimal_of_nat k) = Some (Z.of_nat k).
Proof.
  unfold decimal_of_nat.
  destruct (decimal_of_N_shape (N.of_nat k)) as [-> Hn].
  rewrite parseInt_string_of_uint by assumption.
  rewrite DecimalN.Unsigned.of_to. now rewrite nat_N_Z.
Qed.

Lemma decimal_of_nat_nonempty (k : nat) : truthy (decimal_of_nat k) = true.
Proof.
  unfold decimal_of_nat.
  destruct (decimal_of_N_shape (N.of_nat k)) as [-> Hn].
  destruct (N.to_uint (N.of_nat k)); [congruence | reflexivity..].
Qed.

Lemma row_index_decimal (br : BodyRow) (k : nat) :
  r_index br = Some (decimal_of_nat k) -> row_index br = Some (Z.of_nat k).
Proof.
  intros H. unfold row_index, or_else. rewrite H, decimal_of_nat_nonempty.
  apply parseInt_decimal_of_nat.
Qed.

(** Every body row [renderTableRows] writes carries its position in
    [tableData] as its index, and closes over the row at that position. *)
Lemma renderTableRows_rows (s : State) (i : nat) (br : BodyRow) :
  nth_error (tbody (renderTableRows s)) i = Some br ->
  r_index br = Some (decimal_of_nat i)
  /\ nth_error (tableData s) i = Some (r_row br).
Proof.
  unfold renderTableRows. cbn [tbody with_tbody]. intros H.
  apply nth_error_mapi_from in H as [row [Hrow ->]]. simpl. now split.
Qed.

(** ** Order of numbers *)

Lemma strip10_sign (fuel : nat) (m e : Z) :
  (0 <? fst (strip10 fuel m e)) = (0 <? m).
Proof.
  revert m e. induction fuel as [|f IH]; intros m e; simpl; [reflexivity|].
  destruct (Z.eqb_spec (m mod 10) 0) as [Hm|]; [|reflexivity].
  rewrite IH.
  pose proof (Z.div_mod m 10 ltac:(lia)) as Hd.
  destruct (Z.ltb_spec 0 (m / 10)), (Z.ltb_spec 0 m); try reflexivity; lia.
Qed.

Lemma is_pos_mkFin (m e : Z) : is_pos (mkFin m e) = (0 <? m).
Proof.
  unfold mkFin. destruct (Z.eqb_spec m 0) as [->|]; [reflexivity|].
  pose proof (strip10_sign (S (Z.to_nat (Z.log2 (Z.abs m)))) m e) as H.
  destruct (strip10 _ m e) as [m' e']. exact H.
Qed.

(** The comparator's [a - b > 0] is the negation of [a <= b]. *)
Lemma is_pos_num_sub (a b : JsNum) :
  a <> NaN -> b <> NaN -> is_pos (num_sub a b) = negb (num_leb a b).
Proof.
  destruct a as [|x|m1 e1], b as [|y|m2 e2]; try congruence; intros _ _; simpl.
  - destruct x, y; reflexivity.
  - reflexivity.
  - reflexivity.
  - rewrite is_pos_mkFin.
    set (p := m1 * 10 ^ (e1 - Z.min e1 e2)).
    set (q := m2 * 10 ^ (e2 - Z.min e1 e2)).
    destruct (Z.ltb_spec 0 (p - q)), (Z.leb_spec p q); simpl; try reflexivity; lia.
Qed.

(** Comparing two decimals on any common exponent below both gives the
    same answer. *)
Lemma scaled_le (m1 e1 m2 e2 e0 : Z) :
  e0 <= e1 -> e0 <= e2 ->
  (m1 * 10 ^ (e1 - Z.min e1 e2) <= m2 * 10 ^ (e2 - Z.min e1 e2)
   <-> m1 * 10 ^ (e1 - e0) <= m2 * 10 ^ (e2 - e0)).
Proof.
  intros H1 H2.
  set (e := Z.min e1 e2).
  assert (He : e0 <= e) by (subst e; lia).
  assert (He1 : e <= e1) by (subst e; lia).
  assert (He2 : e <= e2) by (subst e; lia).
  replace (e1 - e0) with ((e1 - e) + (e - e0)) by lia.
  replace (e2 - e0) with ((e2 - e) + (e - e0)) by lia.
  rewrite !Z.pow_add_r by lia.
  assert (Hk : 0 < 10 ^ (e - e0)) by (apply Z.pow_pos_nonneg; lia).
  rewrite !Z.mul_assoc.
  split; intros H.
  - apply Z.mul_le_mono_nonneg_r; lia.
  - apply Z.mul_le_mono_pos_r in H; assumption.
Qed.

Lemma num_leb_total (a b : JsNum) :
  a <> NaN -> b <> NaN -> num_leb a b = false -> num_leb b a = true.
Proof.
  destruct a as [|x|m1 e1], b as [|y|m2 e2]; try congruence; intros _ _; simpl.
  - destruct x, y; simpl; congruence.
  - now destruct x.
  - now destruct y.
  - rewrite (Z.min_comm e2 e1). intros H.
    apply Z.leb_gt in H. apply Z.leb_le. lia.
Qed.

Lemma num_leb_trans (a b c : JsNum) :
  num_leb a b = true -> num_leb b c = true -> num_leb a c = true.
Proof.
  destruct a as [|x|m1 e1], b as [|y|m2 e2], c as [|z|m3 e3];
    simpl; try congruence.
  - destruct x, y, z; simpl; congruence.
  - destruct x, y; simpl; congruence.
  - destruct x; simpl; congruence.
  - destruct y, z; simpl; congruence.
  - destruct y; simpl; congruence.
  - intros H1 H2. apply Z.leb_le in H1, H2. apply Z.leb_le.
    set (e0 := Z.min e1 (Z.min e2 e3)).
    apply (scaled_le m1 e1 m2 e2 e0) in H1; [|subst e0; lia..].
    apply (scaled_le m2 e2 m3 e3 e0) in H2; [|subst e0; lia..].
    apply (scaled_le m1 e1 m3 e3 e0); [subst e0; lia..|]. lia.
Qed.

(** ** The sort

    Under a comparator [key(a) - key(b)] whose keys are numbers, the sort
    returns the elements it was given, in ascending order of key. *)

Section SortByKey.
Context {A : Type} (key : A -> JsNum).

Lemma insert_perm (x : A) (l : list A) :
  Permutation (insert (by_key key) x l) (x :: l).
Proof.
  induction l as [|y l IH]; simpl; [reflexivity|].
  destruct (is_pos (by_key key x y)); [|reflexivity].
  rewrite IH. apply perm_swap.
Qed.

Lemma sort_perm (l : list A) : Permutation (sort (by_key key) l) l.
Proof.
  induction l as [|x l IH]; simpl; [reflexivity|].
  rewrite insert_perm. now constructor.
Qed.

Lemma insert_sorted (x : A) (l : list A) :
  key x <> NaN -> Forall (fun y => key y <> NaN) l ->
  StronglySorted (key_le key) l ->
  StronglySorted (key_le key) (insert (by_key key) x l).
Proof.
  intros Hx Hl Hs. induction Hs as [|y l Hs IH Hy]; simpl.
  - constructor; constructor.
  - inversion Hl as [|? ? Hky Hl']; subst.
    unfold by_key at 1. rewrite is_pos_num_sub by assumption.
    destruct (num_leb (key x) (key y)) eqn:E; simpl.
    + constructor; [now constructor|].
      constructor; [exact E|].
      eapply Forall_impl; [|exact Hy].
      intros z Hz. unfold key_le in *. eapply num_leb_trans; eassumption.
    + constructor; [now apply IH|].
      eapply Permutation_Forall; [symmetry; apply insert_perm|].
      constructor; [|exact Hy].
      unfold key_le. now apply num_leb_total.
Qed.

Lemma sort_sorted (l : list A) :
  Forall (fun y => key y <> NaN) l ->
  StronglySorted (key_le key) (sort (by_key key) l).
Proof.
  induction l as [|x l IH]; intros Hl; simpl; [constructor|].
  inversion Hl; subst.
  apply insert_sorted; auto.
  eapply Permutation_Forall; [symmetry; apply sort_perm | assumption].
Qed.

End SortByKey.

Lemma sort_ext {A : Type} (f g : A -> A -> JsNum) (l : list A) :
  (forall a b, f a b = g a b) -> sort f l = sort g l.
Proof.
  intros H. induction l as [|x l IH]; simpl; [reflexivity|].
  rewrite IH. generalize (sort g l). intros t.
  induction t as [|y t IHt]; simpl; [reflexivity|].
  now rewrite H, IHt.
Qed.


(** ** The calendar *)

Lemma yoe_range (doe : Z) :
  0 <= doe < 146097 ->
  0 <= (doe - doe / 1460 + doe / 36524 - doe / 146096) / 365 <= 399.
Proof. intros H. Z.to_euclidean_division_equations; lia. Qed.

Lemma doy_range (doe : Z) :
  0 <= doe < 146097 ->
  let yoe := (doe - doe / 1460 + doe / 36524 - doe / 146096) / 365 in
  0 <= doe - (365 * yoe + yoe / 4 - yoe / 100) <= 365.
Proof. intros H yoe. subst yoe. Z.to_euclidean_division_equations; lia. Qed.

Lemma mp_range (doy : Z) : 0 <= doy <= 365 -> 0 <= (5 * doy + 2) / 153 <= 11.
Proof. intros H. Z.to_euclidean_division_equations; lia. Qed.

(** The day number of the civil date of a day number is that day number. *)
Lemma days_from_civil_from_days (z : Z) :
  (let '(y, m, d) := civil_from_days z in days_from_civil y m d) = z.
Proof.
  unfold civil_from_days.
  set (z' := z + 719468). set (era := z' / 146097).
  set (doe := z' - era * 146097).
  assert (Hdoe : 0 <= doe < 146097).
  { subst doe era. Z.to_euclidean_division_equations; lia. }
  pose proof (yoe_range doe Hdoe) as Hyoe.
  pose proof (doy_range doe Hdoe) as Hdoy. cbv zeta in Hdoy.
  set (yoe := (doe - doe / 1460 + doe / 36524 - doe / 146096) / 365) in *.
  set (doy := doe - (365 * yoe + yoe / 4 - yoe / 100)) in *.
  pose proof (mp_range doy Hdoy) as Hmp.
  set (mp := (5 * doy + 2) / 153) in *.
  set (m := if mp <? 10 then mp + 3 else mp - 9).
  assert (Hm : (m <=? 2) = negb (mp <? 10) /\ (2 <? m) = (mp <? 10)
               /\ (if 2 <? m then m - 3 else m + 9) = mp).
  { subst m. destruct (Z.ltb_spec mp 10).
    - destruct (Z.leb_spec (mp + 3) 2), (Z.ltb_spec 2 (mp + 3)); simpl;
        repeat split; lia.
    - destruct (Z.leb_spec (mp - 9) 2), (Z.ltb_spec 2 (mp - 9)); simpl;
        repeat split; lia. }
  destruct Hm as [Hm1 [Hm2 Hm3]].
  unfold days_from_civil. rewrite Hm1, Hm3.
  set (y0 := yoe + era * 400).
  replace (if negb (mp <? 10)
           then (if negb (mp <? 10) then y0 + 1 else y0) - 1
           else (if negb (mp <? 10) then y0 + 1 else y0)) with y0
    by (destruct (mp <? 10); simpl; lia).
  assert (Hera : y0 / 400 = era).
  { subst y0. rewrite Z.div_add by lia. rewrite Z.div_small by lia. lia. }
  rewrite Hera. replace (y0 - era * 400) with yoe by (subst y0; lia).
  subst doy doe z'. lia.
Qed.

(** ** The text of a date *)

Lemma before_app (sep : ascii) (a b : string) :
  lacks sep a = true -> before sep (a ++ String sep b) = a.
Proof.
  induction a as [|c a IH]; simpl.
  - intros _. now rewrite Ascii.eqb_refl.
  - intros H. apply andb_true_iff in H as [Hc Ha].
    apply negb_true_iff in Hc. rewrite Hc. now rewrite IH.
Qed.

Lemma lacks_app (c : ascii) (a b : string) :
  lacks c (a ++ b) = lacks c a && lacks c b.
Proof.
  induction a as [|x a IH]; simpl; [reflexivity|].
  now rewrite IH, andb_assoc.
Qed.

Lemma lacks_zeros (n : nat) : lacks "T" (zeros n) = true.
Proof. induction n; simpl; auto. Qed.

Lemma lacks_string_of_uint (d : Decimal.uint) :
  lacks "T" (NilEmpty.string_of_uint d) = true.
Proof. induction d; simpl; auto. Qed.

Lemma lacks_pad (w : nat) (n : Z) : lacks "T" (pad w n) = true.
Proof.
  unfold pad. rewrite lacks_app, lacks_zeros.
  destruct (decimal_of_N_shape (Z.to_N n)) as [-> _].
  apply lacks_string_of_uint.
Qed.

Lemma lacks_iso_date (day : Z) : lacks "T" (iso_date day) = true.
Proof.
  unfold iso_date. destruct (civil_from_days day) as [[y m] d].
  rewrite !lacks_app, !lacks_pad.
  destruct ((0 <=? y) && (y <=? 9999)).
  - now rewrite lacks_pad.
  - rewrite lacks_app, lacks_pad. now destruct (y <? 0).
Qed.

(** The date [toISOString] prints, cut at the [T], is the date of the UTC
    day the time value falls in. *)
Lemma before_T_toISOString (t : Z) :
  before "T" (toISOString t) = iso_date (t / msPerDay).
Proof. unfold toISOString. apply before_app, lacks_iso_date. Qed.

(** ** The column registry *)


(** ** Adding a column *)

Lemma addColumn_rows (s : State) :
  tableData (addColumn s)
  = map (set ("Variable " ++ decimal_of_nat (columnCounter s)) (VNum zero))
        (tableData s).
Proof. reflexivity. Qed.

Lemma addColumn_header (s : State) :
  map h_column (headers (addColumn s))
  = (map h_column (headers s)
     ++ [("Variable " ++ decimal_of_nat (columnCounter s))%string])%list.
Proof.
  unfold addColumn, setupColumnTitleListeners.
  cbn [headers with_headers updateDropdownSelectors with_selects renderTableRows
       with_tbody fetch with_sent with_tableData with_inputs with_columnCounter].
  rewrite map_map.
  rewrite (map_ext _ h_column)
    by (intros h; now destruct (truthy (h_column h))).
  now rewrite map_app.
Qed.

(** Every row gets the value 0 under the new identifier, whether or not
    it held a value there before; the values under other identifiers stay. *)
Lemma addColumn_new_value (s : State) (n : nat) :
  (n < List.length (tableData s))%nat ->
  stored n ("Variable " ++ decimal_of_nat (columnCounter s)) (addColumn s)
  = Some (VNum zero).
Proof.
  intros Hn. unfold stored, RowData in *.
  rewrite addColumn_rows, nth_error_map.
  destruct (@nth_error Obj (tableData s) n) as [row|] eqn:E.
  - cbn [option_map]. apply get_set_same.
  - apply nth_error_None in E. lia.
Qed.

Lemma addColumn_other_values (s : State) (n : nat) (key : string) :
  key <> "Variable " ++ decimal_of_nat (columnCounter s) ->
  stored n key (addColumn s) = stored n key s.
Proof.
  intros Hk. unfold stored, RowData.
  rewrite addColumn_rows, nth_error_map.
  destruct (@nth_error Obj (tableData s) n) as [row|]; [|reflexivity].
  cbn [option_map]. now apply get_set_other.
Qed.

(** ** Renaming a column *)



(** A rename that passes the checks of the listener rewrites every row
    with [rename_key], moves the [data-column] of the header cell to the
    new identifier, and sends the rewritten table. *)
Lemma header_blur_commits (s : State) (i : nat) (this : Header) :
  nth_error (headers s) i = Some this ->
  let oldKey := h_column this in
  let newKey := trim (h_text this) in
  oldKey <> "" -> newKey <> "" -> newKey <> oldKey -> newKey <> "Date" ->
  ~ In newKey (getColumnHeaders s) ->
  let s' := header_blur i s in
  tableData s' = map (rename_key oldKey newKey) (tableData s)
  /\ headers s' = update_nth i (set_header_column newKey) (headers s)
  /\ sent s'
     = (sent s ++ [replace_data (map (rename_key oldKey newKey) (tableData s))])%list.
Proof.
  intros Hnth oldKey newKey Hold Hnew Hne Hdate Hnotin s'.
  subst s'. unfold header_blur. rewrite Hnth. fold oldKey newKey.
  apply truthy_nonempty in Hold, Hnew. rewrite Hold, Hnew. cbn [negb orb].
  apply String.eqb_neq in Hne, Hdate. rewrite Hne, Hdate.
  unfold str_neqb. rewrite Hne. cbn [negb orb andb].
  destruct (existsb (String.eqb newKey) (getColumnHeaders s)) eqn:E.
  { apply existsb_eqb_In in E. contradiction. }
  destruct (_ || _ || _); repeat split.
Qed.

(** The three ways the listener of a header cell ends without renaming. *)
Lemma header_blur_rejects (s : State) (i : nat) (this : Header) :
  nth_error (headers s) i = Some this ->
  h_column this <> "" ->
  (trim (h_text this) = ""
   \/ trim (h_text this) = "Date"
   \/ In (trim (h_text this)) (getColumnHeaders s)) ->
  header_blur i s
  = if String.eqb (trim (h_text this)) (h_column this) then s
    else header_textContent i (h_column this) s.
Proof.
  intros Hnth Hold Hcase. unfold header_blur. rewrite Hnth.
  assert (Hne : h_column this <> "") by exact Hold.
  apply truthy_nonempty in Hold. rewrite Hold. cbn [negb]. rewrite orb_false_r.
  destruct (truthy (trim (h_text this))) eqn:Ht; cbn [negb].
  - destruct (String.eqb (trim (h_text this)) (h_column this)) eqn:E;
      [reflexivity|].
    unfold str_neqb. rewrite E. cbn [negb andb].
    destruct Hcase as [Hempty | [Hd | Hin]].
    + rewrite Hempty in Ht. discriminate.
    + rewrite Hd. reflexivity.
    + apply existsb_eqb_In in Hin. rewrite Hin. now rewrite orb_true_r.
  - assert (Hempty : trim (h_text this) = "").
    { destruct (trim (h_text this)); [reflexivity | discriminate]. }
    rewrite Hempty.
    destruct (String.eqb_spec "" (h_column this)) as [E|E]; [congruence|].
    reflexivity.
Qed.

(** A second listener on the same header cell finds nothing left to do:
    running the listener twice is running it once.  (For an identifier
    that is its own trimmed form, as every identifier the listener itself
    writes is.) *)
Lemma header_blur_twice (s : State) (i : nat) (this : Header) :
  nth_error (headers s) i = Some this ->
  trim (h_column this) = h_column this ->
  header_blur i (header_blur i s) = header_blur i s.
Proof.
  intros Hnth Htrim.
  set (old := h_column this) in *. set (cand := trim (h_text this)).
  (* the listener leaves a state untouched when text and identifier agree *)
  assert (Hsame : forall (s0 : State) (h : Header),
             nth_error (headers s0) i = Some h ->
             trim (h_text h) = h_column h -> header_blur i s0 = s0).
  { intros s0 h Hh Heq. unfold header_blur. rewrite Hh, Heq.
    destruct (truthy (h_column h)); cbn [negb orb]; [|reflexivity].
    now rewrite String.eqb_refl. }
  destruct (String.eqb_spec old "") as [Hold | Hold].
  { assert (H : header_blur i s = s).
    { unfold header_blur. rewrite Hnth. fold old. rewrite Hold.
      cbn [truthy is_empty negb]. now rewrite orb_true_r. }
    now rewrite !H. }
  destruct (String.eqb_spec cand old) as [Heq | Hne].
  { assert (H : header_blur i s = s) by (apply (Hsame s this Hnth); exact Heq).
    now rewrite !H. }
  destruct (String.eqb_spec cand "") as [Hempty | Hnonempty];
    [| destruct (String.eqb_spec cand "Date") as [Hdate | Hnodate];
       [| destruct (existsb (String.eqb cand) (getColumnHeaders s)) eqn:Hin]].
  - (* empty *)
    rewrite (header_blur_rejects s i this Hnth Hold (or_introl Hempty)).
    fold cand old. apply String.eqb_neq in Hne. rewrite Hne.
    apply (Hsame _ (set_header_text old this)).
    + unfold header_textContent. cbn [headers with_headers].
      now apply nth_error_update_nth.
    + exact Htrim.
  - (* Date *)
    rewrite (header_blur_rejects s i this Hnth Hold (or_intror (or_introl Hdate))).
    fold cand old. apply String.eqb_neq in Hne. rewrite Hne.
    apply (Hsame _ (set_header_text old this)).
    + unfold header_textContent. cbn [headers with_headers].
      now apply nth_error_update_nth.
    + exact Htrim.
  - (* taken *)
    apply existsb_eqb_In in Hin.
    rewrite (header_blur_rejects s i this Hnth Hold (or_intror (or_intror Hin))).
    fold cand old. apply String.eqb_neq in Hne. rewrite Hne.
    apply (Hsame _ (set_header_text old this)).
    + unfold header_textContent. cbn [headers with_headers].
      now apply nth_error_update_nth.
    + exact Htrim.
  - (* renamed *)
    assert (Hnotin : ~ In cand (getColumnHeaders s)).
    { intros H. apply existsb_eqb_In in H. congruence. }
    destruct (header_blur_commits s i this Hnth Hold Hnonempty Hne Hnodate Hnotin)
      as [_ [Hh _]].
    apply (Hsame _ (set_header_column cand this)).
    + rewrite Hh. now apply nth_error_update_nth.
    + reflexivity.
Qed.

Lemma iter_idempotent {A : Type} (f : A -> A) (x : A) (n : nat) :
  f (f x) = f x -> Nat.iter (S n) f x = f x.
Proof.
  intros H. induction n as [|n IH]; [reflexivity|].
  change (Nat.iter (S (S n)) f x) with (f (Nat.iter (S n) f x)).
  now rewrite IH.
Qed.

(** However many listeners a header cell has gathered, leaving it runs
    the rename once. *)
Lemma edit_header_once (s : State) (i : nat) (text : string) (this : Header) :
  nth_error (headers s) i = Some this ->
  h_editable this = true ->
  h_listeners this <> O ->
  trim (h_column this) = h_column this ->
  edit_header i text s = header_blur i (header_textContent i text s).
Proof.
  intros Hnth Hed Hl Htrim. unfold edit_header. rewrite Hnth, Hed.
  destruct (h_listeners this) as [|n]; [congruence|].
  apply iter_idempotent.
  apply (header_blur_twice _ i (set_header_text text this)).
  - unfold header_textContent. cbn [headers with_headers].
    now apply nth_error_update_nth.
  - exact Htrim.
Qed.

(** ** The cell listener *)

Lemma spread_at_nat (n : nat) (a : list Obj) :
  spread_at (Some (Z.of_nat n)) a = nth n a [].
Proof.
  unfold spread_at. destruct (Z.ltb_spec (Z.of_nat n) 0); [lia|].
  now rewrite Nat2Z.id.
Qed.

Lemma array_set_nat (n : nat) (o : Obj) (a : list Obj) :
  (n < List.length a)%nat ->
  array_set (Some (Z.of_nat n)) o a = list_set n o a.
Proof.
  intros H. unfold array_set.
  destruct (Z.ltb_spec (Z.of_nat n) 0); [lia|].
  destruct (Z.ltb_spec (Z.of_nat n) (Z.of_nat (List.length a))); [|lia].
  now rewrite Nat2Z.id.
Qed.

Lemma index_guard_nat (n len : nat) :
  index_guard (Some (Z.of_nat n)) len = negb (n <? len)%nat.
Proof.
  unfold index_guard.
  destruct (Z.eqb_spec (Z.of_nat n) (-1)); [lia|]. simpl.
  destruct (Nat.ltb_spec n len), (Z.leb_spec (Z.of_nat len) (Z.of_nat n));
    simpl; try reflexivity; lia.
Qed.

Lemma tableData_revert_cell r c row col s :
  tableData (revert_cell r c row col s) = tableData s.
Proof. unfold revert_cell. now destruct (get col row). Qed.



(** What the listener of a cell does when the index of its row is the
    position [n] of a row of the table. *)
Lemma cell_blur_in_range (s : State) (r c : nat) (parentRow : BodyRow)
    (this : Cell) (n : nat) :
  nth_error (tbody s) r = Some parentRow ->
  nth_error (r_cells parentRow) c = Some this ->
  row_index parentRow = Some (Z.of_nat n) ->
  (n < List.length (tableData s))%nat ->
  let text := trim (c_text this) in
  let col := c_column this in
  let old := nth n (tableData s) [] in
  let verdict : option JsVal :=
    if String.eqb col "Date"
    then (if test_date_pattern text then Some (VStr text) else None)
    else (if isNaN (parseFloat text) then None
          else Some (VNum (parseFloat text))) in
  match verdict with
  | Some v =>
      snd (cell_blur r c s) = Accepted
      /\ tableData (fst (cell_blur r c s)) = list_set n (set col v old) (tableData s)
  | None =>
      snd (cell_blur r c s) = Rejected
      /\ tableData (fst (cell_blur r c s)) = tableData s
  end.
Proof.
  intros Hrow Hcell Hidx Hlt text col old verdict.
  subst verdict. unfold cell_blur.
  rewrite Hrow, Hcell, Hidx, !or_else_empty.
  rewrite index_guard_nat.
  apply Nat.ltb_lt in Hlt. rewrite Hlt. simpl negb. cbv iota.
  apply Nat.ltb_lt in Hlt.
  fold text. fold col.
  destruct (String.eqb col "Date").
  - destruct (test_date_pattern text); cbn [negb fst snd].
    + split; [reflexivity|]. unfold fetch.
      cbn [tableData with_pending with_sent with_tableData].
      rewrite spread_at_nat, array_set_nat by assumption. reflexivity.
    + split; [reflexivity | apply tableData_revert_cell].
  - destruct (isNaN (parseFloat text)); cbn [fst snd].
    + split; [reflexivity | apply tableData_revert_cell].
    + split; [reflexivity|]. unfold fetch, cell_textContent.
      cbn [tableData with_pending with_sent with_tableData with_tbody].
      rewrite spread_at_nat, array_set_nat by assumption. reflexivity.
Qed.


(** ** Adding a row *)

Lemma getElementById_update_input (key id : string) (f : Input -> Input)
    (l : list Input) :
  key <> id -> (forall i, i_id (f i) = i_id i) ->
  getElementById key (update_input id f l) = getElementById key l.
Proof.
  intros Hne Hf. unfold getElementById.
  induction l as [|i l IH]; simpl; [reflexivity|].
  destruct (String.eqb (i_id i) id) eqn:E; simpl.
  - rewrite Hf. apply String.eqb_eq in E.
    assert (String.eqb (i_id i) key = false) as ->
        by (apply String.eqb_neq; congruence).
    reflexivity.
  - destruct (String.eqb (i_id i) key); [reflexivity | exact IH].
Qed.


Lemma get_fold_date (s : State) (l : list string) (acc : RowData) :
  get "Date" (fold_left (fun newRow k =>
                           if str_neqb k "Date" then set k (new_value s k) newRow
                           else newRow) l acc)
  = get "Date" acc.
Proof.
  revert acc. induction l as [|a l IH]; intros acc; simpl; [reflexivity|].
  rewrite IH. unfold str_neqb.
  destruct (String.eqb_spec a "Date") as [->|Hne]; simpl; [reflexivity|].
  apply get_set_other. congruence.
Qed.



(** The row [addRow] appends: built from the date field, or from
    [getTodayLocal] when that field is empty, and from the other fields
    as they stand. *)
Lemma addRow_appends (s : State) (dateInput : Input) :
  getElementById "Date" (inputs s) = Some dateInput ->
  exists date s1,
    tableData (addRow s) = (tableData s ++ [build_row s1 date])%list
    /\ (truthy (input_value dateInput) = true -> date = input_value dateInput)
    /\ (truthy (input_value dateInput) = false -> date = getTodayLocal s)
    /\ getColumnHeaders s1 = getColumnHeaders s
    /\ forall key, key <> "Date" ->
         getElementById key (inputs s1) = getElementById key (inputs s).
Proof.
  intros Hd. unfold addRow. rewrite Hd.
  destruct (truthy (input_value dateInput)) eqn:E.
  - exists (input_value dateInput), s.
    repeat split; try reflexivity. discriminate.
  - exists (getTodayLocal s),
      (with_inputs (update_input "Date" (set_text (getTodayLocal s)) (inputs s)) s).
    repeat split; try discriminate.
    intros key Hk. cbn [inputs with_inputs].
    now apply getElementById_update_input.
Qed.

(** With the Date field empty, the row [addRow] appends is dated by
    [getTodayLocal]. *)
Lemma addRow_empty_date (s : State) (dateInput : Input) :
  getElementById "Date" (inputs s) = Some dateInput ->
  input_value dateInput = "" ->
  exists newRow,
    tableData (addRow s) = (tableData s ++ [newRow])%list
    /\ get "Date" newRow = Some (VStr (getTodayLocal s)).
Proof.
  intros Hd He.
  destruct (addRow_appends s dateInput Hd) as [date [s1 [Htd [_ [Hdate _]]]]].
  exists (build_row s1 date). split; [exact Htd|].
  rewrite Hdate by (rewrite He; reflexivity).
  unfold build_row. rewrite get_fold_date.
  cbn [get]. rewrite String.eqb_refl. reflexivity.
Qed.

(** ** [getTodayLocal] *)

(** Midnight of the local date, as a time value: the local day number in
    milliseconds, moved back by the offset of the zone. *)
Lemma today_midnight_value (s : State) :
  ~ (0 <= getFullYear (tz s) (now s) <= 99) ->
  today_midnight s = local_day s * msPerDay - tz s * msPerMinute.
Proof.
  unfold today_midnight, getFullYear, getMonth, getDate, local_civil, new_Date_ymd.
  fold (local_day s).
  pose proof (days_from_civil_from_days (local_day s)) as H.
  destruct (civil_from_days (local_day s)) as [[y m] d].
  intros Hy.
  assert ((0 <=? y) && (y <=? 99) = false) as ->.
  { destruct (Z.leb_spec 0 y), (Z.leb_spec y 99); simpl; try reflexivity; lia. }
  replace (m - 1 + 1) with m by lia. now rewrite H.
Qed.

(** What [getTodayLocal] returns is the date of the UTC day in which the
    local midnight falls. *)
Lemma getTodayLocal_value (s : State) :
  ~ (0 <= getFullYear (tz s) (now s) <= 99) ->
  getTodayLocal s
  = iso_date ((local_day s * msPerDay - tz s * msPerMinute) / msPerDay).
Proof.
  intros H. unfold getTodayLocal.
  now rewrite before_T_toISOString, today_midnight_value.
Qed.

(** At UTC and west of it, that is the local date. *)
Lemma getTodayLocal_west (s : State) :
  ~ (0 <= getFullYear (tz s) (now s) <= 99) ->
  -1440 < tz s <= 0 ->
  getTodayLocal s = local_date s.
Proof.
  intros Hy Htz. rewrite getTodayLocal_value by assumption.
  unfold local_date. f_equal. unfold msPerDay, msPerMinute.
  Z.to_euclidean_division_equations; lia.
Qed.

(** East of UTC it is the date of the day before. *)
Lemma getTodayLocal_east (s : State) :
  ~ (0 <= getFullYear (tz s) (now s) <= 99) ->
  0 < tz s <= 1440 ->
  getTodayLocal s = iso_date (local_day s - 1).
Proof.
  intros Hy Htz. rewrite getTodayLocal_value by assumption.
  f_equal. unfold msPerDay, msPerMinute.
  Z.to_euclidean_division_equations; lia.
Qed.

(** ** Indices stay inside the table *)

Lemma rows_indexed_render (s : State) : rows_indexed (renderTableRows s).
Proof.
  intros i br H. apply renderTableRows_rows in H as [Hi Hrow].
  split; [exact Hi|]. apply nth_error_Some.
  change (tableData (renderTableRows s)) with (tableData s). congruence.
Qed.

(** A state that differs from another in neither body rows' indices, nor
    waiting saves, nor the length of the table, is as well indexed. *)
Lemma well_indexed_frame (s s' : State) :
  map r_index (tbody s') = map r_index (tbody s) ->
  pending s' = pending s ->
  List.length (tableData s') = List.length (tableData s) ->
  well_indexed s -> well_indexed s'.
Proof.
  intros Hb Hp Hl [Hrows Hpend]. split.
  - intros i br Hbr.
    assert (Hidx : nth_error (map r_index (tbody s')) i = Some (r_index br))
      by (rewrite nth_error_map, Hbr; reflexivity).
    rewrite Hb, nth_error_map in Hidx.
    destruct (nth_error (tbody s) i) as [br0|] eqn:E; [|discriminate].
    injection Hidx as Hidx. destruct (Hrows i br0 E) as [H1 H2].
    rewrite Hl. split; congruence.
  - intros p Hin. rewrite Hp in Hin. rewrite Hl. now apply Hpend.
Qed.

Lemma map_r_index_update_cell (r c : nat) (f : Cell -> Cell) (b : list BodyRow) :
  map r_index (update_cell r c f b) = map r_index b.
Proof. unfold update_cell. now apply map_update_nth. Qed.

Lemma array_set_length_nat (k : nat) (o : Obj) (a : list Obj) :
  (k < List.length a)%nat ->
  List.length (array_set (Some (Z.of_nat k)) o a) = List.length a.
Proof. intros H. rewrite array_set_nat by assumption. apply list_set_length. Qed.

Lemma In_remove_nth {A : Type} (x : A) (n : nat) (l : list A) :
  In x (remove_nth n l) -> In x l.
Proof.
  revert n. induction l as [|y l IH]; intros [|n]; simpl; auto.
  intros [H | H]; [now left | right; eauto].
Qed.

Lemma header_blur_frame (i : nat) (s : State) :
  tbody (header_blur i s) = tbody s
  /\ pending (header_blur i s) = pending s
  /\ List.length (tableData (header_blur i s)) = List.length (tableData s).
Proof.
  unfold header_blur.
  destruct (nth_error (headers s) i) as [this|]; [|now repeat split].
  destruct (_ || _).
  { destruct (truthy (h_column this)); now repeat split. }
  destruct (String.eqb _ _); [now repeat split|].
  destruct (_ || _); [now repeat split|].
  destruct (_ || _ || _);
    cbn [tbody pending tableData updatePlot with_plot updateDropdownSelectors
         with_selects fetch with_sent with_inputs with_headers with_tableData];
    repeat split; apply length_map.
Qed.

Lemma iter_header_blur_frame (n i : nat) (s : State) :
  tbody (Nat.iter n (header_blur i) s) = tbody s
  /\ pending (Nat.iter n (header_blur i) s) = pending s
  /\ List.length (tableData (Nat.iter n (header_blur i) s))
     = List.length (tableData s).
Proof.
  induction n as [|n [IH1 [IH2 IH3]]]; [now repeat split|].
  change (Nat.iter (S n) (header_blur i) s)
    with (header_blur i (Nat.iter n (header_blur i) s)).
  destruct (header_blur_frame i (Nat.iter n (header_blur i) s)) as [H1 [H2 H3]].
  rewrite H1, H2, H3. now repeat split.
Qed.

Lemma pending_addRow (s : State) : pending (addRow s) = pending s.
Proof.
  unfold addRow.
  destruct (getElementById "Date" (inputs s)) as [dateInput|]; [|reflexivity].
  destruct (truthy (input_value dateInput)); reflexivity.
Qed.

Lemma well_indexed_addRow (s : State) : well_indexed s -> well_indexed (addRow s).
Proof.
  intros [Hrows Hpend].
  destruct (getElementById "Date" (inputs s)) as [dateInput|] eqn:Hd.
  - split.
    + unfold addRow. rewrite Hd. apply rows_indexed_render.
    + intros p Hin. rewrite pending_addRow in Hin.
      destruct (Hpend p Hin) as [k [Hk Hlt]].
      exists k. split; [exact Hk|].
      destruct (addRow_appends s dateInput Hd) as [date [s1 [-> _]]].
      rewrite length_app. simpl. lia.
  - unfold addRow. rewrite Hd. now split.
Qed.

Lemma rows_indexed_ext (s s' : State) :
  tbody s' = tbody s -> tableData s' = tableData s ->
  rows_indexed s -> rows_indexed s'.
Proof. unfold rows_indexed. intros -> ->. auto. Qed.

Lemma well_indexed_addColumn (s : State) :
  well_indexed s -> well_indexed (addColumn s).
Proof.
  intros [Hrows Hpend]. split.
  - unfold addColumn.
    match goal with
    | |- rows_indexed (setupColumnTitleListeners
                         (updateDropdownSelectors _ _ _ (renderTableRows ?x))) =>
        apply (rows_indexed_ext (renderTableRows x))
    end; [reflexivity | reflexivity | apply rows_indexed_render].
  - intros p Hin. destruct (Hpend p Hin) as [k [Hk Hlt]].
    exists k. split; [exact Hk|]. rewrite addColumn_rows, length_map. exact Hlt.
Qed.

Lemma well_indexed_edit_header (i : nat) (text : string) (s : State) :
  well_indexed s -> well_indexed (edit_header i text s).
Proof.
  intros H. unfold edit_header.
  destruct (nth_error (headers s) i) as [h|]; [|exact H].
  destruct (h_editable h); [|exact H].
  destruct (iter_header_blur_frame (h_listeners h) i (header_textContent i text s))
    as [H1 [H2 H3]].
  apply (well_indexed_frame s); [now rewrite H1 | exact H2 | exact H3 | exact H].
Qed.

Lemma well_indexed_cell_textContent (r c : nat) (t : string) (s : State) :
  well_indexed s -> well_indexed (cell_textContent r c t s).
Proof.
  apply well_indexed_frame; [|reflexivity..].
  apply map_r_index_update_cell.
Qed.

Lemma well_indexed_revert_cell (r c : nat) (row : RowData) (col : string)
    (s : State) :
  well_indexed s -> well_indexed (revert_cell r c row col s).
Proof.
  unfold revert_cell. destruct (get col row); [|auto].
  apply well_indexed_cell_textContent.
Qed.

(** An accepted edit, on a page that is well indexed, writes at a position
    of the table. *)
Lemma well_indexed_commit (s : State) (r c : nat) (row : RowData)
    (col : string) (v : JsVal) (k : nat) :
  (k < List.length (tableData s))%nat ->
  well_indexed s ->
  let idx := Some (Z.of_nat k) in
  let s2 := with_tableData
              (array_set idx (set col v (spread_at idx (tableData s))) (tableData s))
              s in
  let s3 := fetch (replace_data (tableData s2)) s2 in
  well_indexed
    (with_pending
       (pending s3 ++
        [{| p_generation := generation s3; p_r := r; p_c := c; p_row := row;
            p_columnName := col; p_rowIndex := idx |}])%list s3).
Proof.
  intros Hk Hs idx s2 s3.
  assert (Hlen : List.length (tableData s2) = List.length (tableData s)).
  { subst s2 idx. cbn [tableData with_tableData]. now apply array_set_length_nat. }
  assert (H2 : well_indexed s2).
  { apply (well_indexed_frame s); [reflexivity | reflexivity | exact Hlen | exact Hs]. }
  clearbody s2. destruct H2 as [Hrows Hpend]. split.
  - apply (rows_indexed_ext s2); [reflexivity | reflexivity | exact Hrows].
  - intros p Hin. change (tableData (with_pending _ s3)) with (tableData s2).
    cbn [pending with_pending] in Hin.
    apply in_app_or in Hin as [Hin | [<- | []]].
    + now apply Hpend.
    + exists k. split; [reflexivity | now rewrite Hlen].
Qed.

Lemma well_indexed_cell_blur (r c : nat) (s : State) :
  well_indexed s -> well_indexed (fst (cell_blur r c s)).
Proof.
  intros H. unfold cell_blur.
  destruct (nth_error (tbody s) r) as [parentRow|] eqn:Hrow; [|exact H].
  destruct (nth_error (r_cells parentRow) c) as [this|]; [|exact H].
  destruct (proj1 H r parentRow Hrow) as [Hidx Hlt].
  apply row_index_decimal in Hidx. rewrite Hidx.
  destruct (index_guard _ _); [now apply well_indexed_revert_cell|].
  destruct (String.eqb _ "Date").
  - destruct (negb _); [now apply well_indexed_revert_cell|].
    cbn [fst]. now apply well_indexed_commit.
  - destruct (isNaN _); [now apply well_indexed_revert_cell|].
    cbn [fst].
    apply (well_indexed_commit (cell_textContent r c _ s)); [exact Hlt|].
    now apply well_indexed_cell_textContent.
Qed.

Lemma well_indexed_settle (k : nat) (ok : bool) (s : State) :
  well_indexed s -> well_indexed (settle k ok s).
Proof.
  intros [Hrows Hpend]. unfold settle.
  destruct (nth_error (pending s) k) as [p|] eqn:Hp; [|now split].
  assert (H1 : well_indexed (with_pending (remove_nth k (pending s)) s)).
  { split; [exact Hrows|]. intros q Hq. apply Hpend.
    cbn [pending with_pending] in Hq. now apply In_remove_nth in Hq. }
  destruct ok; [exact H1|].
  destruct (get (p_columnName p) (p_row p)) as [v|]; [|exact H1].
  destruct (Hpend p (nth_error_In _ _ Hp)) as [n [Hn Hlt]].
  rewrite Hn.
  match goal with
  | |- well_indexed (with_tableData _ ?s2) =>
      assert (H2 : well_indexed s2)
        by (destruct (Nat.eqb _ _);
            [now apply well_indexed_cell_textContent | exact H1])
  end.
  eapply well_indexed_frame; [| | | exact H2]; try reflexivity.
  cbn [tableData with_tableData].
  apply array_set_length_nat. destruct (Nat.eqb _ _); exact Hlt.
Qed.

Lemma well_indexed_step (e : Event) (s : State) :
  well_indexed s -> well_indexed (step e s).
Proof.
  intros H. destruct e as [| |i text|r c text|id text|axis value|k ok]; simpl.
  - now apply well_indexed_addRow.
  - now apply well_indexed_addColumn.
  - now apply well_indexed_edit_header.
  - apply well_indexed_cell_blur. now apply well_indexed_cell_textContent.
  - exact H.
  - unfold choose. destruct (existsb _ _); [|exact H]. destruct axis; exact H.
  - now apply well_indexed_settle.
Qed.

Lemma well_indexed_load (data : list RowData) (s0 : State) :
  pending s0 = [] -> well_indexed (load data s0).
Proof.
  intros Hp. split.
  - unfold load.
    match goal with
    | |- rows_indexed (updatePlot
                         (updateDropdownSelectors _ _ _ (renderTableRows ?x))) =>
        apply (rows_indexed_ext (renderTableRows x))
    end; [reflexivity | reflexivity | apply rows_indexed_render].
  - intros p Hin. change (pending (load data s0)) with (pending s0) in Hin.
    rewrite Hp in Hin. destruct Hin.
Qed.

(** Whatever happens to a loaded page, every body row keeps a position of
    the table as its index, and every waiting save is for a position of
    the table. *)
Lemma well_indexed_run (es : list Event) (s : State) :
  well_indexed s -> well_indexed (run es s).
Proof.
  revert s. induction es as [|e es IH]; intros s H; [exact H|].
  apply IH. now apply well_indexed_step.
Qed.

(* ================================================================== *)
(** * The claims                                                       *)
(* ================================================================== *)

(** C1 (column identity under add-column and rename).  On the default
    table, rename "Variable 1" to "Variable 3", then add a column.  The
    counter stands at 3, so [addColumn] names the new column "Variable 3":
    an identifier that is already a column.  The registry now lists it
    twice, and the value 5 the renamed column held is overwritten by 0.
    Renaming the first of the two afterwards leaves "Variable 3" in the
    registry and in no row. *)
Theorem addColumn_reuses_renamed_identifier :
  let s := run [EditHeader 1 "Variable 3"] Example.loaded in
  let s' := step AddColumn s in
  let s'' := step (EditHeader 1 "Temp") s' in
  columnCounter s = 3%nat
  /\ getColumnHeaders s = ["Date"; "Variable 3"; "Variable 2"]
  /\ stored 0 "Variable 3" s = Some (VNum (Fin 5 0))
  /\ getColumnHeaders s' = ["Date"; "Variable 3"; "Variable 2"; "Variable 3"]
  /\ stored 0 "Variable 3" s' = Some (VNum (Fin 0 0))
  /\ getColumnHeaders s'' = ["Date"; "Temp"; "Variable 2"; "Variable 3"]
  /\ map keys (tableData s'') = [["Date"; "Variable 2"; "Temp"]].
Proof. vm_compute. repeat split. Qed.

(** C2, as the script has it.  For a cell of a row whose index is a
    position of the table: in the Date column the edit is accepted exactly
    when the trimmed text matches [^\d{4}-\d{2}-\d{2}$], and then the
    trimmed text is stored; the pattern looks at the form only, so
    "2024-13-40" is accepted.  In any other column "abc" is rejected and
    the table is unchanged, and "3.5" is accepted and stored as the number
    3.5. *)
Theorem cell_edit_validation :
  forall (s : State) (r c : nat) (parentRow : BodyRow) (this : Cell) (n : nat),
    nth_error (tbody s) r = Some parentRow ->
    nth_error (r_cells parentRow) c = Some this ->
    row_index parentRow = Some (Z.of_nat n) ->
    (n < List.length (tableData s))%nat ->
    let text := trim (c_text this) in
    let old := nth n (tableData s) [] in
    let s' := fst (cell_blur r c s) in
    let outcome := snd (cell_blur r c s) in
    (c_column this = "Date" ->
       (outcome = Accepted <-> test_date_pattern text = true)
       /\ (outcome = Accepted ->
           tableData s' = list_set n (set "Date" (VStr text) old) (tableData s))
       /\ (outcome <> Accepted -> tableData s' = tableData s)
       /\ (c_text this = "2024-13-40" -> outcome = Accepted))
    /\
    (c_column this <> "Date" ->
       (c_text this = "abc" -> outcome = Rejected /\ tableData s' = tableData s)
       /\ (c_text this = "3.5" ->
           outcome = Accepted
           /\ tableData s' =
              list_set n (set (c_column this) (VNum (Fin 35 (-1))) old)
                       (tableData s))).
Proof.
  intros s r c parentRow this n Hrow Hcell Hidx Hlt text old s' outcome.
  pose proof (cell_blur_in_range s r c parentRow this n Hrow Hcell Hidx Hlt) as H.
  cbv zeta in H. fold text old s' outcome in H.
  split.
  - intros Hcol. rewrite Hcol in H. simpl String.eqb in H.
    assert (Hlit : c_text this = "2024-13-40" -> test_date_pattern text = true).
    { intros E. subst text. rewrite E. reflexivity. }
    destruct (test_date_pattern text) eqn:Ht; destruct H as [Ho Htd].
    + repeat split; auto; congruence.
    + repeat split; try congruence.
      intros E. specialize (Hlit E). discriminate.
  - intros Hcol. apply String.eqb_neq in Hcol. rewrite Hcol in H.
    split; intros E; subst text; rewrite E in H; exact H.
Qed.

Lemma cell_edit_validation_witness :
  let s := cell_textContent 0 0 "2024-13-40" Example.loaded in
  (0 < List.length (tableData s))%nat
  /\ (snd (cell_blur 0 0 s) = Accepted
      <-> test_date_pattern (trim "2024-13-40") = true).
Proof.
  intros s. split; [vm_compute; lia|].
  pose (parentRow := nth 0 (tbody s) {| r_index := None; r_row := []; r_cells := [] |}).
  pose (this := nth 0 (r_cells parentRow) {| c_column := ""; c_text := "" |}).
  assert (H1 : nth_error (tbody s) 0 = Some parentRow) by (vm_compute; reflexivity).
  assert (H2 : nth_error (r_cells parentRow) 0 = Some this) by (vm_compute; reflexivity).
  assert (H3 : row_index parentRow = Some (Z.of_nat 0)) by (vm_compute; reflexivity).
  assert (H4 : (0 < List.length (tableData s))%nat) by (vm_compute; lia).
  destruct (cell_edit_validation s 0 0 parentRow this 0 H1 H2 H3 H4) as [HDate _].
  assert (H5 : c_column this = "Date") by (vm_compute; reflexivity).
  exact (proj1 (HDate H5)).
Defined.

(** C2, where the claim and the script part: "2024-13-40" typed into the
    Date cell of the loaded page is accepted, and replaces the date the
    row held; and a date typed with a space before it, which the pattern
    does not match as typed, is accepted once trimmed. *)
Lemma date_cell_accepts_2024_13_40 :
  snd (edit_cell 0 0 "2024-13-40" Example.loaded) = Accepted
  /\ stored 0 "Date" Example.loaded = Some (VStr "2024-03-01")
  /\ stored 0 "Date" (fst (edit_cell 0 0 "2024-13-40" Example.loaded))
     = Some (VStr "2024-13-40")
  /\ test_date_pattern " 2024-03-02" = false
  /\ snd (edit_cell 0 0 " 2024-03-02" Example.loaded) = Accepted.
Proof. vm_compute. repeat split. Qed.

(** C3 (rename atomicity).  On the default table with "Variable 1" chosen
    as the x axis, rename "Variable 1" to "Temp".  The rows are rewritten
    as the claim says, but the x axis does not follow: assigning "Temp" to
    a dropdown that has no such option yet deselects it, the listener then
    reads an empty selection, and the rebuilt dropdown falls back to
    "Date".  Likewise a first y axis on "Variable 2" falls back to
    "Variable 1" when "Variable 2" is renamed. *)
Theorem rename_drops_axis_selection :
  let s := run [Choose X "Variable 1"] Example.loaded in
  let s' := step (EditHeader 1 "Temp") s in
  let t := run [Choose Y1 "Variable 2"; Choose Y2 "Variable 1"] Example.loaded in
  let t' := step (EditHeader 2 "Humidity") t in
  select_value (xAxisSelect s) = "Variable 1"
  /\ getColumnHeaders s' = ["Date"; "Temp"; "Variable 2"]
  /\ tableData s' = [[("Date", VStr "2024-03-01"); ("Variable 2", VNum (Fin 7 0));
                      ("Temp", VNum (Fin 5 0))]]
  /\ select_value (xAxisSelect s') = "Date"
  /\ select_value (yAxis1Select t) = "Variable 2"
  /\ getColumnHeaders t' = ["Date"; "Variable 1"; "Humidity"]
  /\ select_value (yAxis1Select t') = "Variable 1".
Proof. vm_compute. repeat split. Qed.



(** C5 (rollback of a failed save).  On the loaded page, change the cell
    holding 5 to 2 and let the save succeed; then change it to 3 and let
    the save fail.  Before the second edit the cell shows 2 and the row
    holds 2.  The [catch] callback restores the row the listener closed
    over when the body was rendered, which no accepted edit replaces: the
    cell shows 5 and the row holds 5. *)
Theorem failed_save_restores_rendered_row :
  let s := run [EditCell 0 1 "2"; Settle 0 true] Example.loaded in
  let s' := run [EditCell 0 1 "3"; Settle 0 false] s in
  stored 0 "Variable 1" s = Some (VNum (Fin 2 0))
  /\ cell_text 0 1 s = Some "2"
  /\ stored 0 "Variable 1" s' = Some (VNum (Fin 5 0))
  /\ cell_text 0 1 s' = Some "5".
Proof. vm_compute. repeat split. Qed.

(** C6 (revert of a rejected edit).  On the loaded page, change the cell
    holding 5 to 2 and let the save succeed; then type "abc" into it.  The
    edit is rejected and the table is not touched, so the row still holds
    2; but the cell is set to the value of the row as it was rendered,
    and shows 5. *)
Theorem rejected_edit_shows_rendered_value :
  let s := run [EditCell 0 1 "2"; Settle 0 true] Example.loaded in
  let s' := fst (edit_cell 0 1 "abc" s) in
  snd (edit_cell 0 1 "abc" s) = Rejected
  /\ tableData s' = tableData s
  /\ stored 0 "Variable 1" s' = Some (VNum (Fin 2 0))
  /\ cell_text 0 1 s = Some "2"
  /\ cell_text 0 1 s' = Some "5".
Proof. vm_compute. repeat split. Qed.

(** C7 (default date of a new row).  On a device one hour east of UTC, at
    noon of 15 March 2024, [addRow] with an empty Date field dates the new
    row 14 March: [getTodayLocal] takes the local midnight and prints it
    with [toISOString], which is in UTC, where that midnight is still the
    evening before.  (Lemmas [getTodayLocal_east] and [getTodayLocal_west]
    give the rule: the day before everywhere east of UTC, the local date
    at UTC and west of it.) *)
Theorem addRow_east_of_utc_dates_row_yesterday :
  let s := run [TypeInput "Date" ""; AddRow] Example.loaded in
  tz Example.loaded = 60
  /\ local_date Example.loaded = "2024-03-15"
  /\ stored 1 "Date" s = Some (VStr "2024-03-14").
Proof. vm_compute. repeat split. Qed.








(* ================================================================== *)
(** * Further properties of the script                                 *)
(* ================================================================== *)

Import Server Analysis Page.

(* ---------- digit strings ---------- *)

Lemma span_every_digit (a b : string) :
  every is_digit a = true ->
  span is_digit (a ++ b)
  = (a ++ fst (span is_digit b), snd (span is_digit b)).
Proof.
  induction a as [|c a IH]; intros H.
  - simpl. now destruct (span is_digit b).
  - simpl in H. apply andb_true_iff in H as [Hc Ha].
    cbn [append span]. rewrite Hc, (IH Ha). reflexivity.
Qed.

Lemma span_every_digit_end (a : string) :
  every is_digit a = true -> span is_digit a = (a, "").
Proof.
  induction a as [|c a IH]; intros H; [reflexivity|].
  simpl in H. apply andb_true_iff in H as [Hc Ha].
  cbn [span]. now rewrite Hc, (IH Ha).
Qed.

Lemma every_digit_app (a b : string) :
  every is_digit (a ++ b) = every is_digit a && every is_digit b.
Proof.
  induction a as [|c a IH]; [reflexivity|].
  cbn [append every is_digit]. now rewrite IH, andb_assoc.
Qed.

Lemma every_digit_zeros (n : nat) : every is_digit (zeros n) = true.
Proof. induction n; [reflexivity|]. cbn [zeros every is_digit]. now rewrite IHn. Qed.

Lemma take_drop (n : nat) (s : string) : take n s ++ drop n s = s.
Proof.
  revert s. induction n as [|n IH]; intros [|c s]; try reflexivity.
  cbn [take drop append]. now rewrite IH.
Qed.

Lemma every_digit_string_of_uint (d : Decimal.uint) :
  every is_digit (NilEmpty.string_of_uint d) = true.
Proof. induction d; simpl; auto. Qed.

Lemma every_digit_decimal_of_N (n : N) : every is_digit (decimal_of_N n) = true.
Proof.
  destruct (decimal_of_N_shape n) as [-> _]. apply every_digit_string_of_uint.
Qed.

Lemma dec_val_decimal_of_N (n : N) : dec_val (decimal_of_N n) = Z.of_N n.
Proof.
  destruct (decimal_of_N_shape n) as [-> _].
  rewrite dec_val_string_of_uint.
  change (Pos.of_uint (N.to_uint n)) with (N.of_uint (N.to_uint n)).
  now rewrite DecimalN.Unsigned.of_to.
Qed.

Lemma digits_val_app (acc : Z) (a b : string) :
  digits_val 10 digit_val acc (a ++ b)
  = digits_val 10 digit_val (digits_val 10 digit_val acc a) b.
Proof.
  revert acc. induction a as [|c a IH]; intros acc; [reflexivity|].
  cbn [append digits_val]. apply IH.
Qed.

Lemma digits_val_zeros (acc : Z) (n : nat) :
  digits_val 10 digit_val acc (zeros n) = acc * 10 ^ Z.of_nat n.
Proof.
  revert acc. induction n as [|n IH]; intros acc.
  - simpl. lia.
  - cbn [zeros digits_val]. rewrite IH.
    change (digit_val "0") with 0.
    rewrite Nat2Z.inj_succ, Z.pow_succ_r by lia. lia.
Qed.

Lemma length_zeros (n : nat) : String.length (zeros n) = n.
Proof. induction n; simpl; congruence. Qed.

Lemma length_append (a b : string) :
  String.length (a ++ b) = (String.length a + String.length b)%nat.
Proof. induction a; simpl; congruence. Qed.

Lemma length_drop (n : nat) (s : string) :
  String.length (drop n s) = (String.length s - n)%nat.
Proof.
  revert s. induction n as [|n IH]; intros [|c s]; simpl; try reflexivity.
  apply IH.
Qed.

(* ---------- lowest terms ---------- *)

Lemma strip10_pow (m : Z) (j fuel : nat) (e : Z) :
  m mod 10 <> 0 -> (j <= fuel)%nat ->
  strip10 fuel (m * 10 ^ Z.of_nat j) e = (m, e + Z.of_nat j).
Proof.
  intros Hm. revert fuel e. induction j as [|j IH]; intros fuel e Hf.
  - rewrite Z.pow_0_r, Z.mul_1_r, Z.add_0_r.
    destruct fuel; cbn [strip10]; [reflexivity|].
    destruct (Z.eqb_spec (m mod 10) 0); [contradiction | reflexivity].
  - destruct fuel as [|fuel]; [lia|]. cbn [strip10].
    rewrite Nat2Z.inj_succ, Z.pow_succ_r by lia.
    replace (m * (10 * 10 ^ Z.of_nat j)) with (m * 10 ^ Z.of_nat j * 10) by lia.
    rewrite Z.mod_mul, Z.eqb_refl, Z.div_mul by lia.
    rewrite IH by lia. f_equal. lia.
Qed.

Lemma mkFin_pow (m e j : Z) :
  m mod 10 <> 0 -> 0 <= j -> mkFin (m * 10 ^ j) e = Fin m (e + j).
Proof.
  intros Hm Hj. unfold mkFin.
  assert (Hm0 : m <> 0) by (intros ->; now apply Hm).
  assert (Hp : 0 < 10 ^ j) by (apply Z.pow_pos_nonneg; lia).
  destruct (Z.eqb_spec (m * 10 ^ j) 0) as [E|_]; [nia|].
  rewrite <- (Z2Nat.id j) by assumption.
  rewrite strip10_pow; [reflexivity | assumption |].
  rewrite Z2Nat.id by assumption.
  assert (j <= Z.log2 (Z.abs (m * 10 ^ j))).
  { rewrite Z.abs_mul, (Z.abs_eq (10 ^ j)) by lia.
    transitivity (Z.log2 (2 ^ j)).
    - rewrite Z.log2_pow2; lia.
    - apply Z.log2_le_mono.
      assert (2 ^ j <= 10 ^ j) by (apply Z.pow_le_mono_l; lia).
      nia. }
  lia.
Qed.

Lemma mkFin_canonical (m e : Z) :
  canonical (Fin m e) = true -> mkFin m e = Fin m e.
Proof.
  unfold canonical. destruct (Z.eqb_spec m 0) as [->|Hm]; intros H.
  - apply Z.eqb_eq in H. now subst.
  - apply negb_true_iff, Z.eqb_neq in H.
    rewrite <- (Z.mul_1_r m) at 1. change 1 with (10 ^ 0).
    rewrite mkFin_pow by lia. f_equal. lia.
Qed.

(* ---------- reading a number back ---------- *)

Lemma app_empty_r (a : string) : a ++ "" = a.
Proof. induction a; simpl; congruence. Qed.

Lemma span_not_digit (s : string) :
  match s with String c _ => is_digit c = false | EmptyString => True end ->
  span is_digit s = ("", s).
Proof. destruct s as [|c t]; [reflexivity|]. intros H. cbn [span]. now rewrite H. Qed.

Lemma prefix_Infinity_digit (c : ascii) (u : string) :
  is_digit c = true -> prefix "Infinity" (String c u) = false.
Proof.
  intros H.
  change (prefix "Infinity" (String c u))
    with (if ascii_dec "I" c then prefix "nfinity" u else false).
  destruct (ascii_dec "I" c) as [<-|]; [discriminate | reflexivity].
Qed.

Section Reading.
Variables (neg : bool) (c : ascii) (u exs : string) (xv : Z).
Hypothesis Hc : is_digit c = true.
Hypothesis Hexp : exponent_part exs = (xv, "").
Hypothesis Hexs :
  match exs with
  | String d _ => is_digit d = false /\ Ascii.eqb d "." = false
  | EmptyString => True
  end.

Let ip := String c u.
Let sgn (m : Z) := if neg then - m else m.

Lemma exs_span : span is_digit exs = ("", exs).
Proof. apply span_not_digit. destruct exs; [exact I | apply Hexs]. Qed.

Lemma read_whole (s : string) :
  every is_digit u = true ->
  split_sign s = (neg, ip ++ exs) ->
  str_decimal_literal s = Some (mkFin (sgn (dec_val ip)) xv, "").
Proof.
  intros Hu Hs. unfold str_decimal_literal. rewrite Hs.
  assert (Hip : every is_digit ip = true) by (subst ip; cbn [every]; now rewrite Hc).
  change (ip ++ exs) with (String c (u ++ exs)) at 1.
  rewrite prefix_Infinity_digit by exact Hc.
  change (String c (u ++ exs)) with (ip ++ exs).
  rewrite (span_every_digit ip exs Hip), exs_span. cbn [fst snd].
  rewrite app_empty_r.
  assert (Hfp : match exs with
                | String d t =>
                    if Ascii.eqb d "."
                    then let (f, r) := span is_digit t in
                         if is_empty ip && is_empty f then (EmptyString, exs) else (f, r)
                    else (EmptyString, exs)
                | EmptyString => (EmptyString, exs)
                end = (EmptyString, exs)).
  { destruct exs as [|d t]; [reflexivity|]. destruct Hexs as [_ ->]. reflexivity. }
  rewrite Hfp. cbn [is_empty ip andb]. rewrite Hexp, app_empty_r.
  cbn [String.length Z.of_nat]. rewrite Z.sub_0_r. reflexivity.
Qed.

Lemma read_fraction (s fp : string) :
  every is_digit u = true -> every is_digit fp = true ->
  split_sign s = (neg, ip ++ "." ++ fp ++ exs) ->
  str_decimal_literal s
  = Some (mkFin (sgn (dec_val (ip ++ fp))) (xv - Z.of_nat (String.length fp)), "").
Proof.
  intros Hu Hf Hs. unfold str_decimal_literal. rewrite Hs.
  assert (Hip : every is_digit ip = true) by (subst ip; cbn [every]; now rewrite Hc).
  change (ip ++ "." ++ fp ++ exs) with (String c (u ++ "." ++ fp ++ exs)) at 1.
  rewrite prefix_Infinity_digit by exact Hc.
  change (String c (u ++ "." ++ fp ++ exs)) with (ip ++ "." ++ fp ++ exs).
  rewrite (span_every_digit ip _ Hip).
  change ("." ++ fp ++ exs) with (String "." (fp ++ exs)).
  cbn [span is_digit fst snd].
  change (is_digit ".") with false. cbn iota.
  cbn [fst snd]. rewrite app_empty_r.
  change (Ascii.eqb "." ".") with true. cbn iota.
  rewrite (span_every_digit fp exs Hf), exs_span. cbn [fst snd].
  rewrite app_empty_r. cbn [is_empty ip andb]. rewrite Hexp. reflexivity.
Qed.

End Reading.

Lemma decimal_of_N_head (n : N) :
  exists c u, decimal_of_N n = String c u /\ is_digit c = true
              /\ every is_digit u = true.
Proof.
  pose proof (every_digit_decimal_of_N n) as H.
  destruct (decimal_of_N_shape n) as [E Hn].
  destruct (decimal_of_N n) as [|c u] eqn:D.
  - exfalso. apply Hn. destruct (N.to_uint n); [reflexivity | discriminate..].
  - cbn [every] in H. apply andb_true_iff in H as [Hc Hu]. now exists c, u.
Qed.

Lemma exponent_text (x : Z) :
  exponent_part ("e" ++ (if x <? 0 then "-" else "+")
                 ++ decimal_of_N (Z.to_N (Z.abs x))) = (x, "").
Proof.
  destruct (decimal_of_N_head (Z.to_N (Z.abs x))) as [c [u [E [Hc Hu]]]].
  pose proof (dec_val_decimal_of_N (Z.to_N (Z.abs x))) as Hv.
  pose proof (every_digit_decimal_of_N (Z.to_N (Z.abs x))) as Ha.
  rewrite Z2N.id in Hv by lia.
  unfold exponent_part. cbn [append]. change (is_e "e") with true. cbn iota.
  destruct (Z.ltb_spec x 0).
  - cbn [append split_sign]. change (Ascii.eqb "-" "-") with true. cbn iota.
    rewrite (span_every_digit_end _ Ha), E. cbn [is_empty]. rewrite <- E, Hv.
    f_equal. lia.
  - cbn [append split_sign]. change (Ascii.eqb "+" "-") with false.
    change (Ascii.eqb "+" "+") with true. cbn iota.
    rewrite (span_every_digit_end _ Ha), E. cbn [is_empty]. rewrite <- E, Hv.
    f_equal. lia.
Qed.

Lemma signed_text (neg : bool) (c : ascii) (t : string) :
  is_digit c = true ->
  let s := (if neg then "-" else "") ++ String c t in
  ltrim s = s /\ split_sign s = (neg, String c t).
Proof.
  intros Hc s. subst s.
  assert (Hw : is_ws c = false) by now apply is_digit_not_ws.
  assert (Hs : Ascii.eqb c "-" = false /\ Ascii.eqb c "+" = false).
  { unfold is_digit in Hc. apply andb_true_iff in Hc as [H1 H2].
    apply Z.leb_le in H1. apply Z.leb_le in H2.
    split; apply Ascii.eqb_neq; intros ->; vm_compute in H1; vm_compute in H2;
      try (now apply H1); try (now apply H2). }
  destruct Hs as [Hm Hp].
  destruct neg; cbn [append ltrim split_sign].
  - change (is_ws "-") with false. change (Ascii.eqb "-" "-") with true. now split.
  - rewrite Hw, Hm, Hp. now split.
Qed.

(** A number written by [toString] and read by [parseFloat] is the same
    number. *)
Lemma parseFloat_number_to_string (x : JsNum) :
  canonical x = true -> parseFloat (number_to_string x) = x.
Proof.
  destruct x as [| [|] | m e]; try reflexivity.
  intros Hcan. pose proof (mkFin_canonical m e Hcan) as Hmk.
  unfold canonical in Hcan. unfold number_to_string.
  destruct (Z.eqb_spec m 0) as [->|Hm].
  { apply Z.eqb_eq in Hcan. subst. reflexivity. }
  apply negb_true_iff, Z.eqb_neq in Hcan.
  destruct (decimal_of_N_head (Z.to_N (Z.abs m))) as [c [u [E [Hc Hu]]]].
  pose proof (dec_val_decimal_of_N (Z.to_N (Z.abs m))) as Hv.
  rewrite Z2N.id in Hv by lia.
  set (ds := decimal_of_N (Z.to_N (Z.abs m))) in *.
  set (k := Z.of_nat (String.length ds)).
  assert (Hk : k = Z.of_nat (S (String.length u))) by (subst k; now rewrite E).
  set (n := k + e).
  set (neg := m <? 0).
  assert (Hsgn : (if neg then - Z.abs m else Z.abs m) = m).
  { subst neg. destruct (Z.ltb_spec m 0); lia. }
  assert (Hread : forall c0 body t r,
             is_digit c0 = true ->
             body = String c0 t ->
             str_decimal_literal ((if neg then "-" else "") ++ body) = Some (r, "")
             \/ (forall s, split_sign s = (neg, body) ->
                           str_decimal_literal s = Some (r, "")) ->
             parseFloat ((if neg then "-" else "") ++ body) = r).
  { intros c0 body t r Hc0 -> H. unfold parseFloat.
    destruct (signed_text neg c0 t Hc0) as [Hl Hs]. rewrite Hl.
    destruct H as [H|H]; [now rewrite H | now rewrite (H _ Hs)]. }
  destruct ((k <=? n) && (n <=? 21)) eqn:C1.
  { (* digits followed by zeros *)
    apply andb_true_iff in C1 as [C1 _]. apply Z.leb_le in C1.
    apply (Hread c _ (u ++ zeros (Z.to_nat (n - k))) _ Hc).
    { now rewrite E. }
    right. intros s Hs.
    rewrite (read_whole neg c (u ++ zeros (Z.to_nat (n - k))) "" 0 Hc eq_refl I s).
    - change (String c (u ++ zeros (Z.to_nat (n - k))))
        with (String c u ++ zeros (Z.to_nat (n - k))).
      rewrite <- E. unfold dec_val. rewrite digits_val_app, digits_val_zeros.
      fold (dec_val ds). rewrite Hv, Z2Nat.id by lia.
      replace (if neg then - (Z.abs m * 10 ^ (n - k)) else Z.abs m * 10 ^ (n - k))
        with (m * 10 ^ (n - k)) by (destruct neg; lia).
      rewrite mkFin_pow by lia. subst n. repeat f_equal. lia.
    - now rewrite every_digit_app, Hu, every_digit_zeros.
    - rewrite app_empty_r. rewrite Hs. now rewrite E. }
  destruct ((0 <? n) && (n <=? 21)) eqn:C2.
  { (* a point inside the digits *)
    apply andb_true_iff in C2 as [C2 C2']. apply Z.ltb_lt in C2.
    rewrite C2', andb_true_r in C1. apply Z.leb_gt in C1.
    assert (Hn : exists j, Z.to_nat n = S j) by (exists (Z.to_nat n - 1)%nat; lia).
    destruct Hn as [j Hj].
    assert (Hall : every is_digit (take (Z.to_nat n) ds ++ drop (Z.to_nat n) ds) = true).
    { rewrite take_drop. subst ds. apply every_digit_decimal_of_N. }
    rewrite every_digit_app in Hall. apply andb_true_iff in Hall as [Ht Hd].
    assert (Htake : take (Z.to_nat n) ds = String c (take j u)).
    { rewrite Hj, E. reflexivity. }
    apply (Hread c _ (take j u ++ "." ++ drop (Z.to_nat n) ds) _ Hc).
    { now rewrite Htake. }
    right. intros s Hs.
    rewrite (read_fraction neg c (take j u) "" 0 Hc eq_refl I s
               (drop (Z.to_nat n) ds)).
    - rewrite <- Htake, take_drop, Hv, Hsgn, length_drop. fold k.
      rewrite <- Hmk. f_equal. f_equal. f_equal.
      assert (Z.of_nat (String.length ds) = k) by reflexivity.
      assert (n = k + e) by reflexivity. lia.
    - rewrite Htake in Ht. cbn [every] in Ht.
      now apply andb_true_iff in Ht as [_ Ht].
    - exact Hd.
    - rewrite app_empty_r, <- Htake. exact Hs. }
  destruct ((-6 <? n) && (n <=? 0)) eqn:C3.
  { (* zeros between the point and the digits *)
    apply andb_true_iff in C3 as [_ C3]. apply Z.leb_le in C3.
    apply (Hread "0"%char _ ("." ++ zeros (Z.to_nat (- n)) ++ ds) _ eq_refl).
    { reflexivity. }
    right. intros s Hs.
    rewrite (read_fraction neg "0" "" "" 0 eq_refl eq_refl I s
               (zeros (Z.to_nat (- n)) ++ ds)).
    - change (String "0" "" ++ zeros (Z.to_nat (- n)) ++ ds)
        with (zeros (S (Z.to_nat (- n))) ++ ds).
      unfold dec_val. rewrite digits_val_app, digits_val_zeros.
      cbn [Z.mul]. fold (dec_val ds). rewrite Hv, Hsgn, length_append, length_zeros.
      rewrite <- Hmk. f_equal. f_equal. f_equal.
      assert (Z.of_nat (String.length ds) = k) by reflexivity.
      assert (n = k + e) by reflexivity. lia.
    - reflexivity.
    - rewrite every_digit_app, every_digit_zeros. subst ds.
      apply every_digit_decimal_of_N.
    - rewrite app_empty_r. exact Hs. }
  (* exponent notation *)
  pose proof (exponent_text (n - 1)) as Hex.
  set (ex := (if n - 1 <? 0 then "-" else "+")
             ++ decimal_of_N (Z.to_N (Z.abs (n - 1)))) in *.
  destruct (Z.eqb_spec k 1) as [K|K].
  - assert (Hu0 : u = "") by (destruct u; [reflexivity | simpl in Hk; lia]).
    apply (Hread c _ (u ++ "e" ++ ex) _ Hc).
    { now rewrite E. }
    right. intros s Hs.
    rewrite (read_whole neg c u ("e" ++ ex) (n - 1) Hc Hex (conj eq_refl eq_refl) s).
    + rewrite <- E, Hv, Hsgn, <- Hmk. f_equal. f_equal. f_equal.
      assert (n = k + e) by reflexivity. lia.
    + exact Hu.
    + rewrite Hs. now rewrite E.
  - apply (Hread c _ ("." ++ drop 1 ds ++ "e" ++ ex) _ Hc).
    { now rewrite E. }
    right. intros s Hs.
    rewrite (read_fraction neg c "" ("e" ++ ex) (n - 1) Hc Hex
               (conj eq_refl eq_refl) s (drop 1 ds)).
    + replace (String c "" ++ drop 1 ds) with ds by (rewrite E; reflexivity).
      rewrite Hv, Hsgn, length_drop, <- Hmk. f_equal. f_equal. f_equal.
      assert (Z.of_nat (String.length ds) = k) by reflexivity.
      assert (n = k + e) by reflexivity. lia.
    + reflexivity.
    + rewrite E. exact Hu.
    + rewrite Hs. now rewrite E.
Qed.

(* ---------- text without white space ---------- *)

Lemma every_app (p : ascii -> bool) (a b : string) :
  every p (a ++ b) = every p a && every p b.
Proof.
  induction a as [|c a IH]; [reflexivity|].
  cbn [append every]. now rewrite IH, andb_assoc.
Qed.

Lemma every_impl (p q : ascii -> bool) (s : string) :
  (forall c, p c = true -> q c = true) -> every p s = true -> every q s = true.
Proof.
  intros Hpq. induction s as [|c s IH]; [reflexivity|].
  cbn [every]. intros H. apply andb_true_iff in H as [Hc Hs].
  now rewrite (Hpq c Hc), (IH Hs).
Qed.

Lemma trim_solid (s : string) : solid_text s -> trim s = s.
Proof.
  unfold solid_text, trim. intros H.
  assert (Hl : ltrim s = s).
  { destruct s as [|c s]; [reflexivity|]. cbn [every] in H.
    apply andb_true_iff in H as [Hc _]. apply negb_true_iff in Hc.
    cbn [ltrim]. now rewrite Hc. }
  rewrite Hl. clear Hl.
  induction s as [|c s IH]; [reflexivity|].
  cbn [every] in H. apply andb_true_iff in H as [Hc Hs].
  apply negb_true_iff in Hc. cbn [rtrim]. rewrite Hc, (IH Hs). reflexivity.
Qed.

Lemma solid_digits (s : string) : every is_digit s = true -> solid_text s.
Proof.
  apply every_impl. intros c Hc. now rewrite (is_digit_not_ws c Hc).
Qed.

Lemma solid_app (a b : string) : solid_text a -> solid_text b -> solid_text (a ++ b).
Proof. unfold solid_text. intros Ha Hb. now rewrite every_app, Ha, Hb. Qed.

Lemma solid_take_drop (n : nat) (s : string) :
  solid_text s -> solid_text (take n s) /\ solid_text (drop n s).
Proof.
  unfold solid_text. intros H. rewrite <- (take_drop n s), every_app in H.
  now apply andb_true_iff in H.
Qed.

Lemma solid_number_to_string (x : JsNum) : solid_text (number_to_string x).
Proof.
  destruct x as [| [|] | m e]; try reflexivity.
  unfold number_to_string.
  destruct (m =? 0); [reflexivity|].
  assert (Hds : solid_text (decimal_of_N (Z.to_N (Z.abs m))))
    by apply solid_digits, every_digit_decimal_of_N.
  set (ds := decimal_of_N (Z.to_N (Z.abs m))) in *.
  assert (Hz : forall j, solid_text (zeros j))
    by (intros j; apply solid_digits, every_digit_zeros).
  assert (Hex : forall y, solid_text (decimal_of_N y))
    by (intros y; apply solid_digits, every_digit_decimal_of_N).
  apply solid_app; [now destruct (m <? 0)|].
  repeat match goal with
         | |- solid_text (if ?b then _ else _) => destruct b
         | |- solid_text (_ ++ _) => apply solid_app
         | |- solid_text (take ?n ?s) => apply (solid_take_drop n s)
         | |- solid_text (drop ?n ?s) => apply (solid_take_drop n s)
         | |- solid_text (decimal_of_N _) => apply Hex
         | |- solid_text (zeros _) => apply Hz
         | |- solid_text ds => exact Hds
         | |- solid_text _ => reflexivity
         end.
Qed.

(* ---------- the body as rendered ---------- *)

Lemma nth_error_mapi_from_at {A B : Type} (f : nat -> A -> B) (l : list A)
    (i0 i : nat) (x : A) :
  nth_error l i = Some x ->
  nth_error (mapi_from f i0 l) i = Some (f (i0 + i)%nat x).
Proof.
  revert i0 i. induction l as [|a l IH]; intros i0 [|i] H; try discriminate.
  - injection H as ->. cbn [mapi_from nth_error]. now rewrite Nat.add_0_r.
  - cbn [mapi_from nth_error]. rewrite (IH (S i0) i H). f_equal. f_equal. lia.
Qed.

Lemma renderTableRows_row (s : State) (i : nat) (row : RowData) :
  nth_error (tableData s) i = Some row ->
  nth_error (tbody (renderTableRows s)) i
  = Some {| r_index := Some (decimal_of_nat i); r_row := row;
            r_cells := map (render_cell row) (getColumnHeaders s) |}.
Proof.
  intros H. unfold renderTableRows. cbn [tbody with_tbody].
  now rewrite (nth_error_mapi_from_at _ _ O i row H).
Qed.

Lemma renderTableRows_cell (s : State) (i c : nat) (row : RowData) (key : string) :
  nth_error (tableData s) i = Some row ->
  nth_error (getColumnHeaders s) c = Some key ->
  cell_text i c (renderTableRows s)
  = Some (match get key row with Some v => to_string v | None => "" end).
Proof.
  intros Hrow Hkey. unfold cell_text.
  rewrite (renderTableRows_row s i row Hrow). cbn [r_cells].
  rewrite nth_error_map, Hkey. reflexivity.
Qed.

(** X1 (what the table shows).  After [renderTableRows], the cell at row
    [i], column [c] shows the text of the value the row holds under that
    column, and nothing when the row has no such key; a number shown reads
    back, with [parseFloat], as the number stored, and a date is shown as
    stored. *)
Theorem rendered_cell_reads_back :
  forall (s : State) (i c : nat) (row : RowData) (key : string),
    nth_error (tableData s) i = Some row ->
    nth_error (getColumnHeaders s) c = Some key ->
    let shown := cell_text i c (renderTableRows s) in
    (get key row = None -> shown = Some "")
    /\ (forall d, get key row = Some (VStr d) -> shown = Some d)
    /\ (forall x, get key row = Some (VNum x) -> canonical x = true ->
          option_map parseFloat shown = Some x).
Proof.
  intros s i c row key Hrow Hkey shown. subst shown.
  rewrite (renderTableRows_cell s i c row key Hrow Hkey).
  repeat split.
  - now intros ->.
  - now intros d ->.
  - intros x -> Hx. cbn [option_map to_string].
    now rewrite parseFloat_number_to_string.
Qed.

Lemma rendered_cell_reads_back_witness :
  let s := Example.loaded in
  nth_error (tableData s) 0 = Some Example.row0
  /\ option_map parseFloat (cell_text 0 1 (renderTableRows s)) = Some (Fin 5 0).
Proof.
  intros s.
  assert (H1 : nth_error (tableData s) 0 = Some Example.row0)
    by (vm_compute; reflexivity).
  assert (H2 : nth_error (getColumnHeaders s) 1 = Some "Variable 1")
    by (vm_compute; reflexivity).
  split; [exact H1|].
  destruct (rendered_cell_reads_back s 0 1 Example.row0 "Variable 1" H1 H2)
    as [_ [_ H]].
  apply H; reflexivity.
Defined.

(* ---------- the cell listener, accepted ---------- *)

Lemma set_get_same (k : string) (v : JsVal) (o : Obj) :
  get k o = Some v -> set k v o = o.
Proof.
  induction o as [|[k' v'] o IH]; [discriminate|].
  cbn [get set]. destruct (String.eqb_spec k k') as [->|_].
  - now intros [= ->].
  - intros H. now rewrite (IH H).
Qed.

Lemma list_set_nth_error {A : Type} (n : nat) (x : A) (l : list A) :
  nth_error l n = Some x -> list_set n x l = l.
Proof.
  revert n. induction l as [|a l IH]; intros [|n] H; try discriminate.
  - now injection H as ->.
  - cbn [list_set]. now rewrite (IH n H).
Qed.

Lemma list_set_twice {A : Type} (n : nat) (x y : A) (l : list A) :
  list_set n x (list_set n y l) = list_set n x l.
Proof.
  revert n. induction l as [|a l IH]; intros [|n]; try reflexivity.
  cbn [list_set]. now rewrite IH.
Qed.

(** The state an accepted edit leaves: the text shown, the row written,
    the request, and the save that waits. *)
Lemma cell_blur_accepted (s : State) (r c : nat) (parentRow : BodyRow)
    (this : Cell) (n : nat) :
  nth_error (tbody s) r = Some parentRow ->
  nth_error (r_cells parentRow) c = Some this ->
  row_index parentRow = Some (Z.of_nat n) ->
  (n < List.length (tableData s))%nat ->
  snd (cell_blur r c s) = Accepted ->
  exists (s1 : State) (v : JsVal),
    (s1 = s \/ exists t, s1 = cell_textContent r c t s)
    /\ (c_column this = "Date" -> s1 = s)
    /\ (c_column this <> "Date" ->
        v = VNum (parseFloat (trim (c_text this)))
        /\ isNaN (parseFloat (trim (c_text this))) = false
        /\ s1 = cell_textContent r c
                  (number_to_string (parseFloat (trim (c_text this)))) s)
    /\ let data := list_set n (set (c_column this) v (nth n (tableData s) []))
                            (tableData s) in
       fst (cell_blur r c s)
       = with_pending
           (pending s ++
            [{| p_generation := generation s; p_r := r; p_c := c;
                p_row := r_row parentRow; p_columnName := c_column this;
                p_rowIndex := Some (Z.of_nat n) |}])%list
           (fetch (replace_data data) (with_tableData data s1)).
Proof.
  intros Hrow Hcell Hidx Hlt. unfold cell_blur.
  rewrite Hrow, Hcell, Hidx, !or_else_empty, index_guard_nat.
  apply Nat.ltb_lt in Hlt. rewrite Hlt. simpl negb. cbv iota.
  apply Nat.ltb_lt in Hlt.
  destruct (String.eqb_spec (c_column this) "Date") as [E|E].
  - destruct (test_date_pattern _); cbn [negb fst snd]; [|discriminate].
    intros _. exists s, (VStr (trim (c_text this))).
    split; [now left|]. split; [reflexivity|]. split; [contradiction|].
    cbv zeta. unfold fetch.
    cbn [tableData with_pending with_sent with_tableData pending generation sent].
    rewrite spread_at_nat, array_set_nat by assumption. reflexivity.
  - destruct (isNaN _) eqn:Hnan; cbn [fst snd]; [discriminate|].
    intros _.
    exists (cell_textContent r c
              (number_to_string (parseFloat (trim (c_text this)))) s),
           (VNum (parseFloat (trim (c_text this)))).
    split; [right; eexists; reflexivity|]. split; [contradiction|].
    split; [auto|].
    cbv zeta. unfold fetch, cell_textContent.
    cbn [tableData with_pending with_sent with_tableData with_tbody pending
         generation sent].
    rewrite spread_at_nat, array_set_nat by assumption. reflexivity.
Qed.

Lemma cell_text_cell_textContent (r c : nat) (t : string) (s : State)
    (br : BodyRow) (cl : Cell) :
  nth_error (tbody s) r = Some br -> nth_error (r_cells br) c = Some cl ->
  cell_text r c (cell_textContent r c t s) = Some t.
Proof.
  intros Hr Hc. unfold cell_text, cell_textContent, update_cell.
  cbn [tbody with_tbody].
  rewrite (nth_error_update_nth _ _ _ _ Hr). cbn [r_cells].
  rewrite (nth_error_update_nth _ _ _ _ Hc). reflexivity.
Qed.

(** X2 (leaving a cell untouched).  On a freshly rendered body, leaving a
    cell of a number column without having typed anything is taken as an
    edit: it is accepted, the table and the text shown stay as they are,
    and the whole table is sent to [replace_data] once more. *)
Theorem untouched_cell_is_saved_again :
  forall (s0 : State) (i c : nat) (row : RowData) (key : string) (x : JsNum),
    nth_error (tableData s0) i = Some row ->
    nth_error (getColumnHeaders s0) c = Some key ->
    key <> "Date" ->
    get key row = Some (VNum x) ->
    canonical x = true -> x <> NaN ->
    let s := renderTableRows s0 in
    let s' := fst (cell_blur i c s) in
    snd (cell_blur i c s) = Accepted
    /\ tableData s' = tableData s0
    /\ sent s' = (sent s0 ++ [replace_data (tableData s0)])%list
    /\ cell_text i c s' = cell_text i c s.
Proof.
  intros s0 i c row key x Hrow Hkey Hdate Hget Hcan Hnan s s'.
  pose proof (renderTableRows_row s0 i row Hrow) as Hbr. fold s in Hbr.
  set (parentRow := {| r_index := Some (decimal_of_nat i); r_row := row;
                       r_cells := map (render_cell row) (getColumnHeaders s0) |})
    in *.
  assert (Hcell : nth_error (r_cells parentRow) c = Some (render_cell row key)).
  { subst parentRow. cbn [r_cells]. now rewrite nth_error_map, Hkey. }
  assert (Hidx : row_index parentRow = Some (Z.of_nat i))
    by now apply row_index_decimal.
  assert (Hlt : (i < List.length (tableData s))%nat).
  { apply nth_error_Some. subst s. unfold renderTableRows.
    cbn [tableData with_tbody]. congruence. }
  assert (Htext : c_text (render_cell row key) = number_to_string x).
  { unfold render_cell. cbn [c_text]. now rewrite Hget. }
  assert (Hparse : parseFloat (trim (c_text (render_cell row key))) = x).
  { rewrite Htext, trim_solid by apply solid_number_to_string.
    now apply parseFloat_number_to_string. }
  assert (Hacc : snd (cell_blur i c s) = Accepted).
  { pose proof (cell_blur_in_range s i c parentRow _ i Hbr Hcell Hidx Hlt) as H.
    cbv zeta in H. cbn [c_column render_cell] in H.
    apply String.eqb_neq in Hdate. rewrite Hdate in H.
    cbn [c_text render_cell] in Hparse, H. rewrite Hparse in H.
    destruct x; try (now destruct H); contradiction. }
  destruct (cell_blur_accepted s i c parentRow _ i Hbr Hcell Hidx Hlt Hacc)
    as [s1 [v [_ [_ [Hnum Hst]]]]].
  destruct (Hnum Hdate) as [Hv [_ Hs1]]. cbv zeta in Hst.
  rewrite Hparse in Hv, Hs1. cbn [c_column render_cell] in Hst.
  assert (Hdata : list_set i (set key v (nth i (tableData s) [])) (tableData s)
                  = tableData s0).
  { assert (Htd : tableData s = tableData s0) by reflexivity.
    rewrite Htd, (nth_error_nth _ _ _ Hrow), Hv, (set_get_same _ _ _ Hget).
    now apply list_set_nth_error. }
  rewrite Hdata in Hst.
  split; [exact Hacc|]. subst s'. rewrite Hst, Hs1.
  split; [reflexivity|]. split; [reflexivity|].
  unfold fetch.
  change (cell_text i c (with_pending ?p (with_sent ?q (with_tableData ?d ?t))))
    with (cell_text i c t).
  rewrite (cell_text_cell_textContent i c _ s parentRow _ Hbr Hcell).
  unfold cell_text. rewrite Hbr, Hcell. cbn [option_map]. now rewrite Htext.
Qed.

Lemma untouched_cell_is_saved_again_witness :
  let s0 := Example.loaded in
  snd (cell_blur 0 1 (renderTableRows s0)) = Accepted
  /\ tableData (fst (cell_blur 0 1 (renderTableRows s0))) = tableData s0
  /\ sent (fst (cell_blur 0 1 (renderTableRows s0)))
     = (sent s0 ++ [replace_data (tableData s0)])%list.
Proof.
  intros s0.
  assert (H1 : nth_error (tableData s0) 0 = Some Example.row0)
    by (vm_compute; reflexivity).
  assert (H2 : nth_error (getColumnHeaders s0) 1 = Some "Variable 1")
    by (vm_compute; reflexivity).
  assert (H3 : "Variable 1" <> "Date") by discriminate.
  assert (H4 : get "Variable 1" Example.row0 = Some (VNum (Fin 5 0)))
    by reflexivity.
  assert (H5 : Fin 5 0 <> NaN) by discriminate.
  destruct (untouched_cell_is_saved_again s0 0 1 Example.row0 "Variable 1"
              (Fin 5 0) H1 H2 H3 H4 eq_refl H5) as [Ha [Hb [Hc _]]].
  split; [exact Ha|]. split; [exact Hb | exact Hc].
Defined.

Lemma remove_nth_last {A : Type} (l : list A) (x : A) :
  remove_nth (List.length l) (l ++ [x])%list = l.
Proof. induction l as [|a l IH]; [reflexivity|]. cbn. now rewrite IH. Qed.

Lemma nth_error_last {A : Type} (l : list A) (x : A) :
  nth_error (l ++ [x])%list (List.length l) = Some x.
Proof. induction l as [|a l IH]; [reflexivity|]. exact IH. Qed.

(** X3 (rollback of the first edit).  When the row a cell was rendered
    from is still the row of the table, an accepted edit of the cell whose
    save then fails is undone: the table is what it was before the edit,
    the cell shows the value rendered, and the save no longer waits. *)
Theorem first_edit_is_rolled_back :
  forall (s : State) (r c : nat) (parentRow : BodyRow) (this : Cell) (n : nat)
         (v0 : JsVal),
    nth_error (tbody s) r = Some parentRow ->
    nth_error (r_cells parentRow) c = Some this ->
    r_index parentRow = Some (decimal_of_nat n) ->
    nth_error (tableData s) n = Some (r_row parentRow) ->
    get (c_column this) (r_row parentRow) = Some v0 ->
    snd (cell_blur r c s) = Accepted ->
    let s1 := fst (cell_blur r c s) in
    let s2 := settle (List.length (pending s)) false s1 in
    tableData s2 = tableData s
    /\ cell_text r c s2 = Some (to_string v0)
    /\ pending s2 = pending s
    /\ sent s2 = sent s1.
Proof.
  intros s r c parentRow this n v0 Hrow Hcell Hix Hfresh Hget Hacc s1 s2.
  assert (Hidx : row_index parentRow = Some (Z.of_nat n))
    by now apply row_index_decimal.
  assert (Hlt : (n < List.length (tableData s))%nat)
    by (apply nth_error_Some; congruence).
  destruct (cell_blur_accepted s r c parentRow this n Hrow Hcell Hidx Hlt Hacc)
    as [s0 [v [Hs0 [_ [_ Hst]]]]].
  cbv zeta in Hst. subst s2 s1. rewrite Hst. clear Hst.
  set (data := list_set n (set (c_column this) v (nth n (tableData s) []))
                       (tableData s)).
  assert (Hframe : tableData s0 = tableData s /\ pending s0 = pending s
                   /\ generation s0 = generation s /\ sent s0 = sent s
                   /\ exists br cl, nth_error (tbody s0) r = Some br
                                    /\ nth_error (r_cells br) c = Some cl).
  { destruct Hs0 as [->|[t ->]].
    - repeat split; try reflexivity. now exists parentRow, this.
    - repeat split; try reflexivity.
      unfold cell_textContent, update_cell. cbn [tbody with_tbody].
      rewrite (nth_error_update_nth _ _ _ _ Hrow). cbn [r_cells].
      eexists; eexists; split; [reflexivity|]. cbn [r_cells].
      now rewrite (nth_error_update_nth _ _ _ _ Hcell). }
  destruct Hframe as [Htd [Hpe [Hge [Hse [br [cl [Hbr Hcl]]]]]]].
  unfold settle, fetch.
  cbn [pending with_pending with_sent with_tableData].
  rewrite nth_error_last, remove_nth_last.
  cbn [p_columnName p_row p_generation p_r p_c p_rowIndex].
  rewrite Hget.
  cbn [generation with_pending with_sent with_tableData].
  rewrite Hge, Nat.eqb_refl.
  cbn [tableData cell_textContent with_tbody with_pending with_sent with_tableData].
  assert (Hn : (n < List.length data)%nat)
    by (subst data; now rewrite list_set_length).
  rewrite (array_set_nat n _ data Hn). subst data.
  unfold RowData in *.
  rewrite !list_set_twice, !(list_set_nth_error _ _ _ Hfresh).
  split; [reflexivity|]. split.
  - match goal with
    | |- cell_text r c (with_tableData _ ?t) = _ =>
        change (cell_text r c t = Some (to_string v0))
    end.
    apply (cell_text_cell_textContent r c _ _ br cl); [exact Hbr | exact Hcl].
  - split; reflexivity.
Qed.

Lemma first_edit_is_rolled_back_witness :
  let s := Example.loaded in
  let s1 := fst (edit_cell 0 1 "9" s) in
  stored 0 "Variable 1" s1 = Some (VNum (Fin 9 0))
  /\ tableData (settle 0 false s1) = tableData s
  /\ cell_text 0 1 (settle 0 false s1) = Some "5".
Proof.
  intros s s1.
  split; [vm_compute; reflexivity|].
  set (t := cell_textContent 0 1 "9" s).
  pose (parentRow := nth 0 (tbody t) {| r_index := None; r_row := []; r_cells := [] |}).
  pose (this := nth 1 (r_cells parentRow) {| c_column := ""; c_text := "" |}).
  assert (H1 : nth_error (tbody t) 0 = Some parentRow) by (vm_compute; reflexivity).
  assert (H2 : nth_error (r_cells parentRow) 1 = Some this) by (vm_compute; reflexivity).
  assert (H3 : r_index parentRow = Some (decimal_of_nat 0)) by (vm_compute; reflexivity).
  assert (H4 : nth_error (tableData t) 0 = Some (r_row parentRow))
    by (vm_compute; reflexivity).
  assert (H5 : get (c_column this) (r_row parentRow) = Some (VNum (Fin 5 0)))
    by (vm_compute; reflexivity).
  assert (H6 : snd (cell_blur 0 1 t) = Accepted) by (vm_compute; reflexivity).
  destruct (first_edit_is_rolled_back t 0 1 parentRow this 0 _ H1 H2 H3 H4 H5 H6)
    as [Ha [Hb _]].
  split; [exact Ha | exact Hb].
Defined.

(* ---------- the index guard ---------- *)

(** X4 (the index guard on a page the script made).  On every page reached
    from a loaded one by adding rows and columns, editing headers and
    cells, typing, choosing axes and saves settling, each body row carries
    its own position as index, so that an edit of a cell is never turned
    down by the index guard. *)
Theorem index_guard_never_fires :
  forall (data : list RowData) (s0 : State) (es : list Event) (r c : nat)
         (text : string),
    pending s0 = [] ->
    let s := run es (load data s0) in
    rows_indexed s
    /\ snd (edit_cell r c text s) <> InvalidIndex.
Proof.
  intros data s0 es r c text Hp s.
  assert (Hw : well_indexed s)
    by (subst s; apply well_indexed_run, well_indexed_load, Hp).
  split; [exact (proj1 Hw)|].
  apply (well_indexed_cell_textContent r c text) in Hw.
  unfold edit_cell. set (t := cell_textContent r c text s) in *.
  unfold cell_blur.
  destruct (nth_error (tbody t) r) as [parentRow|] eqn:Hrow; [|discriminate].
  destruct (nth_error (r_cells parentRow) c) as [this|]; [|discriminate].
  destruct (proj1 Hw r parentRow Hrow) as [Hidx Hlt].
  apply row_index_decimal in Hidx. rewrite Hidx, index_guard_nat.
  apply Nat.ltb_lt in Hlt. rewrite Hlt. cbn [negb].
  destruct (String.eqb _ "Date").
  - destruct (negb _); discriminate.
  - destruct (isNaN _); discriminate.
Qed.

Lemma index_guard_never_fires_witness :
  snd (edit_cell 0 1 "9" (run [AddRow; AddColumn] Example.loaded)) <> InvalidIndex.
Proof.
  exact (proj2 (index_guard_never_fires [Example.row0]
                  (blank Example.noon_utc_plus_1 60) [AddRow; AddColumn] 0 1 "9"
                  eq_refl)).
Defined.

(* ---------- getTodayLocal ---------- *)

(** X5 (the date [getTodayLocal] gives).  For every instant whose local
    year is not one of 0 to 99: on a device at UTC or west of it (by less
    than a day) the result is the local calendar date; on a device east of
    UTC (by at most a day) it is the date of the day before. *)
Theorem getTodayLocal_by_offset :
  forall s : State,
    ~ (0 <= getFullYear (tz s) (now s) <= 99) ->
    (-1440 < tz s <= 0 -> getTodayLocal s = local_date s)
    /\ (0 < tz s <= 1440 -> getTodayLocal s = iso_date (local_day s - 1)).
Proof.
  intros s Hy. split; intros Htz.
  - now apply getTodayLocal_west.
  - now apply getTodayLocal_east.
Qed.

Lemma getTodayLocal_by_offset_witness :
  getTodayLocal Example.loaded_west = local_date Example.loaded_west
  /\ getTodayLocal Example.loaded = iso_date (local_day Example.loaded - 1).
Proof.
  assert (Hw : ~ (0 <= getFullYear (tz Example.loaded_west)
                          (now Example.loaded_west) <= 99))
    by (vm_compute; intros [_ H]; now apply H).
  assert (He : ~ (0 <= getFullYear (tz Example.loaded) (now Example.loaded) <= 99))
    by (vm_compute; intros [_ H]; now apply H).
  split.
  - apply (proj1 (getTodayLocal_by_offset Example.loaded_west Hw)).
    vm_compute. split; [reflexivity | discriminate].
  - apply (proj2 (getTodayLocal_by_offset Example.loaded He)).
    vm_compute. split; [reflexivity | discriminate].
Defined.

(* ---------- addColumn ---------- *)

(** X6 (what [addColumn] does).  [addColumn] takes the identifier
    "Variable n" for the counter n and moves the counter on by one; the
    identifier is appended to the registry; every row holds 0 under it and
    holds under every other key what it held; and the table so changed is
    sent to [replace_data]. *)
Theorem addColumn_adds_a_zero_column :
  forall s : State,
    let key := "Variable " ++ decimal_of_nat (columnCounter s) in
    let s' := addColumn s in
    columnCounter s' = S (columnCounter s)
    /\ map h_column (headers s') = (map h_column (headers s) ++ [key])%list
    /\ List.length (tableData s') = List.length (tableData s)
    /\ (forall n, (n < List.length (tableData s))%nat ->
          stored n key s' = Some (VNum zero))
    /\ (forall n k, k <> key -> stored n k s' = stored n k s)
    /\ sent s' = (sent s ++ [replace_data (tableData s')])%list.
Proof.
  intros s key s'. subst key s'.
  split; [reflexivity|].
  split; [apply addColumn_header|].
  split; [rewrite addColumn_rows; apply length_map|].
  split; [apply addColumn_new_value|].
  split; [intros n k Hk; now apply addColumn_other_values|].
  reflexivity.
Qed.






(* ---------- renaming a column ---------- *)



(** X9 (listeners piling up on a header).  [addColumn] attaches one more
    [blur] listener to every header cell that has an identifier.  That is
    harmless: for a cell whose identifier has no white space around it,
    running the listeners it has, however many, does what running one
    does. *)
Theorem header_listeners_pile_up_harmlessly :
  forall (s : State) (i : nat) (this : Header) (text : string),
    nth_error (headers s) i = Some this ->
    h_column this <> "" ->
    h_editable this = true ->
    trim (h_column this) = h_column this ->
    let s' := addColumn s in
    option_map h_listeners (nth_error (headers s') i) = Some (S (h_listeners this))
    /\ edit_header i text s' = header_blur i (header_textContent i text s').
Proof.
  intros s i this text Hnth Hcol Hed Htrim s'.
  set (this' := {| h_column := h_column this; h_text := h_text this;
                   h_editable := h_editable this;
                   h_listeners := S (h_listeners this) |}).
  assert (H : nth_error (headers s') i = Some this').
  { subst s'. unfold addColumn, setupColumnTitleListeners.
    cbn [headers with_headers updateDropdownSelectors with_selects renderTableRows
         with_tbody fetch with_sent with_tableData with_inputs with_columnCounter].
    rewrite nth_error_map, nth_error_app1 by (apply nth_error_Some; congruence).
    rewrite Hnth. cbn [option_map].
    apply truthy_nonempty in Hcol. now rewrite Hcol. }
  split; [now rewrite H|].
  apply (edit_header_once s' i text this' H); [exact Hed | discriminate | exact Htrim].
Qed.

Lemma header_listeners_pile_up_harmlessly_witness :
  let s' := addColumn Example.loaded in
  option_map h_listeners (nth_error (headers s') 1) = Some 2%nat
  /\ edit_header 1 "Temp" s' = header_blur 1 (header_textContent 1 "Temp" s').
Proof.
  intros s'.
  pose (this := {| h_column := "Variable 1"; h_text := "Variable 1";
                   h_editable := true; h_listeners := 1 |}).
  assert (H1 : nth_error (headers Example.loaded) 1 = Some this)
    by (vm_compute; reflexivity).
  assert (H2 : h_column this <> "") by discriminate.
  exact (header_listeners_pile_up_harmlessly Example.loaded 1 this "Temp"
           H1 H2 eq_refl eq_refl).
Defined.

(* ---------- addRow ---------- *)






(* ---------- the axis dropdowns ---------- *)

Lemma select_value_set_value (v : string) (l : list string) :
  select_value (select_set_value v (select_of_options l))
  = if existsb (String.eqb v) l then v else "".
Proof.
  unfold select_value, select_set_value. cbn [selected options select_of_options].
  induction l as [|x l IH]; [reflexivity|].
  cbn [index_of existsb]. destruct (String.eqb_spec v x) as [->|Hne].
  - reflexivity.
  - cbn [orb]. destruct (index_of v l) as [i|]; cbn [nth]; exact IH.
Qed.

Lemma existsb_eqb_hd (l : list string) (d : string) :
  l <> [] -> existsb (String.eqb (hd d l)) l = true.
Proof.
  destruct l as [|x l]; [congruence|]. intros _. cbn. now rewrite String.eqb_refl.
Qed.

Lemma first_or_hd (l : list string) (b : option string) :
  (forall k, In k l -> k <> "") -> l <> [] -> first_or l b = Some (hd "" l).
Proof.
  destruct l as [|x l]; [congruence|]. intros H _. cbn [first_or hd].
  assert (Hx : truthy x = true) by (apply truthy_nonempty, H; now left).
  now rewrite Hx.
Qed.

(** X11 (the axes chosen by default).  [updateDropdownSelectors()] offers
    every column for the x axis and every column but Date for the two y
    axes.  When no column has an empty identifier, it sets the x axis to
    Date (to nothing when Date is no column), the first y axis to the first
    column that is not Date, and the second y axis to the first such column
    that differs from the first y axis, or to the same column when there is
    no other. *)
Theorem default_axes :
  forall s : State,
    let columnNames := getColumnHeaders s in
    let nonDateColumns := filter (fun col => str_neqb col "Date") columnNames in
    let s' := updateDropdownSelectors None None None s in
    (forall k, In k columnNames -> k <> "") ->
    options (xAxisSelect s') = columnNames
    /\ options (yAxis1Select s') = nonDateColumns
    /\ options (yAxis2Select s') = nonDateColumns
    /\ select_value (xAxisSelect s')
       = (if existsb (String.eqb "Date") columnNames then "Date" else "")
    /\ select_value (yAxis1Select s') = hd "" nonDateColumns
    /\ select_value (yAxis2Select s')
       = hd (hd "" nonDateColumns)
            (filter (fun col => str_neqb col (hd "" nonDateColumns)) nonDateColumns).
Proof.
  intros s columnNames nonDateColumns s' Hne. subst s'.
  unfold updateDropdownSelectors. fold columnNames. fold nonDateColumns.
  cbn [wanted xAxisSelect yAxis1Select yAxis2Select with_selects].
  assert (Hnd : forall k, In k nonDateColumns -> k <> "").
  { intros k Hk. apply Hne. subst nonDateColumns.
    now apply filter_In in Hk as [Hk _]. }
  assert (Hy1 : select_value
                  (select_set_value
                     (assigned (first_or nonDateColumns (nth_error columnNames 0)))
                     (select_of_options nonDateColumns))
                = hd "" nonDateColumns).
  { rewrite select_value_set_value.
    destruct nonDateColumns as [|x l] eqn:E; [reflexivity|].
    rewrite first_or_hd by (assumption || discriminate).
    cbn [assigned hd existsb]. now rewrite String.eqb_refl. }
  split; [reflexivity|]. split; [reflexivity|]. split; [reflexivity|].
  split; [apply select_value_set_value|]. split; [exact Hy1|].
  rewrite Hy1, select_value_set_value.
  set (y1 := hd "" nonDateColumns).
  set (availableColumns := filter (fun col => str_neqb col y1) nonDateColumns).
  assert (Hav : forall k, In k availableColumns -> In k nonDateColumns).
  { intros k Hk. subst availableColumns. now apply filter_In in Hk as [Hk _]. }
  destruct availableColumns as [|a l] eqn:Ea.
  - cbn [first_or hd].
    destruct nonDateColumns as [|x l] eqn:E; [reflexivity|].
    rewrite first_or_hd by (assumption || discriminate).
    subst y1. cbn [assigned hd existsb]. now rewrite String.eqb_refl.
  - rewrite first_or_hd; [| intros k Hk; apply Hnd, Hav, Hk | discriminate].
    cbn [assigned hd].
    assert (Hin : existsb (String.eqb a) nonDateColumns = true).
    { apply existsb_eqb_In, Hav. now left. }
    now rewrite Hin.
Qed.

Lemma default_axes_witness :
  let s' := updateDropdownSelectors None None None Example.loaded in
  select_value (xAxisSelect s') = "Date"
  /\ select_value (yAxis1Select s') = "Variable 1"
  /\ select_value (yAxis2Select s') = "Variable 2".
Proof.
  intros s'.
  assert (H : forall k, In k (getColumnHeaders Example.loaded) -> k <> "").
  { vm_compute. intros k [<-|[<-|[<-|[]]]]; discriminate. }
  destruct (default_axes Example.loaded H) as [_ [_ [_ [Hx [Hy1 Hy2]]]]].
  split; [exact Hx|]. split; [exact Hy1 | exact Hy2].
Defined.

(** X12 (a column asked for).  [updateDropdownSelectors] sets an axis to
    the identifier it is asked for whenever that identifier is not empty
    and is among the options of the axis: a column for the x axis, a column
    other than Date for a y axis. *)
Theorem desired_axes_are_honoured :
  forall (s : State) (x y1 y2 : string),
    let columnNames := getColumnHeaders s in
    let s' := updateDropdownSelectors (Some x) (Some y1) (Some y2) s in
    (x <> "" -> In x columnNames -> select_value (xAxisSelect s') = x)
    /\ (y1 <> "" -> y1 <> "Date" -> In y1 columnNames ->
        select_value (yAxis1Select s') = y1)
    /\ (y2 <> "" -> y2 <> "Date" -> In y2 columnNames ->
        select_value (yAxis2Select s') = y2).
Proof.
  intros s x y1 y2 columnNames s'. subst s'.
  unfold updateDropdownSelectors. fold columnNames.
  cbn [xAxisSelect yAxis1Select yAxis2Select with_selects].
  set (nonDateColumns := filter (fun col => str_neqb col "Date") columnNames).
  assert (Hw : forall v l, v <> "" -> In v l -> wanted (Some v) l = Some v).
  { intros v l Hv Hin. unfold wanted.
    apply truthy_nonempty in Hv. apply existsb_eqb_In in Hin.
    now rewrite Hv, Hin. }
  assert (Hsel : forall v l, In v l ->
             select_value (select_set_value v (select_of_options l)) = v).
  { intros v l Hin. rewrite select_value_set_value.
    apply existsb_eqb_In in Hin. now rewrite Hin. }
  assert (Hnd : forall v, v <> "Date" -> In v columnNames -> In v nonDateColumns).
  { intros v Hv Hin. subst nonDateColumns. apply filter_In. split; [exact Hin|].
    unfold str_neqb. apply String.eqb_neq in Hv. now rewrite Hv. }
  split; [|split].
  - intros Hx Hin. rewrite (Hw _ _ Hx Hin). now apply Hsel.
  - intros Hy Hd Hin. rewrite (Hw _ _ Hy (Hnd _ Hd Hin)). now apply Hsel, Hnd.
  - intros Hy Hd Hin. rewrite (Hw _ _ Hy (Hnd _ Hd Hin)). now apply Hsel, Hnd.
Qed.

Lemma desired_axes_are_honoured_witness :
  let s' := updateDropdownSelectors (Some "Variable 2") (Some "Variable 2")
              (Some "Variable 1") Example.loaded in
  select_value (xAxisSelect s') = "Variable 2"
  /\ select_value (yAxis1Select s') = "Variable 2"
  /\ select_value (yAxis2Select s') = "Variable 1".
Proof.
  intros s'.
  destruct (desired_axes_are_honoured Example.loaded "Variable 2" "Variable 2"
              "Variable 1") as [Hx [Hy1 Hy2]].
  assert (H1 : In "Variable 1" (getColumnHeaders Example.loaded))
    by (vm_compute; right; left; reflexivity).
  assert (H2 : In "Variable 2" (getColumnHeaders Example.loaded))
    by (vm_compute; right; right; left; reflexivity).
  split; [apply Hx; [discriminate | exact H2]|].
  split; [apply Hy1; [discriminate | discriminate | exact H2]
         | apply Hy2; [discriminate | discriminate | exact H1]].
Defined.

(* ---------- loading ---------- *)






(* ---------- paths and file names ---------- *)

Lemma last_split (c : ascii) (s : string) :
  lacks c s = true
  \/ exists a b, s = a ++ String c b /\ lacks c b = true.
Proof.
  induction s as [|x r IH]; [now left|].
  destruct IH as [Hl|[a [b [-> Hb]]]].
  - cbn [lacks]. destruct (Ascii.eqb_spec x c) as [->|Hne].
    + right. now exists "", r.
    + left. now rewrite Hl.
  - right. now exists (String x a), b.
Qed.

Lemma lastIndexOf_lacks (c : ascii) (s : string) :
  lacks c s = true -> lastIndexOf c s = -1.
Proof.
  induction s as [|x r IH]; [reflexivity|].
  cbn [lacks lastIndexOf]. intros H. apply andb_true_iff in H as [Hx Hr].
  rewrite (IH Hr). apply negb_true_iff in Hx. now rewrite Hx.
Qed.

Lemma lastIndexOf_app (c : ascii) (a b : string) :
  lacks c b = true ->
  lastIndexOf c (a ++ String c b) = Z.of_nat (String.length a).
Proof.
  intros Hb. induction a as [|x a IH].
  - cbn [append lastIndexOf String.length]. rewrite (lastIndexOf_lacks c b Hb).
    now rewrite Ascii.eqb_refl.
  - cbn [append lastIndexOf]. rewrite IH.
    destruct (Z.leb_spec 0 (Z.of_nat (String.length a))); [|lia].
    cbn [String.length]. lia.
Qed.

Lemma take_app_length (a b : string) : take (String.length a) (a ++ b) = a.
Proof. induction a as [|x a IH]; [now destruct b|]. cbn. now rewrite IH. Qed.

Lemma substring_prefix (a b : string) :
  substring 0 (Z.of_nat (String.length a)) (a ++ b) = a.
Proof.
  unfold substring. rewrite length_append.
  set (la := String.length a). set (lb := String.length b).
  replace (Z.min (Z.max 0 0) (Z.of_nat (la + lb))) with 0 by lia.
  replace (Z.min (Z.max (Z.of_nat la) 0) (Z.of_nat (la + lb)))
    with (Z.of_nat la) by lia.
  replace (Z.max 0 (Z.of_nat la) - Z.min 0 (Z.of_nat la)) with (Z.of_nat la) by lia.
  replace (Z.min 0 (Z.of_nat la)) with 0 by lia.
  rewrite Nat2Z.id. cbn [Z.to_nat drop].
  replace (drop 0 (a ++ b)) with (a ++ b) by (now destruct (a ++ b)).
  apply take_app_length.
Qed.

Lemma app_assoc_string (a b c : string) : (a ++ b) ++ c = a ++ b ++ c.
Proof. induction a; cbn; congruence. Qed.

(** X14 (the base of the requests).  [getBaseUrl] cuts the path after its
    last slash: the path is the result followed by a text with no slash;
    the result is empty, when the path has no slash, or ends with a slash;
    and cutting the result again changes nothing. *)
Theorem getBaseUrl_cuts_after_the_last_slash :
  forall path : string,
    (exists rest, path = getBaseUrl path ++ rest /\ lacks "/" rest = true)
    /\ (getBaseUrl path = "" \/ exists dir, getBaseUrl path = dir ++ "/")
    /\ (lacks "/" path = true -> getBaseUrl path = "")
    /\ getBaseUrl (getBaseUrl path) = getBaseUrl path.
Proof.
  intros path. unfold getBaseUrl.
  destruct (last_split "/" path) as [Hl|[a [b [-> Hb]]]].
  - rewrite (lastIndexOf_lacks _ _ Hl).
    assert (E : substring 0 (-1 + 1) path = "").
    { change (-1 + 1) with (Z.of_nat (String.length "")). apply (substring_prefix "" path). }
    rewrite E. repeat split; try (now left); try reflexivity.
    now exists path.
  - assert (E : substring 0 (lastIndexOf "/" (a ++ String "/" b) + 1)
                  (a ++ String "/" b) = a ++ "/").
    { rewrite (lastIndexOf_app _ a b Hb).
      replace (Z.of_nat (String.length a) + 1)
        with (Z.of_nat (String.length (a ++ "/")))
        by (rewrite length_append; cbn [String.length]; lia).
      change (String "/" b) with ("/" ++ b).
      rewrite <- app_assoc_string. apply substring_prefix. }
    rewrite E. split; [|split; [|split]].
    + exists b. split; [|exact Hb]. now rewrite app_assoc_string.
    + right. now exists a.
    + intros H. rewrite lacks_app in H. apply andb_true_iff in H as [_ H].
      cbn [lacks] in H. now rewrite Ascii.eqb_refl in H.
    + rewrite (lastIndexOf_app "/" a "" eq_refl).
      replace (Z.of_nat (String.length a) + 1)
        with (Z.of_nat (String.length (a ++ "/")))
        by (rewrite length_append; cbn [String.length]; lia).
      rewrite <- (app_empty_r (a ++ "/")) at 2. apply substring_prefix.
Qed.

Lemma match_extension_lacks (s : string) :
  lacks "." s = true -> match_extension s = None.
Proof.
  induction s as [|x r IH]; [reflexivity|].
  cbn [lacks match_extension]. intros H. apply andb_true_iff in H as [Hx Hr].
  rewrite (IH Hr). apply negb_true_iff in Hx. now rewrite Hx.
Qed.

Lemma match_extension_app (a b : string) :
  lacks "." b = true ->
  match_extension (a ++ String "." b) = Some (String "." b).
Proof.
  intros Hb. induction a as [|x a IH].
  - cbn [append match_extension]. now rewrite (match_extension_lacks b Hb).
  - cbn [append match_extension]. now rewrite IH.
Qed.

(** X15 (which dropped files are uploaded).  The drop listener goes on to
    upload exactly the files whose name, in lower case, ends with ".csv",
    ".xlsx" or ".xls"; a drop that carries no file is turned down. *)
Theorem drop_accepts_by_extension :
  forall name : string,
    (drop_accepts (Some name) = true
     <-> exists stem, toLowerCase name = stem ++ ".csv"
                      \/ toLowerCase name = stem ++ ".xlsx"
                      \/ toLowerCase name = stem ++ ".xls")
    /\ drop_accepts None = false.
Proof.
  intros name. split; [|reflexivity].
  unfold drop_accepts, fileExt, allowedExtensions. cbn [existsb].
  rewrite orb_false_r. split.
  - destruct (last_split "." (toLowerCase name)) as [Hl|[a [b [E Hb]]]].
    + rewrite (match_extension_lacks _ Hl). discriminate.
    + rewrite E, (match_extension_app a b Hb). unfold or_else. cbn [truthy is_empty negb].
      intros H. exists a.
      apply orb_true_iff in H as [H|H]; [|apply orb_true_iff in H as [H|H]];
        apply String.eqb_eq in H; injection H as ->; auto.
  - intros [stem [E|[E|E]]]; rewrite E.
    + change (stem ++ ".csv") with (stem ++ String "." "csv").
      now rewrite match_extension_app.
    + change (stem ++ ".xlsx") with (stem ++ String "." "xlsx").
      now rewrite match_extension_app.
    + change (stem ++ ".xls") with (stem ++ String "." "xls").
      now rewrite match_extension_app.
Qed.

(* ---------- replies of the server ---------- *)


Lemma length_mapi_from {A B : Type} (f : nat -> A -> B) (i : nat) (l : list A) :
  List.length (mapi_from f i l) = List.length l.
Proof. revert i. induction l; intros i; cbn; congruence. Qed.



Lemma nth_error_list_set {A : Type} (n : nat) (x : A) (l : list A) :
  (n < List.length l)%nat -> nth_error (list_set n x l) n = Some x.
Proof.
  revert n. induction l as [|a l IH]; intros [|n] H; cbn in *; try lia.
  - reflexivity.
  - apply IH. lia.
Qed.

(** X17 (a save that fails late).  A save that fails writes the row its
    cell was rendered from at the index of that row, whatever the table
    has become in the meantime: the waiting saves outlive the reply that
    replaces the table after a clearing, and if one of them then fails,
    the row rendered before the clearing is back in the table. *)
Theorem late_failure_writes_the_old_row_back :
  forall (data : list RowData) (s : State) (k : nat) (p : Pending) (n : nat)
         (v : JsVal),
    nth_error (pending s) k = Some p ->
    p_rowIndex p = Some (Z.of_nat n) ->
    get (p_columnName p) (p_row p) = Some v ->
    let s1 := clear_reply data s in
    let s2 := settle k false s1 in
    tableData s1 = data
    /\ pending s1 = pending s
    /\ nth_error (tableData s2) n = Some (p_row p)
    /\ (List.length data <= n -> List.length (tableData s2) = S n)%nat.
Proof.
  intros data s k p n v Hp Hidx Hget s1 s2.
  split; [reflexivity|]. split; [reflexivity|].
  assert (Htd : tableData s2 = array_set (Some (Z.of_nat n)) (p_row p) data).
  { subst s2. unfold settle.
    change (pending s1) with (pending s). rewrite Hp, Hget.
    cbn [tableData with_tableData]. rewrite Hidx.
    destruct (Nat.eqb _ _); reflexivity. }
  rewrite Htd.
  destruct (Nat.lt_ge_cases n (List.length data)) as [Hlt|Hge].
  - rewrite (array_set_nat n _ data Hlt). split; [|lia].
    now apply nth_error_list_set.
  - unfold array_set. unfold RowData in *.
    destruct (Z.ltb_spec (Z.of_nat n) 0); [lia|].
    match goal with
    | |- context [if ?c then _ else _] =>
        destruct c eqn:E; [apply Z.ltb_lt in E; lia|]
    end.
    rewrite Nat2Z.id. split.
    + rewrite nth_error_app2 by lia.
      rewrite nth_error_app2 by (rewrite repeat_length; lia).
      rewrite repeat_length.
      replace (n - List.length data - (n - List.length data))%nat with O by lia.
      reflexivity.
    + intros _. rewrite !length_app, repeat_length. cbn. lia.
Qed.

Lemma late_failure_writes_the_old_row_back_witness :
  let s := fst (edit_cell 0 1 "9" Example.loaded) in
  tableData (clear_reply [] s) = []
  /\ tableData (settle 0 false (clear_reply [] s)) = [Example.row0].
Proof.
  intros s.
  pose (p := nth 0 (pending s)
               {| p_generation := O; p_r := O; p_c := O; p_row := [];
                  p_columnName := ""; p_rowIndex := None |}).
  assert (H1 : nth_error (pending s) 0 = Some p) by (vm_compute; reflexivity).
  assert (H2 : p_rowIndex p = Some (Z.of_nat 0)) by (vm_compute; reflexivity).
  assert (H3 : get (p_columnName p) (p_row p) = Some (VNum (Fin 5 0)))
    by (vm_compute; reflexivity).
  destruct (late_failure_writes_the_old_row_back [] s 0 p 0 _ H1 H2 H3)
    as [Ha [_ [Hb Hc]]].
  split; [exact Ha|].
  specialize (Hc (Nat.le_refl 0)).
  destruct (tableData (settle 0 false (clear_reply [] s))) as [|r [|r' l]];
    try discriminate.
  cbn in Hb. injection Hb as ->. vm_compute. reflexivity.
Defined.



(* ---------- values sent for a correlation ---------- *)

Lemma extract_valid (columnName : string) (s : State) :
  snd (extractNumericValues columnName s) = true ->
  List.length (fst (extractNumericValues columnName s)) = List.length (tableData s)
  /\ forall v, In v (fst (extractNumericValues columnName s)) -> v <> NaN.
Proof.
  unfold extractNumericValues. cbn [fst snd]. intros H. split.
  - destruct (String.eqb columnName "Date"); apply length_map.
  - intros v Hin ->. apply negb_true_iff in H.
    assert (Hex : existsb isNaN
                    (if String.eqb columnName "Date"
                     then map (fun d => Date_getTime (get columnName d)) (tableData s)
                     else map (fun d => parseFloat (string_of (get columnName d)))
                              (tableData s)) = true).
    { apply existsb_exists. now exists NaN. }
    congruence.
Qed.

(** X19 (the numbers read off a column).  For a column other than Date in
    which every row holds a number, [extractNumericValues] returns the
    numbers stored, in the order of the rows, and tells them valid; and as
    soon as one row has no value under the column, it tells the values not
    valid. *)
Theorem extractNumericValues_reads_the_column :
  forall (s : State) (columnName : string),
    columnName <> "Date" ->
    ((forall row, In row (tableData s) ->
        exists x, get columnName row = Some (VNum x)
                  /\ canonical x = true /\ x <> NaN) ->
     extractNumericValues columnName s
     = (map (fun row => to_number (get columnName row)) (tableData s), true))
    /\ ((exists row, In row (tableData s) /\ get columnName row = None) ->
        snd (extractNumericValues columnName s) = false).
Proof.
  intros s columnName Hd. apply String.eqb_neq in Hd.
  unfold extractNumericValues. rewrite Hd. split.
  - intros H.
    assert (E : map (fun d => parseFloat (string_of (get columnName d))) (tableData s)
                = map (fun row => to_number (get columnName row)) (tableData s)).
    { apply map_ext_in. intros row Hin.
      destruct (H row Hin) as [x [-> [Hc _]]]. cbn [string_of to_string to_number].
      now apply parseFloat_number_to_string. }
    rewrite E. f_equal. apply negb_true_iff.
    destruct (existsb isNaN _) eqn:Hex; [|reflexivity].
    apply existsb_exists in Hex as [v [Hin Hv]].
    apply in_map_iff in Hin as [row [<- Hrow]].
    destruct (H row Hrow) as [x [Hx [_ Hn]]]. rewrite Hx in Hv.
    cbn [to_number] in Hv. destruct x; try discriminate. contradiction.
  - intros [row [Hin Hnone]]. cbn [snd]. apply negb_false_iff.
    apply existsb_exists. exists NaN. split; [|reflexivity].
    apply in_map_iff. exists row. split; [|exact Hin]. now rewrite Hnone.
Qed.

Lemma extractNumericValues_reads_the_column_witness :
  extractNumericValues "Variable 1" Example.loaded = ([Fin 5 0], true).
Proof.
  assert (H1 : "Variable 1" <> "Date") by discriminate.
  destruct (extractNumericValues_reads_the_column Example.loaded "Variable 1" H1)
    as [H _].
  rewrite H; [reflexivity|].
  intros row Hin.
  assert (Hrows : tableData Example.loaded = [Example.row0]) by reflexivity.
  rewrite Hrows in Hin. destruct Hin as [<-|[]].
  exists (Fin 5 0). repeat split. discriminate.
Defined.

(** X20 (no request without numbers).  When [calculateCorrelations] sends
    its requests, there are three of them, each carries one x value and one
    y value for every row of the table, and no value sent is [NaN]; so a
    column with a value that is no number stops all three. *)
Theorem calculateCorrelations_sends_numbers_only :
  forall (s : State) (requests : list CorrelationRequest),
    calculateCorrelations s = Some requests ->
    List.length requests = 3%nat
    /\ forall q, In q requests ->
         List.length (x_values q) = List.length (tableData s)
         /\ List.length (y_values q) = List.length (tableData s)
         /\ forall v, In v (x_values q) \/ In v (y_values q) -> v <> NaN.
Proof.
  intros s requests. unfold calculateCorrelations.
  destruct (snd (extractNumericValues (select_value (xAxisSelect s)) s)) eqn:Hx;
    [|discriminate].
  destruct (snd (extractNumericValues (select_value (yAxis1Select s)) s)) eqn:Hy1;
    [|discriminate].
  destruct (snd (extractNumericValues (select_value (yAxis2Select s)) s)) eqn:Hy2;
    [|discriminate].
  cbn [negb orb]. intros [= <-]. split; [reflexivity|].
  destruct (extract_valid _ s Hx) as [Lx Nx].
  destruct (extract_valid _ s Hy1) as [L1 N1].
  destruct (extract_valid _ s Hy2) as [L2 N2].
  intros q [<-|[<-|[<-|[]]]]; cbn [x_values y_values];
    (split; [assumption|]); (split; [assumption|]);
    intros v [Hv|Hv]; auto.
Qed.

Lemma calculateCorrelations_sends_numbers_only_witness :
  exists requests,
    calculateCorrelations Example.loaded = Some requests
    /\ List.length requests = 3%nat.
Proof.
  destruct (calculateCorrelations Example.loaded) as [requests|] eqn:E.
  - exists requests. split; [reflexivity|].
    exact (proj1 (calculateCorrelations_sends_numbers_only Example.loaded requests E)).
  - vm_compute in E. discriminate.
Defined.

(* ---------- the change of the correlations ---------- *)

Lemma strip10_opp (fuel : nat) (m e : Z) :
  strip10 fuel (- m) e
  = (- fst (strip10 fuel m e), snd (strip10 fuel m e)).
Proof.
  revert m e. induction fuel as [|f IH]; intros m e; [reflexivity|].
  cbn [strip10].
  destruct (Z.eqb_spec (m mod 10) 0) as [Hm|Hm].
  - assert (H1 : (- m) mod 10 = 0) by (apply Z.mod_opp_l_z; lia).
    rewrite H1. cbn [Z.eqb].
    replace (- m / 10) with (- (m / 10)) by (symmetry; apply Z.div_opp_l_z; lia).
    apply IH.
  - assert (H1 : (- m) mod 10 <> 0).
    { intros H. apply Hm. apply Z.mod_opp_l_z in H; [|lia].
      now rewrite Z.opp_involutive in H. }
    apply Z.eqb_neq in H1. now rewrite H1.
Qed.

Lemma num_abs_mkFin_opp (m e : Z) : num_abs (mkFin (- m) e) = num_abs (mkFin m e).
Proof.
  unfold mkFin. destruct (Z.eqb_spec m 0) as [->|Hm]; [reflexivity|].
  destruct (Z.eqb_spec (- m) 0); [lia|].
  rewrite Z.abs_opp, strip10_opp.
  destruct (strip10 _ m e) as [m' e']. cbn [fst snd num_abs].
  now rewrite Z.abs_opp.
Qed.

Lemma num_abs_sub_comm (a b : JsNum) :
  num_abs (num_sub a b) = num_abs (num_sub b a).
Proof.
  destruct a as [| x | m1 e1], b as [| y | m2 e2]; try reflexivity.
  - cbn [num_sub]. destruct x, y; reflexivity.
  - cbn [num_sub]. rewrite (Z.min_comm e2 e1).
    rewrite <- num_abs_mkFin_opp. f_equal. f_equal. lia.
Qed.

Lemma within_tolerance_refl (a : JsNum) :
  num_gtb (num_abs (num_sub a a)) (Fin 1 (-1)) = false.
Proof.
  destruct a as [| x | m e]; [reflexivity | now destruct x |].
  cbn [num_sub]. rewrite Z.sub_diag. reflexivity.
Qed.

Lemma changed_from_refl (l : list Correlation) : changed_from l l = false.
Proof.
  induction l as [|c l IH]; [reflexivity|].
  cbn [changed_from]. unfold str_neqb.
  now rewrite !String.eqb_refl, within_tolerance_refl.
Qed.

Lemma changed_from_sym (a b : list Correlation) :
  List.length a = List.length b -> changed_from a b = changed_from b a.
Proof.
  revert b. induction a as [|x a IH]; intros [|y b] H; try discriminate;
    [reflexivity|].
  cbn [changed_from]. unfold str_neqb.
  rewrite (String.eqb_sym (variable1 x)), (String.eqb_sym (variable2 x)).
  rewrite (num_abs_sub_comm (correlation x)).
  rewrite (IH b) by (cbn in H; congruence). reflexivity.
Qed.

(** X21 (when the correlations count as changed).  A reply is never a
    change from itself, so that after [updateCorrelationContext] has taken
    a reply in, the same reply coming again neither moves
    [lastCorrelations] nor shows the notification again; and whether two
    lists differ does not depend on which of them is the old one. *)
Theorem correlation_change_is_settled_by_one_update :
  forall (reply other : list Correlation) (c : Chat),
    let c' := updateCorrelationContext (Some reply) c in
    hasCorrelationsChanged reply c' = false
    /\ updateCorrelationContext (Some reply) c' = c'
    /\ (hasCorrelationsChanged reply c = true ->
        lastCorrelations c' = reply /\ notification c' = true)
    /\ (hasCorrelationsChanged reply c = false -> c' = c)
    /\ hasCorrelationsChanged reply
         {| lastCorrelations := other; notification := notification c |}
       = hasCorrelationsChanged other
           {| lastCorrelations := reply; notification := notification c |}.
Proof.
  intros reply other c c'.
  assert (Hrefl : forall n, hasCorrelationsChanged reply
                              {| lastCorrelations := reply; notification := n |}
                            = false).
  { intros n. unfold hasCorrelationsChanged. cbn [lastCorrelations].
    now rewrite Nat.eqb_refl, changed_from_refl. }
  assert (H1 : hasCorrelationsChanged reply c' = false).
  { subst c'. unfold updateCorrelationContext.
    destruct (hasCorrelationsChanged reply c) eqn:E; [apply Hrefl | exact E]. }
  split; [exact H1|]. split.
  { unfold updateCorrelationContext at 1. now rewrite H1. }
  split.
  { intros E. subst c'. unfold updateCorrelationContext. rewrite E. now split. }
  split.
  { intros E. subst c'. unfold updateCorrelationContext. now rewrite E. }
  unfold hasCorrelationsChanged. cbn [lastCorrelations].
  rewrite (Nat.eqb_sym (List.length other)).
  destruct (Nat.eqb_spec (List.length reply) (List.length other)) as [E|E];
    [|reflexivity].
  cbn [negb]. now apply changed_from_sym.
Qed.

(* ---------- sorting with any comparator ---------- *)

Section SortAny.
Context {A : Type} (comparefn : A -> A -> JsNum).

Lemma insert_perm_any (x : A) (l : list A) :
  Permutation (insert comparefn x l) (x :: l).
Proof.
  induction l as [|y l IH]; [reflexivity|].
  cbn [insert]. destruct (is_pos (comparefn x y)); [|reflexivity].
  rewrite IH. apply perm_swap.
Qed.

Lemma sort_perm_any (l : list A) : Permutation (sort comparefn l) l.
Proof.
  induction l as [|x l IH]; [reflexivity|].
  cbn [sort]. rewrite insert_perm_any. now apply perm_skip.
Qed.

Variable le : A -> A -> Prop.
Hypothesis le_trans : forall a b c, le a b -> le b c -> le a c.
Hypothesis le_not_pos : forall a b, is_pos (comparefn a b) = false -> le a b.
Hypothesis le_pos : forall a b, is_pos (comparefn a b) = true -> le b a.

Lemma insert_sorted_any (x : A) (l : list A) :
  StronglySorted le l -> StronglySorted le (insert comparefn x l).
Proof.
  induction 1 as [|y l Hs IH Hy]; [repeat constructor|].
  cbn [insert]. destruct (is_pos (comparefn x y)) eqn:E.
  - constructor; [exact IH|].
    apply Forall_forall. intros z Hz.
    apply (Permutation_in _ (insert_perm_any x l)) in Hz.
    destruct Hz as [<-|Hz]; [now apply le_pos|].
    now apply (proj1 (Forall_forall _ _) Hy).
  - constructor; [now constructor|].
    constructor; [now apply le_not_pos|].
    apply Forall_forall. intros z Hz.
    apply (le_trans _ y); [now apply le_not_pos|].
    now apply (proj1 (Forall_forall _ _) Hy).
Qed.

Lemma sort_sorted_any (l : list A) : StronglySorted le (sort comparefn l).
Proof.
  induction l as [|x l IH]; [constructor|].
  cbn [sort]. now apply insert_sorted_any.
Qed.

End SortAny.

(* ---------- the order of code units ---------- *)

Lemma compare_cons (x y : ascii) (a b : string) :
  String.compare (String x a) (String y b)
  = match N.compare (N_of_ascii x) (N_of_ascii y) with
    | Eq => String.compare a b
    | Lt => Lt
    | Gt => Gt
    end.
Proof. reflexivity. Qed.

Lemma leb_trans (a b c : string) :
  String.leb a b = true -> String.leb b c = true -> String.leb a c = true.
Proof.
  unfold String.leb. revert b c.
  induction a as [|x a IH]; intros [|y b] [|z c]; try reflexivity;
    try (cbn; discriminate).
  rewrite !compare_cons.
  destruct (N.compare_spec (N_of_ascii x) (N_of_ascii y)) as [E1|E1|E1];
    destruct (N.compare_spec (N_of_ascii y) (N_of_ascii z)) as [E2|E2|E2];
    destruct (N.compare_spec (N_of_ascii x) (N_of_ascii z)) as [E3|E3|E3];
    try reflexivity; try discriminate; try lia.
  apply IH.
Qed.

Lemma code_unit_order_not_pos (a b : string) :
  is_pos (code_unit_order a b) = false -> String.leb a b = true.
Proof.
  unfold code_unit_order, String.leb.
  destruct (String.compare a b); [reflexivity..|discriminate].
Qed.

Lemma code_unit_order_pos (a b : string) :
  is_pos (code_unit_order a b) = true -> String.leb b a = true.
Proof.
  unfold code_unit_order, String.leb. rewrite (String.compare_antisym a b).
  destruct (String.compare b a); cbn; try discriminate. reflexivity.
Qed.

(* ---------- the variables of a reply ---------- *)

Lemma set_add_In (x y : string) (l : list string) :
  In y (set_add x l) <-> y = x \/ In y l.
Proof.
  unfold set_add. destruct (existsb (String.eqb x) l) eqn:E.
  - apply existsb_eqb_In in E. split; [now right|]. now intros [->|H].
  - rewrite in_app_iff. cbn [In]. intuition.
Qed.

Lemma set_add_NoDup (x : string) (l : list string) :
  NoDup l -> NoDup (set_add x l).
Proof.
  intros H. unfold set_add. destruct (existsb (String.eqb x) l) eqn:E; [exact H|].
  apply NoDup_app; [exact H | repeat constructor; intros [] |].
  intros y Hy [<-|[]].
  apply existsb_eqb_In in Hy. congruence.
Qed.

Lemma variables_spec (correlations : list Correlation) :
  NoDup (variables correlations)
  /\ forall v, In v (variables correlations)
               <-> exists corr, In corr correlations
                                /\ (variable1 corr = v \/ variable2 corr = v).
Proof.
  unfold variables.
  assert (H : forall vs,
             NoDup vs ->
             NoDup (fold_left (fun vs corr =>
                                 set_add (variable2 corr) (set_add (variable1 corr) vs))
                              correlations vs)
             /\ forall v,
                  In v (fold_left (fun vs corr =>
                                     set_add (variable2 corr)
                                             (set_add (variable1 corr) vs))
                                  correlations vs)
                  <-> In v vs
                      \/ exists corr, In corr correlations
                                      /\ (variable1 corr = v \/ variable2 corr = v)).
  { induction correlations as [|c cs IH]; intros vs Hvs.
    - split; [exact Hvs|]. intros v. cbn. split; [now left|].
      now intros [H|[corr [[] _]]].
    - cbn [fold_left].
      destruct (IH (set_add (variable2 c) (set_add (variable1 c) vs))) as [Hn Hi].
      { now apply set_add_NoDup, set_add_NoDup. }
      split; [exact Hn|]. intros v. rewrite Hi, !set_add_In. split.
      + intros [[->|[->|H]]|[corr [Hin Hv]]].
        * right. exists c. split; [now left | now right].
        * right. exists c. split; [now left | now left].
        * now left.
        * right. exists corr. split; [now right | exact Hv].
      + intros [H|[corr [[<-|Hin] Hv]]].
        * left. right. now right.
        * left. destruct Hv as [<-|<-]; [right; now left | now left].
        * right. now exists corr. }
  destruct (H [] (NoDup_nil _)) as [Hn Hi]. split; [exact Hn|].
  intros v. rewrite Hi. split; [|now right]. now intros [[]|Hv].
Qed.

Lemma variableList_members :
  forall correlations : list Correlation,
    NoDup (variableList correlations)
    /\ StronglySorted (fun a b => String.leb a b = true) (variableList correlations)
    /\ forall v, In v (variableList correlations)
                 <-> exists corr, In corr correlations
                                  /\ (variable1 corr = v \/ variable2 corr = v).
Proof.
  intros correlations. unfold variableList.
  destruct (variables_spec correlations) as [Hn Hi].
  pose proof (sort_perm_any code_unit_order (variables correlations)) as Hp.
  split; [|split].
  - apply (Permutation_NoDup (Permutation_sym Hp) Hn).
  - apply sort_sorted_any.
    + intros a b c. apply leb_trans.
    + apply code_unit_order_not_pos.
    + apply code_unit_order_pos.
  - intros v. rewrite <- Hi. split; intros H.
    + now apply (Permutation_in _ Hp).
    + now apply (Permutation_in _ (Permutation_sym Hp)).
Qed.

(** X22 (the variables of the heat map).  The axes of the correlation
    matrix list every variable the reply names, as first or as second of a
    pair, exactly once, in ascending order of code units. *)
Theorem variableList_lists_each_variable_once :
  forall correlations : list Correlation,
    NoDup (variableList correlations)
    /\ StronglySorted (fun a b => String.leb a b = true) (variableList correlations)
    /\ forall v, In v (variableList correlations)
                 <-> exists corr, In corr correlations
                                  /\ (variable1 corr = v \/ variable2 corr = v).
Proof. exact variableList_members. Qed.

(* ---------- the entries of the heat map ---------- *)

Lemma map_get_set {V : Type} (k k' : string) (v : V) (m : list (string * V)) :
  map_get k (map_set k' v m) = if String.eqb k k' then Some v else map_get k m.
Proof.
  induction m as [|[k0 v0] m IH].
  - cbn [map_set map_get]. now destruct (String.eqb k k').
  - cbn [map_set]. destruct (String.eqb_spec k' k0) as [->|Hne].
    + cbn [map_get]. now destruct (String.eqb k k0).
    + cbn [map_get]. rewrite IH.
      destruct (String.eqb_spec k k0) as [->|H0]; [|reflexivity].
      destruct (String.eqb_spec k0 k'); [congruence | reflexivity].
Qed.

Lemma find_app_last {A : Type} (p : A -> bool) (l : list A) (x : A) :
  find p (l ++ [x])
  = match find p l with
    | Some y => Some y
    | None => if p x then Some x else None
    end.
Proof.
  induction l as [|a l IH]; [reflexivity|].
  cbn [app find]. now destruct (p a).
Qed.

Lemma find_ext_in {A : Type} (p q : A -> bool) (l : list A) :
  (forall x, In x l -> p x = q x) -> find p l = find q l.
Proof.
  induction l as [|a l IH]; intros H; [reflexivity|].
  cbn [find]. rewrite (H a) by now left.
  rewrite IH by (intros x Hx; apply H; now right). reflexivity.
Qed.

Lemma corrLookup_get (k : string) (correlations : list Correlation) :
  map_get k (corrLookup correlations)
  = find (fun corr =>
            String.eqb k (pair_key (variable2 corr) (variable1 corr))
            || String.eqb k (pair_key (variable1 corr) (variable2 corr)))
         (rev correlations).
Proof.
  unfold corrLookup.
  assert (H : forall m,
             map_get k
               (fold_left
                  (fun m corr =>
                     map_set (pair_key (variable2 corr) (variable1 corr)) corr
                       (map_set (pair_key (variable1 corr) (variable2 corr)) corr m))
                  correlations m)
             = match find (fun corr =>
                             String.eqb k (pair_key (variable2 corr) (variable1 corr))
                             || String.eqb k (pair_key (variable1 corr)
                                                       (variable2 corr)))
                          (rev correlations) with
               | Some c => Some c
               | None => map_get k m
               end).
  { induction correlations as [|c cs IH]; intros m; [reflexivity|].
    cbn [fold_left rev]. rewrite IH, find_app_last, !map_get_set.
    destruct (find _ (rev cs)); [reflexivity|].
    destruct (String.eqb k (pair_key (variable2 c) (variable1 c)));
      [reflexivity|].
    cbn [orb]. now destruct (String.eqb k (pair_key (variable1 c) (variable2 c))). }
  rewrite H. now destruct (find _ _).
Qed.

Lemma pair_key_eqb (a b a' b' : string) :
  lacks "-" a = true -> lacks "-" a' = true ->
  String.eqb (pair_key a b) (pair_key a' b') = String.eqb a a' && String.eqb b b'.
Proof.
  unfold pair_key. revert a'.
  induction a as [|y a IH]; intros [|x a'] Ha Ha'.
  - reflexivity.
  - cbn [lacks] in Ha'. apply andb_true_iff in Ha' as [Hx _].
    apply negb_true_iff in Hx. cbn [append String.eqb].
    rewrite Ascii.eqb_sym, Hx. reflexivity.
  - cbn [lacks] in Ha. apply andb_true_iff in Ha as [Hy _].
    apply negb_true_iff in Hy. cbn [append String.eqb].
    rewrite Hy. reflexivity.
  - cbn [lacks] in Ha, Ha'.
    apply andb_true_iff in Ha as [_ Ha]. apply andb_true_iff in Ha' as [_ Ha'].
    cbn [append String.eqb].
    destruct (Ascii.eqb y x); [|reflexivity].
    now apply IH.
Qed.

(** X23 (the entries of the heat map).  When no variable has a hyphen in
    its name, the matrix is square, one row and one column for each
    variable of the axes; it has 1 on the diagonal and nothing below it;
    and above the diagonal, at the row of one variable and the column of
    another, it has the coefficient of the last correlation of the reply
    that pairs the two, in either order, or nothing when the reply pairs
    them nowhere. *)
Theorem matrix_entries :
  forall (correlations : list Correlation) (i j : nat) (vi vj : string),
    (forall corr, In corr correlations ->
       lacks "-" (variable1 corr) = true /\ lacks "-" (variable2 corr) = true) ->
    nth_error (variableList correlations) i = Some vi ->
    nth_error (variableList correlations) j = Some vj ->
    List.length (matrix correlations) = List.length (variableList correlations)
    /\ exists row,
         nth_error (matrix correlations) i = Some row
         /\ List.length row = List.length (variableList correlations)
         /\ nth_error row j
            = Some (if (j <? i)%nat then None
                    else if Nat.eqb i j then Some (Fin 1 0)
                    else option_map correlation
                           (find (relates vi vj) (rev correlations))).
Proof.
  intros correlations i j vi vj Hdash Hi Hj.
  unfold matrix. rewrite length_mapi_from. split; [reflexivity|].
  rewrite (nth_error_mapi_from_at _ _ O i vi Hi). eexists. split; [reflexivity|].
  rewrite length_mapi_from. split; [reflexivity|].
  rewrite (nth_error_mapi_from_at _ _ O j vj Hj). cbn [Nat.add].
  destruct (j <? i)%nat; [reflexivity|].
  destruct (Nat.eqb i j); [reflexivity|].
  rewrite corrLookup_get.
  assert (Hvars : forall v, In v (variableList correlations) -> lacks "-" v = true).
  { intros v Hv.
    apply (proj2 (proj2 (variableList_members correlations))) in Hv.
    destruct Hv as [corr [Hin [<-|<-]]]; now apply Hdash. }
  assert (Hvi : lacks "-" vi = true) by (eapply Hvars, nth_error_In, Hi).
  assert (Hvj : lacks "-" vj = true) by (eapply Hvars, nth_error_In, Hj).
  rewrite (find_ext_in _ (relates vi vj)).
  - now destruct (find _ _).
  - intros corr Hin. apply in_rev in Hin. destruct (Hdash corr Hin) as [H1 H2].
    rewrite !pair_key_eqb by assumption. unfold relates.
    rewrite (String.eqb_sym vi (variable2 corr)), (String.eqb_sym vj (variable1 corr)),
      (String.eqb_sym vi (variable1 corr)), (String.eqb_sym vj (variable2 corr)).
    rewrite orb_comm. f_equal. apply andb_comm.
Qed.

Lemma matrix_entries_witness :
  let reply :=
    [ {| variable1 := "b"; variable2 := "a"; correlation := Fin 5 (-1);
         p_value := Fin 1 (-2) |};
      {| variable1 := "a"; variable2 := "b"; correlation := Fin 6 (-1);
         p_value := Fin 1 (-2) |} ] in
  exists row,
    nth_error (matrix reply) 0 = Some row
    /\ nth_error row 1 = Some (Some (Fin 6 (-1))).
Proof.
  intros reply.
  assert (H : forall corr, In corr reply ->
                lacks "-" (variable1 corr) = true
                /\ lacks "-" (variable2 corr) = true).
  { intros corr [<-|[<-|[]]]; now split. }
  assert (Ha : nth_error (variableList reply) 0 = Some "a") by reflexivity.
  assert (Hb : nth_error (variableList reply) 1 = Some "b") by reflexivity.
  destruct (matrix_entries reply 0 1 "a" "b" H Ha Hb) as [_ [row [Hr [_ He]]]].
  exists row. split; [exact Hr|]. rewrite He. reflexivity.
Defined.

(* ---------- the strongest correlation ---------- *)

Lemma num_leb_neg (a b : JsNum) :
  num_leb (num_neg a) (num_neg b) = num_leb b a.
Proof.
  destruct a as [| [|] | m1 e1], b as [| [|] | m2 e2]; try reflexivity.
  cbn [num_neg num_leb]. rewrite (Z.min_comm e2 e1).
    destruct (Z.leb_spec (- m1 * 10 ^ (e1 - Z.min e1 e2))
                         (- m2 * 10 ^ (e2 - Z.min e1 e2)));
      destruct (Z.leb_spec (m2 * 10 ^ (e2 - Z.min e1 e2))
                           (m1 * 10 ^ (e1 - Z.min e1 e2))); try reflexivity; lia.
Qed.

Lemma num_sub_neg (a b : JsNum) :
  num_sub b a = num_sub (num_neg a) (num_neg b).
Proof.
  destruct a as [| [|] | m1 e1], b as [| [|] | m2 e2]; try reflexivity.
  cbn [num_neg num_sub]. rewrite (Z.min_comm e2 e1). f_equal. lia.
Qed.

(** X24 (the correlation named as strongest).  When no coefficient of the
    reply is [NaN], the correlation the summary names as strongest is one
    of the reply between two different variables, and no correlation of
    the reply between two different variables has a coefficient of larger
    absolute value; there is none to name exactly when every correlation of
    the reply is of a variable with itself. *)
Theorem strongest_has_the_largest_coefficient :
  forall correlations : list Correlation,
    (forall corr, In corr correlations -> correlation corr <> NaN) ->
    match strongest correlations with
    | Some top =>
        In top correlations
        /\ variable1 top <> variable2 top
        /\ forall corr, In corr correlations ->
             variable1 corr <> variable2 corr ->
             num_leb (num_abs (correlation corr)) (num_abs (correlation top)) = true
    | None =>
        forall corr, In corr correlations -> variable1 corr = variable2 corr
    end.
Proof.
  intros correlations Hnan.
  unfold strongest, sortedByStrength.
  set (key := fun c : Correlation => num_neg (num_abs (correlation c))).
  rewrite (sort_ext _ (by_key key))
    by (intros a b; unfold by_key, key; apply num_sub_neg).
  set (pairs := nonDiagonalCorrelations correlations).
  assert (Hpairs : forall c, In c pairs
                             <-> In c correlations /\ variable1 c <> variable2 c).
  { intros c. subst pairs. unfold nonDiagonalCorrelations.
    rewrite filter_In. unfold str_neqb. rewrite negb_true_iff, String.eqb_neq.
    reflexivity. }
  assert (Hkey : Forall (fun c => key c <> NaN) pairs).
  { apply Forall_forall. intros c Hc. apply Hpairs in Hc as [Hc _].
    specialize (Hnan c Hc). unfold key.
    destruct (correlation c); [contradiction | discriminate..]. }
  pose proof (sort_sorted key pairs Hkey) as Hsorted.
  pose proof (sort_perm key pairs) as Hperm.
  destruct (sort (by_key key) pairs) as [|top rest] eqn:E; cbn [nth_error].
  - intros corr Hin.
    destruct (String.eqb_spec (variable1 corr) (variable2 corr)) as [H|H];
      [exact H|].
    assert (Hc : In corr pairs) by now apply Hpairs.
    apply (Permutation_in _ (Permutation_sym Hperm)) in Hc. destruct Hc.
  - assert (Htop : In top pairs)
      by (apply (Permutation_in _ Hperm); now left).
    apply Hpairs in Htop as [Ht1 Ht2]. split; [exact Ht1|]. split; [exact Ht2|].
    intros corr Hin Hne.
    assert (Hc : In corr pairs) by now apply Hpairs.
    apply (Permutation_in _ (Permutation_sym Hperm)) in Hc.
    assert (Hle : key_le key top corr).
    { destruct Hc as [<-|Hc].
      - unfold key_le. fold (key top).
        assert (Hk : key top <> NaN).
        { apply (proj1 (Forall_forall _ _) Hkey).
          apply (Permutation_in _ Hperm). now left. }
        destruct (num_leb (key top) (key top)) eqn:El; [reflexivity|].
        now rewrite (num_leb_total _ _ Hk Hk El) in El.
      - apply StronglySorted_inv in Hsorted as [_ Hs].
        now apply (proj1 (Forall_forall _ _) Hs). }
    unfold key_le, key in Hle. now rewrite num_leb_neg in Hle.
Qed.

Lemma strongest_has_the_largest_coefficient_witness :
  let reply :=
    [ {| variable1 := "a"; variable2 := "b"; correlation := Fin 5 (-1);
         p_value := Fin 1 (-2) |};
      {| variable1 := "a"; variable2 := "c"; correlation := Fin (-9) (-1);
         p_value := Fin 1 (-2) |} ] in
  option_map variable2 (strongest reply) = Some "c"
  /\ match strongest reply with
     | Some top => In top reply
     | None => False
     end.
Proof.
  intros reply. split; [reflexivity|].
  assert (H : forall corr, In corr reply -> correlation corr <> NaN).
  { intros corr [<-|[<-|[]]]; discriminate. }
  pose proof (strongest_has_the_largest_coefficient reply H) as Hs.
  destruct (strongest reply) as [top|] eqn:E; [exact (proj1 Hs)|].
  vm_compute in E. discriminate.
Defined.

(* ---------- the header row and the input row ---------- *)


























(* ---------- what every row keeps ---------- *)

Lemma span_digit_stop (c : ascii) (t : string) :
  is_digit c = false -> span is_digit (String c t) = ("", String c t).
Proof. intros H. cbn [span]. now rewrite H. Qed.








Section RowsAll.
Variable P : RowData -> Prop.
Hypothesis P_set_number :
  forall row key x, P row -> key <> "Date" -> x <> NaN -> P (set key (VNum x) row).
Hypothesis P_set_date : forall row d, P row -> P (set "Date" (VStr d) row).
Hypothesis P_rename :
  forall row oldKey newKey,
    P row -> oldKey <> "Date" -> newKey <> "Date" -> P (rename_key oldKey newKey row).
Hypothesis P_new : forall d, P [("Date", VStr d)].
















End RowsAll.











(* ---------- the points of the plot ---------- *)

(** X29 (the plot shows every row once).  Whatever the rows hold, the
    points [updatePlot] hands to the plot come from a rearrangement of the
    rows of the table, none dropped and none repeated, and the three
    sequences are read off the same rearrangement, so that each x value
    goes with the y values of its own row; the traces are named after the
    columns chosen for the y axes. *)
Theorem plot_shows_every_row_once :
  forall s : State,
    exists (sortedData : list RowData) (p : Plot),
      plot (updatePlot s) = Some p
      /\ Permutation sortedData (tableData s)
      /\ trace_x p = map (get (select_value (xAxisSelect s))) sortedData
      /\ trace1_y p = map (get (select_value (yAxis1Select s))) sortedData
      /\ trace2_y p = map (get (select_value (yAxis2Select s))) sortedData
      /\ trace1_name p = select_value (yAxis1Select s)
      /\ trace2_name p = select_value (yAxis2Select s).
Proof.
  intros s.
  exists (sort (compare_rows (select_value (xAxisSelect s))) (tableData s)).
  eexists. split; [reflexivity|]. split; [apply sort_perm_any|].
  repeat split.
Qed.

(* ---------- renaming a column and renaming it back ---------- *)






